(** * organizador_python.py: a file organizer, embedded and verified

    The development follows [src/organizador_python.py].  The class
    [OrganizadorArchivos] becomes a record, its methods become functions
    over an explicit state (the directory tree below [carpeta_origen] and
    the lines printed so far), and the operating system's answers that the
    program cannot control (the order in which a directory is listed, a
    move or a removal that is refused) are parameters of a section.

    Modelling conventions:
    - strings are [string]s of bytes; [str.lower()] lower-cases the ASCII
      letters [A]-[Z] and leaves every other byte alone;
    - a path is a list of components; the directory tree is a finite map
      from paths relative to [carpeta_origen] to entries, the key [[]]
      being [carpeta_origen] itself;
    - names joined to a path with [/] (subject names, type names, file
      names) are taken to be single path components. *)

From Stdlib Require Import Ascii String.
From stdpp Require Import gmap strings list fin_maps pretty sorting.

(** ** Strings *)

Module Str.

(** One character of [str.lower()]. *)
Definition lower_ascii (c : ascii) : ascii :=
  let n := N_of_ascii c in
  if ((65 <=? n) && (n <=? 90))%N then ascii_of_N (n + 32) else c.

(** [s.lower()] *)
Fixpoint lower (s : string) : string :=
  match s with
  | EmptyString => EmptyString
  | String c r => String (lower_ascii c) (lower r)
  end.

(** [aguja in pajar] on two strings: [aguja] occurs in [pajar]. *)
Fixpoint contains (pajar aguja : string) : bool :=
  if String.prefix aguja pajar then true
  else match pajar with
       | EmptyString => false
       | String _ r => contains r aguja
       end.

(** [s.rfind('.')], with [None] for Python's [-1]. *)
Fixpoint rfind_dot (s : string) : option nat :=
  match s with
  | EmptyString => None
  | String c r =>
      match rfind_dot r with
      | Some i => Some (S i)
      | None => if Ascii.eqb c "."%char then Some 0 else None
      end
  end.

(** [sep.join(l)] *)
Definition join (sep : string) (l : list string) : string := String.concat sep l.

End Str.

(** ** pathlib *)

Abbreviation ruta := (list string).

Record Path := mkPath { absoluta : bool; parts : ruta }.

Global Instance Path_eq_dec : EqDecision Path.
Proof. solve_decision. Defined.

(** [p / r], for [r] a sequence of components. *)
Definition Path_div (p : Path) (r : ruta) : Path :=
  mkPath (absoluta p) (parts p ++ r).

(** [p.parent] *)
Definition Path_parent (p : Path) : Path :=
  mkPath (absoluta p) (removelast (parts p)).

(** [p.name] *)
Definition Path_name (p : Path) : string := List.last (parts p) "".

(** [str(p)] *)
Definition Path_str (p : Path) : string :=
  if absoluta p then "/" +:+ Str.join "/" (parts p)
  else match parts p with
       | [] => "."
       | _ => Str.join "/" (parts p)
       end.

(** [len(p.parts)]: the anchor of an absolute path counts as a part. *)
Definition len_parts (p : Path) : nat :=
  (if absoluta p then 1 else 0) + length (parts p).

(** The index [i] of the last dot of a name when [0 < i < len(name) - 1],
    which is where pathlib cuts a name into stem and suffix. *)
Definition corte (name : string) : option nat :=
  match Str.rfind_dot name with
  | Some i => if (0 <? i) && (i <? String.length name - 1) then Some i else None
  | None => None
  end.

(** [PurePath.suffix] of a file name. *)
Definition suffix (name : string) : string :=
  match corte name with
  | Some i => String.substring i (String.length name - i) name
  | None => ""
  end.

(** [PurePath.stem] of a file name. *)
Definition stem (name : string) : string :=
  match corte name with
  | Some i => String.substring 0 i name
  | None => name
  end.

(** ** The directory tree below [carpeta_origen] *)

Inductive entrada :=
| Archivo (contenido : string)
| Carpeta.

Global Instance entrada_eq_dec : EqDecision entrada.
Proof. solve_decision. Defined.

Abbreviation sistema := (gmap (list string) entrada).

Definition existe (fs : sistema) (p : ruta) : bool := bool_decide (is_Some (fs !! p)).

Definition is_file (fs : sistema) (p : ruta) : bool :=
  match fs !! p with Some (Archivo _) => true | _ => false end.

Definition is_dir (fs : sistema) (p : ruta) : bool :=
  match fs !! p with Some Carpeta => true | _ => false end.

(** [q] is an entry of the directory [d]. *)
Definition hijo_de (d q : ruta) : bool :=
  bool_decide (q ≠ [] ∧ removelast q = d).

(** [any(d.iterdir())] *)
Definition tiene_entradas (fs : sistema) (d : ruta) : bool :=
  existsb (hijo_de d) (map_to_list fs).*1.

(** The names in [carpeta_origen], in the map's own order. *)
Definition nombres_raiz (fs : sistema) : list string :=
  omap (λ q, match q with [n] => Some n | _ => None end) (map_to_list fs).*1.

(** Every path below [carpeta_origen], in the map's own order; nothing
    when [carpeta_origen] is not a directory. *)
Definition rutas_bajo_raiz (fs : sistema) : list ruta :=
  if is_dir fs [] then filter (λ q, q ≠ []) (map_to_list fs).*1 else [].

(** A tree: whatever exists sits in a directory that exists. *)
Definition bien_formado (fs : sistema) : Prop :=
  map_Forall (λ (q : ruta) (_ : entrada), q ≠ [] → fs !! removelast q = Some Carpeta) fs.

Inductive excepcion :=
| FileNotFoundError
| FileExistsError
| NotADirectoryError
| PermissionError
| ShutilError
| OSError.

Inductive intento :=
| Hecho (fs : sistema)
| Falla (x : excepcion).

(** [p.mkdir(exist_ok=True)]: an existing directory is left as it is; a
    file of that name, or a missing parent, raises. *)
Definition mkdir (p : ruta) (fs : sistema) : intento :=
  match fs !! p with
  | Some Carpeta => Hecho fs
  | Some (Archivo _) => Falla FileExistsError
  | None =>
      match p with
      | [] => Falla FileNotFoundError
      | _ =>
          match fs !! removelast p with
          | Some Carpeta => Hecho (<[p := Carpeta]> fs)
          | Some (Archivo _) => Falla NotADirectoryError
          | None => Falla FileNotFoundError
          end
      end
  end.

(** ** The class [OrganizadorArchivos] *)

(** The lines the program prints, one constructor per [print] of the
    source; the text of a caught exception is left out. *)
Inductive linea :=
| L_creando_estructura
| L_creada (materia tipo : string)
| L_moviendo_de_subcarpetas
| L_movido (item : ruta) (destino : string)
| L_error_moviendo (nombre : string)
| L_eliminando_vacias
| L_eliminada (carpeta : ruta)
| L_no_se_pudo_eliminar (nombre : string)
| L_archivos_movidos (n : nat)
| L_carpetas_eliminadas (n : nat)
| L_organizando
| L_organizado (nombre materia tipo : string)
| L_error_organizando (nombre : string)
| L_sin_carpeta (nombre materia tipo : string)
| L_no_organizado (nombre : string) (motivo : list string)
| L_separador
| L_resumen
| L_archivos_organizados (n : nat)
| L_archivos_sin_organizar (n : nat)
| L_no_se_pudieron_organizar
| L_pendiente (nombre : string).

Global Instance linea_eq_dec : EqDecision linea.
Proof. solve_decision. Defined.

(** What a run acts on: the tree and the output so far. *)
Record estado := mkEstado { fs : sistema; salida : list linea }.

Definition print (l : linea) (e : estado) : estado :=
  mkEstado (fs e) (salida e ++ [l]).

Definition con_fs (fs' : sistema) (e : estado) : estado :=
  mkEstado fs' (salida e).

(** The value of a Python function that ends without [return]. *)
Inductive NoneType := PyNone.

(** A call either returns a value or lets an exception escape; either
    way it leaves a state behind. *)
Inductive resultado (A : Type) :=
| Normal (valor : A) (e : estado)
| Excepcion (x : excepcion) (e : estado).
Arguments Normal {A} valor e.
Arguments Excepcion {A} x e.

Definition estado_final {A} (r : resultado A) : estado :=
  match r with Normal _ e => e | Excepcion _ e => e end.


Definition valor_de {A} (r : resultado A) : option A :=
  match r with Normal v _ => Some v | Excepcion _ _ => None end.

Definition luego {A B} (r : resultado A) (k : A → estado → resultado B) : resultado B :=
  match r with
  | Normal a e => k a e
  | Excepcion x e => Excepcion x e
  end.

Record OrganizadorArchivos := mkOrganizador {
  carpeta_origen : Path;
  materias_palabras_clave : list (string * list string);
  estructura_personalizada : gmap string (list string);
  tipos_archivos : list (string * list string);
  estructura_default : list string
}.

(** [__init__]: a dictionary keeps its keys in insertion order, so the two
    tables that are iterated are association lists; the table that is only
    looked up is a finite map. *)
Definition init (carpeta : Path) (materias_con_palabras_clave : list (string * list string))
    (estructura : option (gmap string (list string))) : OrganizadorArchivos :=
  {| carpeta_origen := carpeta;
     materias_palabras_clave := materias_con_palabras_clave;
     estructura_personalizada := default ∅ estructura;
     tipos_archivos :=
       [ ("pdf", [".pdf"]);
         ("words", [".doc"; ".docx"]);
         ("powerpoint", [".ppt"; ".pptx"]);
         ("imagenes", [".jpg"; ".jpeg"; ".png"; ".gif"; ".bmp"; ".tiff"]);
         ("diagramas", [".vsd"; ".vsdx"; ".drawio"; ".lnk"; ".xml"]);
         ("comprimidos", [".zip"; ".rar"; ".7z"; ".tar"; ".gz"]);
         ("codigo", [".py"; ".java"; ".c"; ".cpp"; ".js"; ".html"; ".css"]) ];
     estructura_default := ["pdf"; "words"; "powerpoint"] |}.

(** [d.keys()] *)
Definition keys {A} (d : list (string * A)) : list string := d.*1.

(** [x in l] for a list of strings. *)
Definition en_lista (x : string) (l : list string) : bool := bool_decide (x ∈ l).

(** Python's truth value of [None] or a string. *)
Definition verdadero (o : option string) : bool :=
  match o with
  | Some s => negb (bool_decide (s = ""))
  | None => false
  end.

Definition obtener_carpetas_para_materia (self : OrganizadorArchivos) (materia : string)
    : list string :=
  if bool_decide (materia ∈ dom (estructura_personalizada self))
  then estructura_personalizada self !!! materia
  else estructura_default self.

(** The inner loop of [identificar_materia]: some keyword of the subject
    occurs in the lower-cased name. *)
Fixpoint alguna_palabra (nombre_lower : string) (palabras_clave : list string) : bool :=
  match palabras_clave with
  | [] => false
  | palabra :: resto =>
      if Str.contains nombre_lower (Str.lower palabra) then true
      else alguna_palabra nombre_lower resto
  end.

Fixpoint buscar_materia (nombre_lower : string) (items : list (string * list string))
    : option string :=
  match items with
  | [] => None
  | (materia, palabras_clave) :: resto =>
      if alguna_palabra nombre_lower palabras_clave then Some materia
      else buscar_materia nombre_lower resto
  end.

Definition identificar_materia (self : OrganizadorArchivos) (nombre_archivo : string)
    : option string :=
  let nombre_lower := Str.lower nombre_archivo in
  buscar_materia nombre_lower (materias_palabras_clave self).

Fixpoint buscar_tipo (extension_lower : string) (items : list (string * list string))
    : option string :=
  match items with
  | [] => None
  | (tipo, extensiones) :: resto =>
      if en_lista extension_lower extensiones then Some tipo
      else buscar_tipo extension_lower resto
  end.

Definition obtener_tipo_archivo (self : OrganizadorArchivos) (extension : string)
    : option string :=
  buscar_tipo (Str.lower extension) (tipos_archivos self).

(** ** The methods that touch the directory tree *)

Section Entorno.

(** What the operating system decides: the paths on which a move or a
    removal is refused, and the order in which [rglob] and [iterdir] list
    what is there. *)
Variable denegado : ruta → bool.
Variable rglob : sistema → list ruta.
Variable iterdir : sistema → list string.

(** [shutil.move(src, dst)] for a regular file [src]: into [dst] when [dst]
    is a directory (refused when the name is taken there), else onto [dst],
    replacing a file that is there; the directory of the target must
    exist. *)
Definition shutil_move (src dst : ruta) (t : sistema) : intento :=
  if denegado src then Falla PermissionError
  else match t !! src with
       | Some (Archivo c) =>
           let real_dst := if is_dir t dst then dst ++ [List.last src ""] else dst in
           if is_dir t dst && existe t real_dst then Falla ShutilError
           else if is_dir t (removelast real_dst) && bool_decide (real_dst ≠ [])
                then Hecho (<[real_dst := Archivo c]> (delete src t))
                else Falla FileNotFoundError
       | _ => Falla FileNotFoundError
       end.

(** [d.rmdir()] *)
Definition rmdir (d : ruta) (t : sistema) : intento :=
  if denegado d then Falla PermissionError
  else if is_dir t d && negb (tiene_entradas t d) then Hecho (delete d t)
       else Falla OSError.

Variable self : OrganizadorArchivos.

(** The inner loop of [crear_estructura_carpetas]. *)
Fixpoint crear_tipos (materia : string) (carpetas_materia : list string) (e : estado)
    : resultado NoneType :=
  match carpetas_materia with
  | [] => Normal PyNone e
  | tipo :: resto =>
      match mkdir [materia; tipo] (fs e) with
      | Hecho t => crear_tipos materia resto (print (L_creada materia tipo) (con_fs t e))
      | Falla x => Excepcion x e
      end
  end.

Fixpoint crear_materias (materias : list string) (e : estado) : resultado NoneType :=
  match materias with
  | [] => Normal PyNone e
  | materia :: resto =>
      match mkdir [materia] (fs e) with
      | Hecho t =>
          let carpetas_materia := obtener_carpetas_para_materia self materia in
          luego (crear_tipos materia carpetas_materia (con_fs t e))
                (λ _, crear_materias resto)
      | Falla x => Excepcion x e
      end
  end.

Definition crear_estructura_carpetas (e : estado) : resultado NoneType :=
  crear_materias (keys (materias_palabras_clave self)) (print L_creando_estructura e).

(** [any(materia in str(p) for materia in self.materias_palabras_clave.keys())] *)
Definition en_carpeta_de_materia (p : Path) : bool :=
  existsb (λ materia, Str.contains (Path_str p) materia) (keys (materias_palabras_clave self)).

(** [f"{base}_{contador}{ext}"] *)
Definition con_contador (base : string) (contador : nat) (ext : string) : string :=
  base +:+ "_" +:+ pretty contador +:+ ext.

(** The loop [while destino.exists(): ...] on the name of [destino]; [n]
    bounds the number of rounds. *)
Fixpoint mientras_existe (t : sistema) (base ext : string) (n : nat)
    (destino : string) (contador : nat) : option string :=
  if existe t [destino] then
    match n with
    | 0 => None
    | S n' => mientras_existe t base ext n' (con_contador base contador ext) (S contador)
    end
  else Some destino.

(** The name under which a file called [nombre] lands in [carpeta_origen].
    A tree of [size t] entries has a free name among the first
    [size t + 1] numbered ones, so the loop is given that many rounds. *)
Definition destino_libre (t : sistema) (nombre : string) : option string :=
  if existe t [nombre] then
    mientras_existe t (stem nombre) (suffix nombre) (S (size t)) nombre 1
  else Some nombre.

(** The body of the first loop of [mover_archivos_de_subcarpetas], on the
    state and the count [archivos_movidos]. *)
Definition mover_item (item : ruta) (s : estado * nat) : estado * nat :=
  let '(e, archivos_movidos) := s in
  if is_file (fs e) item
     && bool_decide (Path_parent (Path_div (carpeta_origen self) item) ≠ carpeta_origen self)
  then
    if en_carpeta_de_materia (Path_parent (Path_div (carpeta_origen self) item)) then s
    else
      match destino_libre (fs e) (List.last item "") with
      | Some destino =>
          match shutil_move item [destino] (fs e) with
          | Hecho t => (print (L_movido item destino) (con_fs t e), S archivos_movidos)
          | Falla _ => (print (L_error_moviendo (List.last item "")) e, archivos_movidos)
          end
      | None => s
      end
  else s.

(** [sorted(l, key=lambda p: len(p.parts), reverse=True)]: stable, the
    deepest paths first. *)
Fixpoint insertar_por_profundidad (p : ruta) (l : list ruta) : list ruta :=
  match l with
  | [] => [p]
  | q :: l' =>
      if (len_parts (Path_div (carpeta_origen self) q)
            <=? len_parts (Path_div (carpeta_origen self) p))%nat
      then p :: q :: l'
      else q :: insertar_por_profundidad p l'
  end.

Definition sorted_reverse (l : list ruta) : list ruta :=
  foldr insertar_por_profundidad [] l.

(** The body of the second loop, on the state and [carpetas_eliminadas]. *)
Definition eliminar_carpeta (carpeta : ruta) (s : estado * nat) : estado * nat :=
  let '(e, carpetas_eliminadas) := s in
  if is_dir (fs e) carpeta
     && bool_decide (Path_div (carpeta_origen self) carpeta ≠ carpeta_origen self)
  then
    if en_lista (Path_name (Path_div (carpeta_origen self) carpeta))
                (keys (materias_palabras_clave self)) then s
    else if en_carpeta_de_materia (Path_parent (Path_div (carpeta_origen self) carpeta)) then s
    else if negb (tiene_entradas (fs e) carpeta) then
      match rmdir carpeta (fs e) with
      | Hecho t => (print (L_eliminada carpeta) (con_fs t e), S carpetas_eliminadas)
      | Falla _ =>
          (print (L_no_se_pudo_eliminar (Path_name (Path_div (carpeta_origen self) carpeta))) e,
           carpetas_eliminadas)
      end
    else s
  else s.

Definition mover_archivos_de_subcarpetas (e : estado) : NoneType * estado :=
  let e := print L_moviendo_de_subcarpetas e in
  let '(e, archivos_movidos) := foldl (flip mover_item) (e, 0) (rglob (fs e)) in
  let e := print L_eliminando_vacias e in
  let '(e, carpetas_eliminadas) :=
    foldl (flip eliminar_carpeta) (e, 0) (sorted_reverse (rglob (fs e))) in
  let e := print (L_archivos_movidos archivos_movidos) e in
  let e := print (L_carpetas_eliminadas carpetas_eliminadas) e in
  (PyNone, e).

(** The locals of the loop of [organizar_archivos]. *)
Record locales := mkLocales {
  l_estado : estado;
  archivos_organizados : nat;
  archivos_no_organizados : list string
}.

(** The body of the loop of [organizar_archivos], for the entry of
    [carpeta_origen] called [nombre_archivo]. *)
Definition organizar_item (nombre_archivo : string) (l : locales) : locales :=
  let e := l_estado l in
  let archivo := [nombre_archivo] in
  if is_dir (fs e) archivo then l
  else
    let extension := suffix nombre_archivo in
    let materia := identificar_materia self nombre_archivo in
    let tipo := obtener_tipo_archivo self extension in
    if verdadero materia && verdadero tipo then
      let m := default "" materia in
      let t := default "" tipo in
      let carpetas_materia := obtener_carpetas_para_materia self m in
      if en_lista t carpetas_materia then
        match shutil_move archivo [m; t; nombre_archivo] (fs e) with
        | Hecho t' =>
            mkLocales (print (L_organizado nombre_archivo m t) (con_fs t' e))
                      (S (archivos_organizados l)) (archivos_no_organizados l)
        | Falla _ =>
            mkLocales (print (L_error_organizando nombre_archivo) e)
                      (archivos_organizados l) (archivos_no_organizados l ++ [nombre_archivo])
        end
      else
        mkLocales (print (L_sin_carpeta nombre_archivo m t) e)
                  (archivos_organizados l) (archivos_no_organizados l ++ [nombre_archivo])
    else
      let motivo :=
        ((if verdadero materia then [] else ["materia no identificada"])
         ++ (if verdadero tipo then [] else ["tipo de archivo no reconocido"])) in
      mkLocales (print (L_no_organizado nombre_archivo motivo) e)
                (archivos_organizados l) (archivos_no_organizados l ++ [nombre_archivo]).

(** The summary printed at the end of [organizar_archivos]. *)
Definition imprimir_resumen (l : locales) : estado :=
  let e := l_estado l in
  let e := print L_separador e in
  let e := print L_resumen e in
  let e := print (L_archivos_organizados (archivos_organizados l)) e in
  let e := print (L_archivos_sin_organizar (length (archivos_no_organizados l))) e in
  match archivos_no_organizados l with
  | [] => e
  | _ =>
      foldl (λ e archivo, print (L_pendiente archivo) e)
            (print L_no_se_pudieron_organizar e) (archivos_no_organizados l)
  end.

(** Steps 1 and 2 of [organizar_archivos]: the optional flattening and the
    optional creation of the folders. *)
Definition preparar (mover_de_subcarpetas crear_estructura : bool) (e : estado)
    : resultado NoneType :=
  let e := if mover_de_subcarpetas then snd (mover_archivos_de_subcarpetas e) else e in
  if crear_estructura then crear_estructura_carpetas e else Normal PyNone e.

(** The loop of [organizar_archivos] over the entries of [carpeta_origen]
    and the summary.  Listing [carpeta_origen] raises when it is not a
    directory. *)
Definition organizar_nivel_superior (e : estado) : resultado NoneType :=
  let e := print L_organizando e in
  match fs e !! [] with
  | Some Carpeta =>
      let l := foldl (flip organizar_item) (mkLocales e 0 []) (iterdir (fs e)) in
      Normal PyNone (imprimir_resumen l)
  | Some (Archivo _) => Excepcion NotADirectoryError e
  | None => Excepcion FileNotFoundError e
  end.

(** [organizar_archivos(mover_de_subcarpetas, crear_estructura)] *)
Definition organizar_archivos (mover_de_subcarpetas crear_estructura : bool) (e : estado)
    : resultado NoneType :=
  luego (preparar mover_de_subcarpetas crear_estructura e)
        (λ _, organizar_nivel_superior).

End Entorno.

(** ** [main] *)

(** The lines [main] prints itself, one constructor per [print], the
    prompt of [input] among them, and the lines of the class. *)
Inductive linea_main :=
| M_raya
| M_titulo
| M_carpeta_de_trabajo (abspath : string)
| M_materias_configuradas (n : nat)
| M_estructura_personalizada
| M_estructura_de (materia carpetas : string)
| M_otras_materias
| M_caracteristicas
| M_mueve_archivos
| M_elimina_carpetas
| M_organiza_por_palabras
| M_estructura_por_materia
| M_deseas_continuar
| M_operacion_cancelada
| M_organizacion_completada
| M_organizador (l : linea).

(** [Path(".")] *)
Definition CARPETA_ORIGEN : Path := mkPath false [].

Definition MATERIAS_PALABRAS_CLAVE : list (string * list string) :=
  [ ("Base de Datos",
     ["base"; "datos"; "basedatos"; "bd"; "postgresql";
      "postgres"; "sql"; "vistas"; "auditoria"; "modelo conceptual";
      "modelo"; "actividad_clase"; "BD"]);
    ("Estructura de Datos",
     ["tad"; "pila"; "cola"; "colas"; "arboles"; "caratula"; "ej"; "EJ"; "ver";
      "veterinaria"]);
    ("Modelado Orientado a Objetos",
     ["modelado"; "objetos"; "moo"; "uml"; "diagrama";
      "secuencia"; "clases"; "argouml"; "refactorizacion";
      "ejercicio"; "escuela"; "scar"; "addons"]);
    ("Perspectiva de la Inteligencia Artificial",
     ["ia"; "inteligencia"; "artificial"; "perspectiva";
      "robotica"; "vision"; "sesgos"; "discriminacion";
      "etica"; "responsabilidad"; "logica difusa"; "tendencias";
      "trabajo-autonomo"; "difusa"; "ia"; "Uleam"]);
    ("Programacion Estructurada",
     ["programacion"; "estructurada"; "funciones";
      "ciclos"; "diccionarios"; "numpy"; "archivos"; "manipulacion";
      "actividad_en_clase"; "actv"; "hay q hacer"; "ejercicio"; "numeros"; "multiplos";
      "escoger"; "retorno";
      "precios"; "planificacion"; "vector"; "validar"; "empleados"; "promedio"; "cedu";
      "programacion"]);
    ("Redes de la computadora",
     ["redes"; "red"; "wan"; "vpn"; "ethernet"; "fibra";
      "optica"; "packet tracer"; "subnectic"; "acls"; "ieee"; "packet"; "MAC"]) ].

Definition ESTRUCTURA_PERSONALIZADA : list (string * list string) :=
  [ ("Modelado Orientado a Objetos", ["pdf"; "words"; "powerpoint"; "imagenes"; "diagramas"]);
    ("Perspectiva de la Inteligencia Artificial",
     ["pdf"; "words"; "powerpoint"; "imagenes"; "comprimidos"]);
    ("Programacion Estructurada", ["pdf"; "words"; "powerpoint"; "comprimidos"; "codigo"]);
    ("Estructura de Datos", ["pdf"; "words"; "powerpoint"; "codigos"]);
    ("Redes de la computadora", ["pdf"; "words"; "powerpoint"]);
    ("Base de Datos", ["pdf"; "words"; "powerpoint"; "comprimidos"]) ].

(** How a call of [main] ends: the exception that escaped, if any, the
    tree, and everything printed. *)
Record final_main := mkFinal {
  excepcion_main : option excepcion;
  fs_main : sistema;
  salida_main : list linea_main
}.

Section Principal.

Variable denegado : ruta → bool.
Variable rglob : sistema → list ruta.
Variable iterdir : sistema → list string.

(** What [main] prints before it reads the answer; [abspath] is what
    [os.path.abspath(CARPETA_ORIGEN)] gives. *)
Definition cabecera (abspath : string) : list linea_main :=
  [ M_raya; M_titulo; M_raya; M_carpeta_de_trabajo abspath;
    M_materias_configuradas (length MATERIAS_PALABRAS_CLAVE);
    M_estructura_personalizada ]
  ++ ((λ '(materia, carpetas), M_estructura_de materia (Str.join ", " carpetas))
        <$> ESTRUCTURA_PERSONALIZADA)
  ++ [ M_otras_materias; M_caracteristicas; M_mueve_archivos; M_elimina_carpetas;
       M_organiza_por_palabras; M_estructura_por_materia; M_deseas_continuar ].

(** [main()], on the tree below the current directory; [entrada_usuario]
    is the line that [input] reads.  The dictionary
    [ESTRUCTURA_PERSONALIZADA] is listed in its order where [main] prints
    it and is a finite map where the class looks a subject up. *)
Definition main (abspath entrada_usuario : string) (t : sistema) : final_main :=
  let respuesta := Str.lower entrada_usuario in
  if bool_decide (respuesta ≠ "s") then
    mkFinal None t (cabecera abspath ++ [M_operacion_cancelada])
  else
    let organizador :=
      init CARPETA_ORIGEN MATERIAS_PALABRAS_CLAVE
        (Some (list_to_map ESTRUCTURA_PERSONALIZADA)) in
    match organizar_archivos denegado rglob iterdir organizador true true (mkEstado t []) with
    | Normal _ e =>
        mkFinal None (fs e)
          (cabecera abspath ++ (M_organizador <$> salida e) ++ [M_organizacion_completada])
    | Excepcion x e =>
        mkFinal (Some x) (fs e) (cabecera abspath ++ (M_organizador <$> salida e))
    end.

End Principal.

(** * The vocabulary of the statements *)

(** ** Occurrence *)



(** ** Trees and rounds *)

(** The folders the builder is asked for. *)
Definition carpetas_pedidas (self : OrganizadorArchivos) (materias : list string)
    (t : sistema) : Prop :=
  ∀ materia, materia ∈ materias →
    t !! [materia] = Some Carpeta
    ∧ ∀ tipo, tipo ∈ obtener_carpetas_para_materia self materia →
        t !! [materia; tipo] = Some Carpeta.

(** The line printed for a file that is left where it is. *)
Definition linea_pendiente (n : string) (linea : linea) : Prop :=
  linea = L_error_organizando n
  ∨ (∃ m t, linea = L_sin_carpeta n m t)
  ∨ (∃ motivo, linea = L_no_organizado n motivo).

(** What one round of the loop of [organizar_archivos] does. *)
Inductive efecto_organizar (self : OrganizadorArchivos) (n : string) (l l' : locales) : Prop :=
| ef_nada : l' = l → efecto_organizar self n l l'
| ef_pendiente linea :
    linea_pendiente n linea →
    l' = mkLocales (print linea (l_estado l)) (archivos_organizados l)
           (archivos_no_organizados l ++ [n]) →
    efecto_organizar self n l l'
| ef_movido c m t dst :
    fs (l_estado l) !! [n] = Some (Archivo c) →
    identificar_materia self n = Some m →
    obtener_tipo_archivo self (suffix n) = Some t →
    dst = [m; t; n] ∨ dst = [m; t; n; n] →
    l' = mkLocales
           (print (L_organizado n m t)
                  (con_fs (<[dst := Archivo c]> (delete [n] (fs (l_estado l)))) (l_estado l)))
           (S (archivos_organizados l)) (archivos_no_organizados l) →
    efecto_organizar self n l l'.

(** What one round of the first loop of [mover_archivos_de_subcarpetas]
    does. *)
Inductive efecto_mover (denegado : ruta → bool) (self : OrganizadorArchivos) (item : ruta)
    : estado * nat → estado * nat → Prop :=
| em_nada s : efecto_mover denegado self item s s
| em_error e k :
    efecto_mover denegado self item (e, k)
      (print (L_error_moviendo (List.last item "")) e, k)
| em_movido e k c d :
    fs e !! item = Some (Archivo c) →
    fs e !! [] = Some Carpeta →
    item ≠ [] → removelast item ≠ [] →
    en_carpeta_de_materia self (Path_parent (Path_div (carpeta_origen self) item)) = false →
    denegado item = false →
    destino_libre (fs e) (List.last item "") = Some d →
    fs e !! [d] = None →
    efecto_mover denegado self item (e, k)
      (print (L_movido item d) (con_fs (<[[d] := Archivo c]> (delete item (fs e))) e), S k).

(** What one round of the second loop does. *)
Inductive efecto_eliminar (self : OrganizadorArchivos) (carpeta : ruta)
    : estado * nat → estado * nat → Prop :=
| ee_nada s : efecto_eliminar self carpeta s s
| ee_error e k :
    efecto_eliminar self carpeta (e, k)
      (print (L_no_se_pudo_eliminar (Path_name (Path_div (carpeta_origen self) carpeta))) e, k)
| ee_eliminada e k :
    fs e !! carpeta = Some Carpeta →
    carpeta ≠ [] →
    tiene_entradas (fs e) carpeta = false →
    en_lista (Path_name (Path_div (carpeta_origen self) carpeta))
             (keys (materias_palabras_clave self)) = false →
    en_carpeta_de_materia self (Path_parent (Path_div (carpeta_origen self) carpeta)) = false →
    efecto_eliminar self carpeta (e, k)
      (print (L_eliminada carpeta) (con_fs (delete carpeta (fs e)) e), S k).

(** The two loops leave [carpeta_origen] and the files in it alone, and
    put nothing below a folder. *)
Definition conserva (t t' : sistema) : Prop :=
  (t !! [] = Some Carpeta → t' !! [] = Some Carpeta)
  ∧ (∀ q c, t !! q = Some (Archivo c) → length q = 1 → t' !! q = Some (Archivo c))
  ∧ (∀ q, t !! q = None → 2 ≤ length q → t' !! q = None).

(** [mover_archivos_de_subcarpetas], loop by loop. *)
Definition tras_mover (denegado : ruta → bool) (self : OrganizadorArchivos)
    (rglob : sistema → list ruta) (e : estado) : estado * nat :=
  foldl (flip (mover_item denegado self)) (print L_moviendo_de_subcarpetas e, 0)
        (rglob (fs e)).

Definition tras_eliminar (denegado : ruta → bool) (self : OrganizadorArchivos)
    (rglob : sistema → list ruta) (e : estado) : estado * nat :=
  foldl (flip (eliminar_carpeta denegado self))
        (print L_eliminando_vacias (tras_mover denegado self rglob e).1, 0)
        (sorted_reverse self (rglob (fs (tras_mover denegado self rglob e).1))).

(** The depth by which the pruning loop sorts. *)
Definition profundidad (self : OrganizadorArchivos) (q : ruta) : nat :=
  len_parts (Path_div (carpeta_origen self) q).

(** ** The output, read *)

(** Reading the output: the lines that tell of a file moved up, of a
    folder removed, of a file organized, of a file left where it is, and
    the lines of the closing list. *)
Definition es_movido (l : linea) : bool :=
  match l with L_movido _ _ => true | _ => false end.

Definition es_eliminada (l : linea) : bool :=
  match l with L_eliminada _ => true | _ => false end.

Definition es_organizado (l : linea) : bool :=
  match l with L_organizado _ _ _ => true | _ => false end.

Definition pendiente_de (l : linea) : option string :=
  match l with
  | L_error_organizando n | L_sin_carpeta n _ _ | L_no_organizado n _ => Some n
  | _ => None
  end.

Definition listado_de (l : linea) : option string :=
  match l with L_pendiente n => Some n | _ => None end.

Definition cuenta (p : linea → bool) (s : list linea) : nat :=
  length (List.filter p s).

(** The lines of each part of a run. *)
Definition de_aplanar (l : linea) : bool :=
  match l with
  | L_moviendo_de_subcarpetas | L_movido _ _ | L_error_moviendo _ | L_eliminando_vacias
  | L_eliminada _ | L_no_se_pudo_eliminar _ | L_archivos_movidos _
  | L_carpetas_eliminadas _ => true
  | _ => false
  end.

Definition de_mover (l : linea) : bool :=
  match l with L_movido _ _ | L_error_moviendo _ => true | _ => false end.

Definition de_eliminar (l : linea) : bool :=
  match l with L_eliminada _ | L_no_se_pudo_eliminar _ => true | _ => false end.

Definition de_crear (l : linea) : bool :=
  match l with L_creando_estructura | L_creada _ _ => true | _ => false end.

Definition de_organizar (l : linea) : bool :=
  match l with
  | L_organizado _ _ _ | L_error_organizando _ | L_sin_carpeta _ _ _
  | L_no_organizado _ _ => true
  | _ => false
  end.

Definition de_organizador (l : linea) : bool :=
  match l with
  | L_organizando | L_organizado _ _ _ | L_error_organizando _ | L_sin_carpeta _ _ _
  | L_no_organizado _ _ | L_separador | L_resumen | L_archivos_organizados _
  | L_archivos_sin_organizar _ | L_no_se_pudieron_organizar | L_pendiente _ => true
  | _ => false
  end.

(** ** Trees, counted and compared *)


(** How many entries of a tree pass a test. *)
Definition cuantas (p : ruta → entrada → bool) (t : sistema) : nat :=
  length (List.filter (λ qx, p qx.1 qx.2) (map_to_list t)).

(** A file below a folder of [carpeta_origen]. *)
Definition archivo_anidado (q : ruta) (x : entrada) : bool :=
  (2 <=? length q) && match x with Archivo _ => true | Carpeta => false end.

(** A file of [carpeta_origen]. *)
Definition archivo_de_raiz (q : ruta) (x : entrada) : bool :=
  (length q =? 1) && match x with Archivo _ => true | Carpeta => false end.

Definition es_carpeta (q : ruta) (x : entrada) : bool :=
  match x with Carpeta => true | Archivo _ => false end.

(** A tree in which the first loop of the flattener finds nothing to
    move. *)
Definition aplanado (self : OrganizadorArchivos) (t : sistema) : Prop :=
  ∀ (q : ruta) c, t !! q = Some (Archivo c) → 2 ≤ length q →
    en_carpeta_de_materia self (Path_parent (Path_div (carpeta_origen self) q)) = true.

(** A tree in which the second loop finds nothing to remove. *)
Definition podado (self : OrganizadorArchivos) (t : sistema) : Prop :=
  ∀ d : ruta, t !! d = Some Carpeta → d ≠ [] → tiene_entradas t d = false →
    en_lista (Path_name (Path_div (carpeta_origen self) d))
             (keys (materias_palabras_clave self)) = true
    ∨ en_carpeta_de_materia self (Path_parent (Path_div (carpeta_origen self) d)) = true.


(** The lines [crear_estructura_carpetas] prints for a list of
    subjects. *)
Definition lineas_creadas (self : OrganizadorArchivos) (materias : list string) : list linea :=
  materia ← materias; L_creada materia <$> obtener_carpetas_para_materia self materia.

(** The reasons [organizar_archivos] gives for a file it cannot
    classify. *)
Definition motivo_de (self : OrganizadorArchivos) (nombre : string) : list string :=
  (if verdadero (identificar_materia self nombre) then [] else ["materia no identificada"])
  ++ (if verdadero (obtener_tipo_archivo self (suffix nombre)) then []
      else ["tipo de archivo no reconocido"]).

(** What the lines of a flattening pass say of the tree [t] before it
    and the tree [t'] after it. *)
Definition movidos_ciertos (t t' : sistema) (lineas : list linea) : Prop :=
  ∀ (item : ruta) d, L_movido item d ∈ lineas →
    t' !! item = None
    ∧ ∃ c, t !! item = Some (Archivo c) ∧ t' !! [d] = Some (Archivo c).

Definition eliminadas_ciertas (t t' : sistema) (lineas : list linea) : Prop :=
  ∀ q : ruta, L_eliminada q ∈ lineas → t !! q = Some Carpeta ∧ t' !! q = None.

(** What the lines of the organizer say of the tree before its loop and
    the tree after it. *)
Definition organizados_ciertos (t t' : sistema) (lineas : list linea) : Prop :=
  ∀ n m tipo, L_organizado n m tipo ∈ lineas →
    t' !! [n] = None
    ∧ ∃ c, t !! [n] = Some (Archivo c)
           ∧ (t' !! [m; tipo; n] = Some (Archivo c)
              ∨ t' !! [m; tipo; n; n] = Some (Archivo c)).




(** ** Trees and configurations of the examples *)

Definition ejemplo_materias : list (string * list string) :=
  [ ("Base de Datos", ["base"; "datos"; "sql"; "BD"]);
    ("Redes de la computadora", ["redes"; "red"; "wan"; "MAC"]) ].

Definition ejemplo_estructura : gmap string (list string) :=
  {[ "Base de Datos" := ["pdf"; "words"; "powerpoint"; "comprimidos"] ]}.

Definition ejemplo_organizador : OrganizadorArchivos :=
  init (mkPath false []) ejemplo_materias (Some ejemplo_estructura).

Definition ejemplo_redes : sistema :=
  list_to_map [ ([], Carpeta); (["redes_practica.zip"], Archivo "PK-redes") ].

Definition ejemplo_repetido : sistema :=
  list_to_map
    [ ([], Carpeta);
      (["Base de Datos"], Carpeta);
      (["Base de Datos"; "pdf"], Carpeta);
      (["Base de Datos"; "pdf"; "consultas_sql.pdf"], Archivo "version antigua");
      (["consultas_sql.pdf"], Archivo "version nueva") ].

Definition ejemplo_colision : sistema :=
  list_to_map
    [ ([], Carpeta);
      (["x.pdf"], Archivo "original");
      (["sub"], Carpeta);
      (["sub"; "x.pdf"], Archivo "anidado") ].


(** [carpeta_origen] holding only the folder [A], in it the folder [B], in
    it the file [report.pdf]. *)
Definition arbol_anidado (c : string) : sistema :=
  <[ ["A"; "B"; "report.pdf"] := Archivo c ]>
    (<[ ["A"; "B"] := Carpeta ]> (<[ ["A"] := Carpeta ]> {[ [] := Carpeta ]})).

(** The same after the flattening: the file alone in [carpeta_origen]. *)
Definition arbol_aplanado (c : string) : sistema :=
  <[ ["report.pdf"] := Archivo c ]> {[ [] := Carpeta ]}.

(** A subject's folder, empty, beside an empty folder that is no
    subject's. *)
Definition ejemplo_carpetas_vacias : sistema :=
  list_to_map [ ([], Carpeta); (["vieja"], Carpeta); (["Base de Datos"], Carpeta) ].

(** A file that no subject and no type is found for. *)
Definition ejemplo_sin_clasificar : sistema :=
  list_to_map [ ([], Carpeta); (["notas.txt"], Archivo "apuntes") ].

(** A file in a subfolder, called as a subject is. *)
Definition ejemplo_archivo_materia : sistema :=
  list_to_map
    [ ([], Carpeta); (["sub"], Carpeta); (["sub"; "Base de Datos"], Archivo "indice") ].

(** A tree for [main]: a source file in the folder [codigos], another in
    the current directory. *)
Definition ejemplo_codigos : sistema :=
  list_to_map
    [ ([], Carpeta);
      (["Estructura de Datos"], Carpeta);
      (["Estructura de Datos"; "codigos"], Carpeta);
      (["Estructura de Datos"; "codigos"; "pila.py"], Archivo "class Pila");
      (["cola.py"], Archivo "class Cola") ].

(** One subject, with the folders of the default structure. *)
Definition ejemplo_database : OrganizadorArchivos :=
  init (mkPath false ["root"]) [("Database", ["report"])] None.

(** * Properties *)

(** ** Strings: occurrence and case *)

Section Cadenas.

Implicit Types s a h r : string.

Lemma str_app_cons c s r : String c s +:+ r = String c (s +:+ r).
Proof. reflexivity. Qed.

Lemma str_app_nil_l s : "" +:+ s = s.
Proof. reflexivity. Qed.

Lemma str_app_nil_r s : s +:+ "" = s.
Proof. induction s as [|c s IH]; [done|]. by rewrite str_app_cons, IH. Qed.

Lemma str_app_assoc s a r : (s +:+ a) +:+ r = s +:+ a +:+ r.
Proof. induction s as [|c s IH]; [done|]. by rewrite !str_app_cons, IH. Qed.

Lemma str_length_app s r : String.length (s +:+ r) = String.length s + String.length r.
Proof. induction s as [|c s IH]; [done|]. rewrite str_app_cons. simpl. by rewrite IH. Qed.

Lemma str_app_inj_r s a r : s +:+ r = a +:+ r → s = a.
Proof.
  revert a. induction s as [|c s IH]; intros [|d a] E; [done| | |].
  - apply (f_equal String.length) in E. rewrite !str_length_app in E. simpl in E. lia.
  - apply (f_equal String.length) in E. rewrite !str_length_app in E. simpl in E. lia.
  - rewrite !str_app_cons in E. injection E as -> E. f_equal. by apply IH.
Qed.

Lemma prefix_spec a h : String.prefix a h = true ↔ ∃ r, h = a +:+ r.
Proof.
  revert h. induction a as [|c a IH]; intros [|d h]; simpl.
  - split; [intros _; by exists ""|done].
  - split; [intros _; by exists (String d h)|done].
  - split; [done|]. by intros [r ?].
  - destruct (ascii_dec c d) as [->|Hne].
    + rewrite IH. split; intros [r E]; exists r.
      * by rewrite str_app_cons, <- E.
      * rewrite str_app_cons in E. by injection E.
    + split; [done|]. intros [r E]. rewrite str_app_cons in E. by injection E.
Qed.

Lemma contains_eq h a :
  Str.contains h a =
  if String.prefix a h then true
  else match h with "" => false | String _ r => Str.contains r a end.
Proof. by destruct h. Qed.

(** [Str.contains h a] decides that [a] occurs in [h]. *)
Lemma contains_spec h a :
  Str.contains h a = true ↔ ∃ pre post, h = pre +:+ a +:+ post.
Proof.
  induction h as [|c h IH]; rewrite contains_eq;
    destruct (String.prefix a _) eqn:P.
  - apply prefix_spec in P as [r E]. split; [|done]. intros _. by exists "", r.
  - split; [done|]. intros ([|d pre] & post & E).
    + assert (String.prefix a "" = true) as P'; [|congruence].
      apply prefix_spec. by exists post.
    + by rewrite str_app_cons in E.
  - apply prefix_spec in P as [r E]. split; [|done]. intros _. by exists "", r.
  - rewrite IH. split.
    + intros (pre & post & ->). by exists (String c pre), post.
    + intros ([|d pre] & post & E).
      * assert (String.prefix a (String c h) = true) as P'; [|congruence].
        apply prefix_spec. by exists post.
      * rewrite str_app_cons in E. injection E as -> ->. by exists pre, post.
Qed.

Lemma contains_app_l h r a : Str.contains h a = true → Str.contains (h +:+ r) a = true.
Proof.
  rewrite !contains_spec. intros (pre & post & ->). exists pre, (post +:+ r).
  by rewrite !str_app_assoc.
Qed.





End Cadenas.


(** ** The subject matcher, the type catalog and the folder policy *)

Section Clasificacion.

Lemma alguna_palabra_spec nombre_lower palabras :
  alguna_palabra nombre_lower palabras = true
  ↔ ∃ palabra, palabra ∈ palabras ∧ Str.contains nombre_lower (Str.lower palabra) = true.
Proof.
  induction palabras as [|p ps IH]; simpl.
  - split; [done|]. intros (? & []%elem_of_nil & _).
  - destruct (Str.contains nombre_lower (Str.lower p)) eqn:C.
    + split; [|done]. intros _. exists p. split; [left|done].
    + rewrite IH. split.
      * intros (q & ? & ?). exists q. split; [by right|done].
      * intros (q & [->|?]%elem_of_cons & ?); [congruence|by exists q].
Qed.

(** The loop over the subjects stops at the first subject one of whose
    keywords occurs, and fails exactly when none has one. *)
Lemma buscar_materia_spec nombre_lower items :
  match buscar_materia nombre_lower items with
  | Some materia =>
      ∃ antes palabras despues,
        items = antes ++ (materia, palabras) :: despues
        ∧ alguna_palabra nombre_lower palabras = true
        ∧ ∀ m ps, (m, ps) ∈ antes → alguna_palabra nombre_lower ps = false
  | None => ∀ m ps, (m, ps) ∈ items → alguna_palabra nombre_lower ps = false
  end.
Proof.
  induction items as [|[m ps] items IH]; simpl.
  - by intros ?? ?%elem_of_nil.
  - destruct (alguna_palabra nombre_lower ps) eqn:A.
    + exists [], ps, items. split_and!; [done..|]. by intros ?? ?%elem_of_nil.
    + destruct (buscar_materia nombre_lower items) as [materia|].
      * destruct IH as (antes & palabras & despues & -> & ? & Hantes).
        exists ((m, ps) :: antes), palabras, despues. split_and!; [done..|].
        intros m' ps' [?|?]%elem_of_cons; [by simplify_eq|eauto].
      * intros m' ps' [?|?]%elem_of_cons; [by simplify_eq|eauto].
Qed.

Lemma buscar_tipo_spec extension_lower items :
  match buscar_tipo extension_lower items with
  | Some tipo =>
      ∃ antes extensiones despues,
        items = antes ++ (tipo, extensiones) :: despues
        ∧ extension_lower ∈ extensiones
        ∧ ∀ t xs, (t, xs) ∈ antes → extension_lower ∉ xs
  | None => ∀ t xs, (t, xs) ∈ items → extension_lower ∉ xs
  end.
Proof.
  induction items as [|[t xs] items IH]; simpl.
  - by intros ?? ?%elem_of_nil.
  - unfold en_lista at 1. case_bool_decide as Hin.
    + exists [], xs, items. split_and!; [done..|]. by intros ?? ?%elem_of_nil.
    + destruct (buscar_tipo extension_lower items) as [tipo|].
      * destruct IH as (antes & extensiones & despues & -> & ? & Hantes).
        exists ((t, xs) :: antes), extensiones, despues. split_and!; [done..|].
        intros t' xs' [?|?]%elem_of_cons; [by simplify_eq|eauto].
      * intros t' xs' [?|?]%elem_of_cons; [by simplify_eq|eauto].
Qed.


(** Every type name of the catalog of [__init__] is a non-empty string. *)
Lemma obtener_tipo_archivo_verdadero carpeta materias estructura extension :
  verdadero (obtener_tipo_archivo (init carpeta materias estructura) extension)
  = bool_decide (is_Some (obtener_tipo_archivo (init carpeta materias estructura) extension)).
Proof.
  unfold obtener_tipo_archivo. simpl.
  repeat (destruct (en_lista _ _); [reflexivity|]). reflexivity.
Qed.

End Clasificacion.



(** C9. For every subject, [obtener_carpetas_para_materia] returns the
    list configured for it when there is one, and otherwise the default
    list [pdf], [words], [powerpoint]; it is a function of the
    configuration and the subject alone, so it changes no state. *)
Theorem obtener_carpetas_para_materia_politica carpeta materias
    (estructura : option (gmap string (list string))) (materia : string) :
  obtener_carpetas_para_materia (init carpeta materias estructura) materia
  = match estructura ≫= (λ d, d !! materia) with
    | Some carpetas => carpetas
    | None => ["pdf"; "words"; "powerpoint"]
    end.
Proof.
  unfold obtener_carpetas_para_materia. simpl.
  destruct estructura as [d|]; simpl.
  - case_bool_decide as Hd.
    + apply elem_of_dom in Hd as [l Hl]. rewrite Hl.
      by rewrite (lookup_total_correct _ _ _ Hl).
    + apply not_elem_of_dom in Hd. by rewrite Hd.
  - case_bool_decide as Hd; [|done]. by rewrite dom_empty_L in Hd.
Qed.

(** ** The structure builder *)

Section Estructura.

Variable self : OrganizadorArchivos.

Lemma mkdir_existente (p : ruta) (t : sistema) : t !! p = Some Carpeta → mkdir p t = Hecho t.
Proof. unfold mkdir. by intros ->. Qed.

(** A successful [mkdir] leaves a directory at its path and keeps every
    entry that was there. *)
Lemma mkdir_hecho (p : ruta) (t t' : sistema) :
  mkdir p t = Hecho t' →
  t' !! p = Some Carpeta ∧ ∀ q x, t !! q = Some x → t' !! q = Some x.
Proof.
  unfold mkdir. destruct (t !! p) as [[c|]|] eqn:Hp; [done| |].
  - intros [= <-]. done.
  - destruct p as [|n p]; [done|].
    destruct (t !! removelast (n :: p)) as [[c|]|]; [done| |done].
    intros [= <-]. split; [apply lookup_insert_eq|].
    intros q x Hq. rewrite lookup_insert_ne; [done|]. intros <-. congruence.
Qed.

Lemma crear_tipos_normal materia carpetas e v e' :
  crear_tipos materia carpetas e = Normal v e' →
  (∀ q x, fs e !! q = Some x → fs e' !! q = Some x)
  ∧ ∀ tipo, tipo ∈ carpetas → fs e' !! [materia; tipo] = Some Carpeta.
Proof.
  revert e. induction carpetas as [|tipo resto IH]; intros e; simpl.
  - intros ?; simplify_eq. split; [done|]. by intros ? ?%elem_of_nil.
  - destruct (mkdir [materia; tipo] (fs e)) as [t|] eqn:Hmk; [|done].
    intros [Hkeep Hres]%IH. simpl in Hkeep.
    apply mkdir_hecho in Hmk as [Hnew Hold]. split; [eauto|].
    intros tipo' [->|?]%elem_of_cons; eauto.
Qed.

Lemma crear_materias_normal materias e v e' :
  crear_materias self materias e = Normal v e' →
  (∀ q x, fs e !! q = Some x → fs e' !! q = Some x)
  ∧ carpetas_pedidas self materias (fs e').
Proof.
  revert e. induction materias as [|materia resto IH]; intros e; simpl.
  - intros ?; simplify_eq. split; [done|]. by intros ? ?%elem_of_nil.
  - destruct (mkdir [materia] (fs e)) as [t|] eqn:Hmk; [|done].
    destruct (crear_tipos _ _ _) as [w e1|] eqn:Htipos; [|done]. simpl.
    intros [Hkeep Hres]%IH.
    apply crear_tipos_normal in Htipos as [Hkeep1 Htipos]. simpl in Hkeep1.
    apply mkdir_hecho in Hmk as [Hnew Hold]. split; [eauto|].
    intros materia' [->|?]%elem_of_cons; [|eauto].
    split; [eauto|]. intros tipo Htipo. eauto.
Qed.

Lemma crear_tipos_existentes materia carpetas e :
  (∀ tipo, tipo ∈ carpetas → fs e !! [materia; tipo] = Some Carpeta) →
  ∃ e', crear_tipos materia carpetas e = Normal PyNone e' ∧ fs e' = fs e.
Proof.
  revert e. induction carpetas as [|tipo resto IH]; intros e H; simpl; [by eexists|].
  rewrite mkdir_existente by (apply H; left).
  destruct (IH (print (L_creada materia tipo) (con_fs (fs e) e))) as (e' & -> & ?).
  - intros tipo' ?. simpl. apply H. by right.
  - by exists e'.
Qed.

Lemma crear_materias_existentes materias e :
  carpetas_pedidas self materias (fs e) →
  ∃ e', crear_materias self materias e = Normal PyNone e' ∧ fs e' = fs e.
Proof.
  revert e. induction materias as [|materia resto IH]; intros e H; simpl; [by eexists|].
  destruct (H materia) as [Hm Ht]; [left|].
  rewrite (mkdir_existente _ _ Hm).
  destruct (crear_tipos_existentes materia (obtener_carpetas_para_materia self materia)
              (con_fs (fs e) e)) as (e1 & -> & E1); [done|]. simpl.
  destruct (IH e1) as (e' & -> & ?).
  - rewrite E1. intros materia' ?. apply H. by right.
  - exists e'. split; [done|]. simpl in E1. congruence.
Qed.

End Estructura.

(** C8. When [crear_estructura_carpetas] has run, running it again with
    the same configuration raises nothing and leaves the tree exactly as
    the first run left it: every subject folder and every type folder is
    found and kept, none is added. *)
Theorem crear_estructura_carpetas_idempotente (self : OrganizadorArchivos) (e e1 : estado) v :
  crear_estructura_carpetas self e = Normal v e1 →
  ∃ e2, crear_estructura_carpetas self e1 = Normal PyNone e2 ∧ fs e2 = fs e1.
Proof.
  unfold crear_estructura_carpetas. intros [_ H]%crear_materias_normal.
  apply (crear_materias_existentes self _ (print L_creando_estructura e1) H).
Qed.

Lemma crear_estructura_carpetas_idempotente_witness :
  let e1 := estado_final (crear_estructura_carpetas ejemplo_organizador
                            (mkEstado {[ [] := Carpeta ]} [])) in
  ∃ e2, crear_estructura_carpetas ejemplo_organizador e1 = Normal PyNone e2
        ∧ fs e2 = fs e1.
Proof.
  apply (crear_estructura_carpetas_idempotente ejemplo_organizador
           (mkEstado {[ [] := Carpeta ]} []) _ PyNone).
  vm_compute. reflexivity.
Defined.

(** ** Moving and removing *)

Section Primitivas.

Variable denegado : ruta → bool.

(** What a successful [shutil.move] has done. *)
Lemma shutil_move_hecho (src dst : ruta) (t t' : sistema) :
  shutil_move denegado src dst t = Hecho t' →
  ∃ c real_dst,
    t !! src = Some (Archivo c)
    ∧ denegado src = false
    ∧ t' = <[real_dst := Archivo c]> (delete src t)
    ∧ t !! removelast real_dst = Some Carpeta
    ∧ real_dst ≠ []
    ∧ ((real_dst = dst ∧ is_dir t dst = false)
       ∨ (real_dst = dst ++ [List.last src ""] ∧ is_dir t dst = true ∧ t !! real_dst = None)).
Proof.
  unfold shutil_move. destruct (denegado src); [done|].
  destruct (t !! src) as [[c|]|] eqn:Hsrc; [|done..].
  destruct (is_dir t dst) eqn:Hdst; simpl.
  - unfold existe. case_bool_decide as Hex; [done|].
    destruct (is_dir t (removelast _)) eqn:Hpar; [|done]. simpl.
    case_bool_decide as Hne; [|done]. intros [= <-].
    exists c, (dst ++ [List.last src ""]). split_and!; try done.
    + unfold is_dir in Hpar. by repeat case_match.
    + right. split_and!; [done..|]. by apply eq_None_not_Some.
  - destruct (is_dir t (removelast dst)) eqn:Hpar; [|done]. simpl.
    case_bool_decide as Hne; [|done]. intros [= <-].
    exists c, dst. split_and!; try done.
    + unfold is_dir in Hpar. by repeat case_match.
    + by left.
Qed.

(** A move onto a path that is not a directory, in a directory that
    exists, succeeds when it is not refused, and replaces what was there. *)
Lemma shutil_move_sobre (src dst : ruta) (t : sistema) c :
  denegado src = false → t !! src = Some (Archivo c) →
  is_dir t dst = false → t !! removelast dst = Some Carpeta → dst ≠ [] →
  shutil_move denegado src dst t = Hecho (<[dst := Archivo c]> (delete src t)).
Proof.
  intros Hd Hsrc Hdst Hpar Hne. unfold shutil_move.
  rewrite Hd, Hsrc, Hdst. simpl. unfold is_dir. rewrite Hpar. simpl.
  by rewrite bool_decide_eq_true_2.
Qed.

Lemma rmdir_hecho (d : ruta) (t t' : sistema) :
  rmdir denegado d t = Hecho t' →
  t !! d = Some Carpeta ∧ tiene_entradas t d = false ∧ t' = delete d t.
Proof.
  unfold rmdir. destruct (denegado d); [done|].
  destruct (is_dir t d) eqn:Hd; [|done].
  destruct (tiene_entradas t d); [done|]. simpl. intros [= <-].
  split_and!; [|done..]. unfold is_dir in Hd. by repeat case_match.
Qed.

End Primitivas.

(** ** The organizer *)

Lemma elem_of_nombres_raiz (t : sistema) (n : string) :
  n ∈ nombres_raiz t ↔ is_Some (t !! [n]).
Proof.
  unfold nombres_raiz. rewrite list_elem_of_omap. split.
  - intros (q & Hq & Hn). destruct q as [|n' [|??]]; simplify_eq.
    apply list_elem_of_fmap in Hq as ([q x] & -> & Hq).
    apply elem_of_map_to_list in Hq. by exists x.
  - intros [x Hx]. exists [n]. split; [|done].
    apply list_elem_of_fmap. exists ([n], x). split; [done|].
    by apply elem_of_map_to_list.
Qed.

Section Organizador.

Variable denegado : ruta → bool.
Variable self : OrganizadorArchivos.

Lemma organizar_item_efecto n l :
  efecto_organizar self n l (organizar_item denegado self n l).
Proof.
  unfold organizar_item. destruct (is_dir _ [n]); [by apply ef_nada|].
  destruct (verdadero _ && verdadero _) eqn:Hv.
  - destruct (identificar_materia self n) as [m|] eqn:Hm; [|done].
    destruct (obtener_tipo_archivo self (suffix n)) as [t|] eqn:Ht;
      [|by rewrite andb_false_r in Hv]. simpl.
    destruct (en_lista _ _).
    + destruct (shutil_move _ _ _ _) as [t'|x] eqn:Hmv.
      * apply shutil_move_hecho in Hmv
          as (c & real_dst & Hsrc & _ & -> & _ & _ & [[-> _]|(-> & _ & _)]).
        -- eapply ef_movido; [done..|by left|done].
        -- eapply ef_movido; [done..|by right|done].
      * eapply ef_pendiente; [|done]. by left.
    + eapply ef_pendiente; [|done]. right; left. eauto.
  - eapply ef_pendiente; [|done]. right; right. eauto.
Qed.

(** The tree changes only at the name that is handled and below the
    folders it may be moved to. *)
Lemma organizar_item_marco n l (q : ruta) :
  q ≠ [n] → (∀ m t, q ≠ [m; t; n]) → (∀ m t, q ≠ [m; t; n; n]) →
  fs (l_estado (organizar_item denegado self n l)) !! q = fs (l_estado l) !! q.
Proof.
  intros H1 H3 H4. destruct (organizar_item_efecto n l) as [->| ? ? -> |c m t dst Hc _ _ Hdst ->];
    [done..|]. simpl.
  rewrite lookup_insert_ne, lookup_delete_ne; [done..|].
  destruct Hdst as [->| ->]; [apply not_eq_sym, H3|apply not_eq_sym, H4].
Qed.

(** Nothing printed is taken back, no pending name is forgotten. *)
Lemma organizar_item_crece n l :
  salida (l_estado l) `prefix_of` salida (l_estado (organizar_item denegado self n l))
  ∧ archivos_no_organizados l `prefix_of` archivos_no_organizados (organizar_item denegado self n l).
Proof.
  destruct (organizar_item_efecto n l) as [->| ? ? -> |c m t dst Hc _ _ Hdst ->]; simpl;
    split; try done; by apply prefix_app_r.
Qed.

Lemma organizar_items_crece nombres l :
  salida (l_estado l)
    `prefix_of` salida (l_estado (foldl (flip (organizar_item denegado self)) l nombres))
  ∧ archivos_no_organizados l
    `prefix_of` archivos_no_organizados (foldl (flip (organizar_item denegado self)) l nombres).
Proof.
  revert l. induction nombres as [|n nombres IH]; intros l; simpl; [done|].
  destruct (IH (organizar_item denegado self n l)) as [? ?].
  destruct (organizar_item_crece n l) as [? ?]. split; by etrans.
Qed.

(** The summary keeps the tree and what was printed, and names every
    pending file. *)
Lemma imprimir_resumen_fs l : fs (imprimir_resumen l) = fs (l_estado l).
Proof.
  unfold imprimir_resumen. destruct (archivos_no_organizados l) as [|n ns]; [done|].
  generalize (n :: ns). intros ns'.
  set (e := print L_no_se_pudieron_organizar _).
  change (fs (l_estado l)) with (fs e). clearbody e. revert e.
  induction ns' as [|? ? IH]; intros e; simpl; [done|]. by rewrite IH.
Qed.

Lemma salida_pendientes e (ns : list string) :
  salida (foldl (λ e archivo, print (L_pendiente archivo) e) e ns)
  = salida e ++ map L_pendiente ns.
Proof.
  revert e. induction ns as [|n ns IH]; intros e; simpl; [by rewrite app_nil_r|].
  rewrite IH. simpl. by rewrite <- app_assoc.
Qed.

Lemma imprimir_resumen_salida l :
  salida (imprimir_resumen l)
  = salida (l_estado l)
    ++ [L_separador; L_resumen; L_archivos_organizados (archivos_organizados l);
        L_archivos_sin_organizar (length (archivos_no_organizados l))]
    ++ match archivos_no_organizados l with
       | [] => []
       | ns => L_no_se_pudieron_organizar :: map L_pendiente ns
       end.
Proof.
  unfold imprimir_resumen. destruct (archivos_no_organizados l) as [|n ns] eqn:E.
  - unfold print. simpl. by rewrite <- !app_assoc.
  - rewrite salida_pendientes. unfold print. simpl. by rewrite <- !app_assoc.
Qed.

End Organizador.

Section Organizar.

Variable denegado : ruta → bool.
Variables (carpeta : Path) (materias : list (string * list string)).
Variable estructura : option (gmap string (list string)).

Local Abbreviation self := (init carpeta materias estructura).

Variables (nombre m t : string).
Hypothesis materia_identificada : identificar_materia self nombre = Some m.
Hypothesis materia_no_vacia : m ≠ "".
Hypothesis tipo_reconocido : obtener_tipo_archivo self (suffix nombre) = Some t.

Lemma verdaderos :
  verdadero (identificar_materia self nombre)
  && verdadero (obtener_tipo_archivo self (suffix nombre)) = true.
Proof.
  rewrite obtener_tipo_archivo_verdadero.
  rewrite materia_identificada, tipo_reconocido. simpl.
  by rewrite bool_decide_eq_false_2.
Qed.

(** The round for a file whose type the subject has no folder for. *)
Lemma organizar_item_sin_carpeta l c :
  fs (l_estado l) !! [nombre] = Some (Archivo c) →
  t ∉ obtener_carpetas_para_materia self m →
  organizar_item denegado self nombre l
  = mkLocales (print (L_sin_carpeta nombre m t) (l_estado l)) (archivos_organizados l)
      (archivos_no_organizados l ++ [nombre]).
Proof.
  intros Hf Hno. unfold organizar_item, is_dir. rewrite Hf, verdaderos.
  rewrite materia_identificada, tipo_reconocido. simpl.
  unfold en_lista. by rewrite bool_decide_eq_false_2.
Qed.

Lemma organizar_items_sin_carpeta nombres l c :
  fs (l_estado l) !! [nombre] = Some (Archivo c) →
  t ∉ obtener_carpetas_para_materia self m →
  let l' := foldl (flip (organizar_item denegado self)) l nombres in
  fs (l_estado l') !! [nombre] = Some (Archivo c)
  ∧ (nombre ∈ nombres →
     L_sin_carpeta nombre m t ∈ salida (l_estado l') ∧ nombre ∈ archivos_no_organizados l').
Proof.
  intros Hf Hno. revert l Hf. induction nombres as [|n nombres IH]; intros l Hf; simpl.
  - split; [done|]. by intros ?%elem_of_nil.
  - destruct (decide (n = nombre)) as [->|Hn].
    + pose proof (organizar_item_sin_carpeta l c Hf Hno) as E.
      destruct (IH (organizar_item denegado self nombre l)) as [IH1 _].
      { by rewrite E. }
      split; [done|]. intros _.
      destruct (organizar_items_crece denegado self nombres
                  (organizar_item denegado self nombre l)) as [[s1 ->] [s2 ->]].
      rewrite E. simpl. unfold print. simpl. split.
      * rewrite !elem_of_app. left; right. apply list_elem_of_singleton. done.
      * rewrite !elem_of_app. left; right. by apply list_elem_of_singleton.
    + destruct (IH (organizar_item denegado self n l)) as [IH1 IH2].
      { rewrite organizar_item_marco; [done|congruence..]. }
      split; [done|]. intros [?|?]%elem_of_cons; [congruence|auto].
Qed.

(** The round for a file whose folder is there, when the move is not
    refused: the move goes through, and replaces a file of the same name
    that the folder holds. *)
Lemma organizar_item_sobre l c :
  denegado [nombre] = false →
  fs (l_estado l) !! [nombre] = Some (Archivo c) →
  is_dir (fs (l_estado l)) [m; t; nombre] = false →
  fs (l_estado l) !! [m; t] = Some Carpeta →
  t ∈ obtener_carpetas_para_materia self m →
  organizar_item denegado self nombre l
  = mkLocales
      (print (L_organizado nombre m t)
         (con_fs (<[[m; t; nombre] := Archivo c]> (delete [nombre] (fs (l_estado l))))
                 (l_estado l)))
      (S (archivos_organizados l)) (archivos_no_organizados l).
Proof.
  intros Hd Hf Hdst Hpar Hsi. unfold organizar_item, is_dir. rewrite Hf, verdaderos.
  rewrite materia_identificada, tipo_reconocido. simpl.
  unfold en_lista. rewrite bool_decide_eq_true_2 by done.
  by rewrite (shutil_move_sobre denegado [nombre] [m; t; nombre] _ c).
Qed.

(** A round for a name that is not in [carpeta_origen] leaves the tree as
    it is. *)
Lemma organizar_item_ausente n l :
  fs (l_estado l) !! [n] = None →
  fs (l_estado (organizar_item denegado self n l)) = fs (l_estado l).
Proof.
  intros Hn.
  destruct (organizar_item_efecto denegado self n l) as [->| ? ? -> |c0 m0 t0 dst Hc _ _ Hdst ->];
    [done..|congruence].
Qed.

Lemma organizar_items_movido nombres l c :
  fs (l_estado l) !! [nombre] = None →
  fs (l_estado l) !! [m; t; nombre] = Some (Archivo c) →
  let l' := foldl (flip (organizar_item denegado self)) l nombres in
  fs (l_estado l') !! [nombre] = None
  ∧ fs (l_estado l') !! [m; t; nombre] = Some (Archivo c).
Proof.
  revert l. induction nombres as [|n nombres IH]; intros l H1 H3; simpl; [done|].
  apply IH.
  - destruct (decide (n = nombre)) as [->|Hn].
    + by rewrite organizar_item_ausente.
    + rewrite organizar_item_marco; [done|congruence..].
  - destruct (decide (n = nombre)) as [->|Hn].
    + by rewrite organizar_item_ausente.
    + rewrite organizar_item_marco; [done|congruence..].
Qed.

Lemma organizar_items_sobre nombres l c :
  denegado [nombre] = false →
  t ∈ obtener_carpetas_para_materia self m →
  fs (l_estado l) !! [nombre] = Some (Archivo c) →
  is_dir (fs (l_estado l)) [m; t; nombre] = false →
  fs (l_estado l) !! [m; t] = Some Carpeta →
  nombre ∈ nombres →
  let l' := foldl (flip (organizar_item denegado self)) l nombres in
  fs (l_estado l') !! [nombre] = None
  ∧ fs (l_estado l') !! [m; t; nombre] = Some (Archivo c)
  ∧ L_organizado nombre m t ∈ salida (l_estado l').
Proof.
  intros Hd Hsi. revert l.
  induction nombres as [|n nombres IH]; intros l H1 H3 H2 Hin; simpl.
  { by apply elem_of_nil in Hin. }
  destruct (decide (n = nombre)) as [->|Hn].
  - pose proof (organizar_item_sobre l c Hd H1 H3 H2 Hsi) as E.
    destruct (organizar_items_movido nombres (organizar_item denegado self nombre l) c)
      as [? ?].
    { rewrite E. simpl. rewrite lookup_insert_ne by done. apply lookup_delete_eq. }
    { rewrite E. simpl. apply lookup_insert_eq. }
    split_and!; [done..|].
    destruct (organizar_items_crece denegado self nombres
                (organizar_item denegado self nombre l)) as [[s1 ->] _].
    rewrite E. unfold print. simpl. rewrite !elem_of_app. left; right.
    by apply list_elem_of_singleton.
  - apply elem_of_cons in Hin as [?|Hin]; [congruence|].
    apply IH; [..|done]; unfold is_dir;
      (rewrite organizar_item_marco; [done|congruence..]).
Qed.

End Organizar.

(** The loop invents no name: whatever is in the tree afterwards was
    there before, or carries the name of a file of [carpeta_origen] under
    a subject folder and a type folder. *)
Lemma organizar_items_nombres denegado self nombres l0 (q : ruta) :
  let l' := foldl (flip (organizar_item denegado self)) l0 nombres in
  is_Some (fs (l_estado l') !! q) →
  is_Some (fs (l_estado l0) !! q)
  ∨ ∃ m t n, is_Some (fs (l_estado l0) !! [n])
             ∧ identificar_materia self n = Some m
             ∧ (q = [m; t; n] ∨ q = [m; t; n; n]).
Proof.
  simpl. revert q.
  cut (∀ l, (∀ q, is_Some (fs (l_estado l) !! q) →
               is_Some (fs (l_estado l0) !! q)
               ∨ ∃ m t n, is_Some (fs (l_estado l0) !! [n])
                          ∧ identificar_materia self n = Some m
                          ∧ (q = [m; t; n] ∨ q = [m; t; n; n])) →
             ∀ q, is_Some (fs (l_estado (foldl (flip (organizar_item denegado self)) l nombres)) !! q) →
               is_Some (fs (l_estado l0) !! q)
               ∨ ∃ m t n, is_Some (fs (l_estado l0) !! [n])
                          ∧ identificar_materia self n = Some m
                          ∧ (q = [m; t; n] ∨ q = [m; t; n; n])).
  { intros H. apply H. auto. }
  induction nombres as [|n nombres IH]; intros l Hl; simpl; [done|].
  apply IH. intros q.
  destruct (organizar_item_efecto denegado self n l) as [->| ? ? -> |c m t dst Hc Hm _ Hdst ->];
    [by apply Hl..|]. simpl.
  destruct (decide (q = dst)) as [->|Hq].
  - intros _. right. exists m, t, n. split_and!; [|done..].
    destruct (Hl [n]) as [?|(? & ? & ? & _ & _ & [?|?])]; [by rewrite Hc|done..].
  - rewrite lookup_insert_ne by done. intros Hs. apply Hl.
    destruct (decide (q = [n])) as [->|?]; [by rewrite lookup_delete_eq in Hs|].
    by rewrite lookup_delete_ne in Hs.
Qed.

(** C5. A file of [carpeta_origen] whose subject and type both resolve,
    that is, pass the test [if materia and tipo], but whose type is not
    among the folders of the subject, is reported with the subject and
    the type it has no folder for, is listed among the files left
    pending, and is still in [carpeta_origen] with its content when
    [organizar_archivos] returns. *)
Theorem organizar_archivos_tipo_no_permitido
    (denegado : ruta → bool) (rglob : sistema → list ruta) (iterdir : sistema → list string)
    carpeta materias estructura (mover crear : bool) (e0 e1 : estado) v
    (nombre m t c : string) :
  let self := init carpeta materias estructura in
  (∀ t, iterdir t ≡ₚ nombres_raiz t) →
  preparar denegado rglob self mover crear e0 = Normal v e1 →
  bien_formado (fs e1) →
  fs e1 !! [nombre] = Some (Archivo c) →
  identificar_materia self nombre = Some m →
  obtener_tipo_archivo self (suffix nombre) = Some t →
  verdadero (identificar_materia self nombre)
  && verdadero (obtener_tipo_archivo self (suffix nombre)) = true →
  t ∉ obtener_carpetas_para_materia self m →
  ∃ e2,
    organizar_archivos denegado rglob iterdir self mover crear e0 = Normal PyNone e2
    ∧ fs e2 !! [nombre] = Some (Archivo c)
    ∧ L_sin_carpeta nombre m t ∈ salida e2
    ∧ L_pendiente nombre ∈ salida e2.
Proof.
  intros self Hperm Hprep Hwf Hf Hm Ht Hv Hno.
  assert (m ≠ "") as Hne.
  { intros ->. by rewrite Hm in Hv. }
  unfold organizar_archivos. rewrite Hprep. simpl.
  unfold organizar_nivel_superior. simpl.
  pose proof (Hwf [nombre] _ Hf ltac:(done)) as Hraiz. simpl in Hraiz. rewrite Hraiz.
  eexists. split; [done|].
  destruct (organizar_items_sin_carpeta denegado carpeta materias estructura nombre m t
              Hm Hne Ht (iterdir (fs e1))
              (mkLocales (print L_organizando e1) 0 []) c Hf Hno) as [Hfs Hlog].
  destruct Hlog as [Hlinea Hpend].
  { rewrite Hperm. apply elem_of_nombres_raiz. by rewrite Hf. }
  rewrite imprimir_resumen_fs, imprimir_resumen_salida. split_and!; [done| |].
  - apply elem_of_app. by left.
  - apply elem_of_app. right. apply elem_of_app. right.
    destruct (archivos_no_organizados _) as [|n ns] eqn:E; [by apply elem_of_nil in Hpend|].
    right. apply list_elem_of_fmap. eauto.
Qed.

Lemma organizar_archivos_tipo_no_permitido_witness :
  ∃ e2,
    organizar_archivos (λ _, false) rutas_bajo_raiz nombres_raiz ejemplo_organizador
      false false (mkEstado ejemplo_redes []) = Normal PyNone e2
    ∧ fs e2 !! ["redes_practica.zip"] = Some (Archivo "PK-redes")
    ∧ L_sin_carpeta "redes_practica.zip" "Redes de la computadora" "comprimidos" ∈ salida e2
    ∧ L_pendiente "redes_practica.zip" ∈ salida e2.
Proof.
  apply (organizar_archivos_tipo_no_permitido (λ _, false) rutas_bajo_raiz nombres_raiz
           (mkPath false []) ejemplo_materias (Some ejemplo_estructura) false false
           (mkEstado ejemplo_redes []) (mkEstado ejemplo_redes []) PyNone).
  - reflexivity.
  - reflexivity.
  - apply (bool_decide_unpack _). vm_compute. exact I.
  - vm_compute. reflexivity.
  - vm_compute. reflexivity.
  - vm_compute. reflexivity.
  - vm_compute. reflexivity.
  - apply (bool_decide_unpack _). vm_compute. exact I.
Defined.

(** C10. A file of [carpeta_origen] that resolves to subject [m] and to a
    type [t] (passing the test [if materia and tipo]) the subject has a
    folder for, when a file of the same name is already in that folder
    and the move is not refused, is moved onto it:
    afterwards the folder holds, under that very name, the content that
    was in [carpeta_origen], the file is gone from [carpeta_origen], and
    the folder has no name that was not already there or the name of a
    file of [carpeta_origen]; no numbered name is made up. *)
Theorem organizar_archivos_sobrescribe
    (denegado : ruta → bool) (rglob : sistema → list ruta) (iterdir : sistema → list string)
    carpeta materias estructura (mover crear : bool) (e0 e1 : estado) v
    (nombre m t c c' : string) :
  let self := init carpeta materias estructura in
  (∀ t, iterdir t ≡ₚ nombres_raiz t) →
  preparar denegado rglob self mover crear e0 = Normal v e1 →
  bien_formado (fs e1) →
  fs e1 !! [nombre] = Some (Archivo c) →
  identificar_materia self nombre = Some m →
  obtener_tipo_archivo self (suffix nombre) = Some t →
  verdadero (identificar_materia self nombre)
  && verdadero (obtener_tipo_archivo self (suffix nombre)) = true →
  t ∈ obtener_carpetas_para_materia self m →
  fs e1 !! [m; t; nombre] = Some (Archivo c') →
  denegado [nombre] = false →
  ∃ e2,
    organizar_archivos denegado rglob iterdir self mover crear e0 = Normal PyNone e2
    ∧ fs e2 !! [m; t; nombre] = Some (Archivo c)
    ∧ fs e2 !! [nombre] = None
    ∧ L_organizado nombre m t ∈ salida e2
    ∧ ∀ n, is_Some (fs e2 !! [m; t; n]) →
           is_Some (fs e1 !! [m; t; n]) ∨ is_Some (fs e1 !! [n]).
Proof.
  intros self Hperm Hprep Hwf Hf Hm Ht Hv Hsi Hdst Hd.
  assert (m ≠ "") as Hne.
  { intros ->. by rewrite Hm in Hv. }
  unfold organizar_archivos. rewrite Hprep. simpl.
  unfold organizar_nivel_superior. simpl.
  pose proof (Hwf [nombre] _ Hf ltac:(done)) as Hraiz. simpl in Hraiz. rewrite Hraiz.
  pose proof (Hwf [m; t; nombre] _ Hdst ltac:(done)) as Hpar. simpl in Hpar.
  eexists. split; [done|].
  destruct (organizar_items_sobre denegado carpeta materias estructura nombre m t
              Hm Hne Ht (iterdir (fs e1))
              (mkLocales (print L_organizando e1) 0 []) c Hd Hsi Hf)
    as (H1 & H3 & Hlog); [by simpl; unfold is_dir; rewrite Hdst|done| |].
  { rewrite Hperm. apply elem_of_nombres_raiz. by rewrite Hf. }
  rewrite imprimir_resumen_fs, imprimir_resumen_salida. split_and!; [done..| |].
  - apply elem_of_app. by left.
  - intros n Hn.
    apply (organizar_items_nombres denegado self (iterdir (fs e1))
             (mkLocales (print L_organizando e1) 0 [])) in Hn
      as [?|(m0 & t0 & n0 & Hn0 & _ & [?|?])]; simplify_eq; auto.
Qed.

Lemma organizar_archivos_sobrescribe_witness :
  ∃ e2,
    organizar_archivos (λ _, false) rutas_bajo_raiz nombres_raiz ejemplo_organizador
      false false (mkEstado ejemplo_repetido []) = Normal PyNone e2
    ∧ fs e2 !! ["Base de Datos"; "pdf"; "consultas_sql.pdf"] = Some (Archivo "version nueva")
    ∧ fs e2 !! ["consultas_sql.pdf"] = None
    ∧ L_organizado "consultas_sql.pdf" "Base de Datos" "pdf" ∈ salida e2
    ∧ ∀ n, is_Some (fs e2 !! ["Base de Datos"; "pdf"; n]) →
           is_Some (ejemplo_repetido !! ["Base de Datos"; "pdf"; n])
           ∨ is_Some (ejemplo_repetido !! [n]).
Proof.
  apply (organizar_archivos_sobrescribe (λ _, false) rutas_bajo_raiz nombres_raiz
           (mkPath false []) ejemplo_materias (Some ejemplo_estructura) false false
           (mkEstado ejemplo_repetido []) (mkEstado ejemplo_repetido []) PyNone
           "consultas_sql.pdf" "Base de Datos" "pdf" "version nueva" "version antigua").
  - reflexivity.
  - reflexivity.
  - apply (bool_decide_unpack _). vm_compute. exact I.
  - vm_compute. reflexivity.
  - vm_compute. reflexivity.
  - vm_compute. reflexivity.
  - vm_compute. reflexivity.
  - apply (bool_decide_unpack _). vm_compute. exact I.
  - vm_compute. reflexivity.
  - reflexivity.
Defined.

(** ** The flattener *)

Section NombreLibre.

Implicit Types (t : sistema) (base ext destino : string).

Lemma existe_true t (p : ruta) : existe t p = true ↔ is_Some (t !! p).
Proof. unfold existe. apply bool_decide_eq_true. Qed.

Lemma existe_false t (p : ruta) : existe t p = false ↔ t !! p = None.
Proof. unfold existe. rewrite bool_decide_eq_false. symmetry. apply eq_None_not_Some. Qed.

Lemma con_contador_inj base ext : Inj (=) (=) (λ k, con_contador base k ext).
Proof.
  intros j k E. unfold con_contador in E.
  apply (inj (String.append base)) in E. apply (inj (String.append "_")) in E.
  apply str_app_inj_r in E. by apply (inj pretty) in E.
Qed.

(** Where the loop stops: at the name it was given when that is free,
    else at the first free numbered name from [contador] on. *)
Lemma mientras_existe_some t base ext n destino contador d :
  mientras_existe t base ext n destino contador = Some d →
  t !! [d] = None
  ∧ ((d = destino)
     ∨ (is_Some (t !! [destino])
        ∧ ∃ k, contador ≤ k ∧ d = con_contador base k ext
               ∧ ∀ j, contador ≤ j < k → is_Some (t !! [con_contador base j ext]))).
Proof.
  revert destino contador. induction n as [|n IH]; intros destino contador; simpl.
  - destruct (existe t [destino]) eqn:E; [done|]. intros [= <-].
    apply existe_false in E. auto.
  - destruct (existe t [destino]) eqn:E.
    + intros [Hd Hk]%IH. split; [done|]. right. apply existe_true in E. split; [done|].
      destruct Hk as [->|(Hc & k & Hk & -> & Hj)].
      * exists contador. split_and!; [done..|]. intros j ?. lia.
      * exists k. split_and!; [lia|done|]. intros j ?.
        destruct (decide (j = contador)) as [->|?]; [done|]. apply Hj. lia.
    + intros [= <-]. apply existe_false in E. auto.
Qed.

(** When the loop runs out of rounds, every name it tried is taken. *)
Lemma mientras_existe_none t base ext n destino contador :
  mientras_existe t base ext n destino contador = None →
  ∀ j, contador ≤ j < contador + n → is_Some (t !! [con_contador base j ext]).
Proof.
  revert destino contador. induction n as [|n IH]; intros destino contador; simpl.
  - intros _ j ?. lia.
  - destruct (existe t [destino]) eqn:E; [|done].
    destruct n as [|n'].
    + simpl. destruct (existe t [con_contador base contador ext]) eqn:E'; [|done].
      intros _ j ?. assert (j = contador) as -> by lia. by apply existe_true.
    + intros H j Hj. destruct (decide (j = contador)) as [->|?].
      * simpl in H. destruct (existe t [con_contador base contador ext]) eqn:E'; [|done].
        by apply existe_true.
      * apply (IH _ _ H). lia.
Qed.

(** No more than [size t] numbered names can be taken. *)
Lemma nombres_tomados t base ext contador n :
  (∀ j, contador ≤ j < contador + n → is_Some (t !! [con_contador base j ext])) →
  n ≤ size t.
Proof.
  intros H.
  set (l := (λ j, [con_contador base j ext]) <$> seq contador n).
  assert (l ⊆+ (map_to_list t).*1) as Hsub.
  { apply NoDup_submseteq.
    - apply NoDup_fmap_2; [|apply NoDup_seq].
      intros j k E. injection E as E. by apply (con_contador_inj base ext) in E.
    - intros q (j & -> & Hj%elem_of_seq)%list_elem_of_fmap.
      destruct (H j Hj) as [x Hx]. apply list_elem_of_fmap. exists ([con_contador base j ext], x).
      split; [done|]. by apply elem_of_map_to_list. }
  apply submseteq_length in Hsub.
  unfold l in Hsub. rewrite !length_fmap, length_seq, length_map_to_list in Hsub. done.
Qed.

Lemma mientras_existe_total t base ext destino contador :
  is_Some (mientras_existe t base ext (S (size t)) destino contador).
Proof.
  destruct (mientras_existe _ _ _ _ _ _) eqn:E; [done|].
  pose proof (mientras_existe_none _ _ _ _ _ _ E) as H.
  apply nombres_tomados in H. lia.
Qed.

(** [destino_libre] always finds a name: the name of the file when it is
    free in [carpeta_origen], else the first free numbered name, counted
    from 1. *)
Lemma destino_libre_spec t nombre :
  ∃ d, destino_libre t nombre = Some d
       ∧ t !! [d] = None
       ∧ ((d = nombre)
          ∨ (is_Some (t !! [nombre])
             ∧ ∃ k, 1 ≤ k ∧ d = con_contador (stem nombre) k (suffix nombre)
                    ∧ ∀ j, 1 ≤ j < k →
                        is_Some (t !! [con_contador (stem nombre) j (suffix nombre)]))).
Proof.
  unfold destino_libre. destruct (existe t [nombre]) eqn:E.
  - destruct (mientras_existe_total t (stem nombre) (suffix nombre) nombre 1) as [d Hd].
    exists d. split; [done|]. by apply mientras_existe_some in Hd.
  - exists nombre. apply existe_false in E. auto.
Qed.

End NombreLibre.

Lemma Path_div_nil (o : Path) : Path_div o [] = o.
Proof. destruct o as [a ps]. unfold Path_div. simpl. by rewrite app_nil_r. Qed.

Lemma Path_div_inj (o : Path) (r : ruta) : Path_div o r = o → r = [].
Proof.
  destruct o as [a ps]. unfold Path_div. simpl. intros [= E].
  apply (inj (app ps)). by rewrite app_nil_r.
Qed.

Lemma Path_parent_div (o : Path) (r : ruta) :
  r ≠ [] → Path_parent (Path_div o r) = Path_div o (removelast r).
Proof. intros Hr. unfold Path_parent, Path_div. simpl. by rewrite removelast_app. Qed.

(** A path whose parent is not [carpeta_origen] is not an entry of
    [carpeta_origen]. *)
Lemma en_subcarpeta (o : Path) (r : ruta) :
  r ≠ [] → Path_parent (Path_div o r) ≠ o → removelast r ≠ [].
Proof.
  intros Hr Hp E. apply Hp. rewrite Path_parent_div by done. rewrite E. apply Path_div_nil.
Qed.

Lemma foldl_invariante {A B} (f : B → A → B) (P : B → Prop) (l : list A) (b : B) :
  P b → (∀ b a, a ∈ l → P b → P (f b a)) → P (foldl f b l).
Proof.
  revert b. induction l as [|a l IH]; intros b Hb Hf; simpl; [done|].
  apply IH.
  - apply Hf; [left|done].
  - intros b' a' ? ?. apply Hf; [by right|done].
Qed.

Section Aplanar.

Variable denegado : ruta → bool.
Variable self : OrganizadorArchivos.

Lemma mover_item_efecto item s :
  efecto_mover denegado self item s (mover_item denegado self item s).
Proof.
  destruct s as [e k]. unfold mover_item.
  destruct (is_file (fs e) item) eqn:Hfile; [|apply em_nada]. simpl.
  case_bool_decide as Hsub; [|apply em_nada].
  destruct (en_carpeta_de_materia _ _) eqn:Hmat; [apply em_nada|].
  destruct (destino_libre_spec (fs e) (List.last item "")) as (d & Hdl & Hd & _).
  rewrite Hdl.
  destruct (shutil_move _ _ _ _) as [t'|x] eqn:Hmv; [|apply em_error].
  apply shutil_move_hecho in Hmv
    as (c & real_dst & Hsrc & Hden & -> & Hpar & _ & [[-> _]|(_ & Hdir & _)]).
  - simpl in Hpar.
    assert (item ≠ []) as Hne by (intros ->; congruence).
    apply em_movido; try done. by apply (en_subcarpeta (carpeta_origen self)).
  - unfold is_dir in Hdir. by rewrite Hd in Hdir.
Qed.

Lemma eliminar_carpeta_efecto carpeta s :
  efecto_eliminar self carpeta s (eliminar_carpeta denegado self carpeta s).
Proof.
  destruct s as [e k]. unfold eliminar_carpeta.
  destruct (is_dir (fs e) carpeta) eqn:Hdir; [|apply ee_nada]. simpl.
  case_bool_decide as Hne; [|apply ee_nada].
  destruct (en_lista _ _) eqn:Hnom; [apply ee_nada|].
  destruct (en_carpeta_de_materia _ _) eqn:Hmat; [apply ee_nada|].
  destruct (tiene_entradas _ _) eqn:Hent; [apply ee_nada|]. simpl.
  destruct (rmdir _ _ _) as [t'|x] eqn:Hrm; [|apply ee_error].
  apply rmdir_hecho in Hrm as (Hc & _ & ->).
  apply ee_eliminada; try done. intros ->. apply Hne, Path_div_nil.
Qed.

Lemma conserva_refl t : conserva t t.
Proof. by split_and!. Qed.

Lemma conserva_trans t1 t2 t3 : conserva t1 t2 → conserva t2 t3 → conserva t1 t3.
Proof. intros (? & ? & ?) (? & ? & ?). split_and!; eauto. Qed.

Lemma mover_item_conserva item s :
  conserva (fs s.1) (fs (mover_item denegado self item s).1).
Proof.
  destruct (mover_item_efecto item s) as [s|e k|e k c d Hc Hr Hne Hsub _ _ _ Hd];
    [apply conserva_refl..|]. simpl. split_and!.
  - intros _. rewrite lookup_insert_ne by done. by rewrite lookup_delete_ne.
  - intros q c' Hq Hlen.
    rewrite lookup_insert_ne by (intros <-; congruence).
    rewrite lookup_delete_ne; [done|]. intros <-.
    destruct item as [|? [|? ?]]; simplify_eq/=.
  - intros q Hq Hlen.
    rewrite lookup_insert_ne by (intros <-; simpl in Hlen; lia).
    destruct (decide (item = q)) as [->|?]; [apply lookup_delete_eq|].
    by rewrite lookup_delete_ne.
Qed.

Lemma eliminar_carpeta_conserva carpeta s :
  conserva (fs s.1) (fs (eliminar_carpeta denegado self carpeta s).1).
Proof.
  destruct (eliminar_carpeta_efecto carpeta s) as [s|e k|e k Hc Hne _ _ _];
    [apply conserva_refl..|]. simpl. split_and!.
  - intros Hr. by rewrite lookup_delete_ne.
  - intros q c' Hq Hlen. rewrite lookup_delete_ne; [done|]. intros <-. congruence.
  - intros q Hq Hlen.
    destruct (decide (carpeta = q)) as [->|?]; [apply lookup_delete_eq|].
    by rewrite lookup_delete_ne.
Qed.

Lemma mover_items_conserva items s :
  conserva (fs s.1) (fs (foldl (flip (mover_item denegado self)) s items).1).
Proof.
  apply (foldl_invariante _ (λ s', conserva (fs s.1) (fs s'.1))); [apply conserva_refl|].
  intros s' item _ H. eapply conserva_trans; [done|]. apply mover_item_conserva.
Qed.

Lemma eliminar_carpetas_conserva carpetas s :
  conserva (fs s.1) (fs (foldl (flip (eliminar_carpeta denegado self)) s carpetas).1).
Proof.
  apply (foldl_invariante _ (λ s', conserva (fs s.1) (fs s'.1))); [apply conserva_refl|].
  intros s' item _ H. eapply conserva_trans; [done|]. apply eliminar_carpeta_conserva.
Qed.

(** Nothing printed is taken back. *)
Lemma mover_items_crece items s :
  salida s.1 `prefix_of` salida (foldl (flip (mover_item denegado self)) s items).1.
Proof.
  apply (foldl_invariante _ (λ s', salida s.1 `prefix_of` salida s'.1)); [done|].
  intros s' item _ H. etrans; [done|]. unfold flip.
  destruct (mover_item_efecto item s') as [s''|e k|e k c d]; simpl;
    [done|by apply prefix_app_r..].
Qed.

Lemma eliminar_carpetas_crece carpetas s :
  salida s.1 `prefix_of` salida (foldl (flip (eliminar_carpeta denegado self)) s carpetas).1.
Proof.
  apply (foldl_invariante _ (λ s', salida s.1 `prefix_of` salida s'.1)); [done|].
  intros s' item _ H. etrans; [done|]. unfold flip.
  destruct (eliminar_carpeta_efecto item s') as [s''|e k|e k]; simpl;
    [done|by apply prefix_app_r..].
Qed.

(** The round for a file of a subfolder that is not a subject's, when
    the move is not refused: the file lands in [carpeta_origen] under the
    name [destino_libre] finds. *)
Lemma mover_item_movido item e k c :
  fs e !! item = Some (Archivo c) →
  fs e !! [] = Some Carpeta →
  Path_parent (Path_div (carpeta_origen self) item) ≠ carpeta_origen self →
  en_carpeta_de_materia self (Path_parent (Path_div (carpeta_origen self) item)) = false →
  denegado item = false →
  ∃ d, destino_libre (fs e) (List.last item "") = Some d
       ∧ mover_item denegado self item (e, k)
         = (print (L_movido item d) (con_fs (<[[d] := Archivo c]> (delete item (fs e))) e), S k).
Proof.
  intros Hc Hr Hsub Hmat Hden.
  destruct (destino_libre_spec (fs e) (List.last item "")) as (d & Hdl & Hd & _).
  exists d. split; [done|]. unfold mover_item, is_file.
  rewrite Hc. simpl. rewrite bool_decide_eq_true_2 by done. rewrite Hmat, Hdl.
  rewrite (shutil_move_sobre denegado item [d] (fs e) c); try done.
  unfold is_dir. by rewrite Hd.
Qed.

Lemma mover_archivos_de_subcarpetas_eq rglob e :
  mover_archivos_de_subcarpetas denegado rglob self e
  = (PyNone,
     print (L_carpetas_eliminadas (tras_eliminar denegado self rglob e).2)
       (print (L_archivos_movidos (tras_mover denegado self rglob e).2)
          (tras_eliminar denegado self rglob e).1)).
Proof.
  unfold mover_archivos_de_subcarpetas, tras_eliminar, tras_mover. simpl.
  destruct (foldl _ _ (rglob (fs e))) as [e1 k1]. simpl.
  by destruct (foldl _ _ _) as [e2 k2].
Qed.

Lemma mover_archivos_de_subcarpetas_conserva rglob e :
  conserva (fs e) (fs (mover_archivos_de_subcarpetas denegado rglob self e).2).
Proof.
  rewrite mover_archivos_de_subcarpetas_eq. simpl.
  eapply conserva_trans; [apply (mover_items_conserva (rglob (fs e))
                                   (print L_moviendo_de_subcarpetas e, 0))|].
  apply (eliminar_carpetas_conserva _
           (print L_eliminando_vacias (tras_mover denegado self rglob e).1, 0)).
Qed.

End Aplanar.

Lemma NoDup_rutas_bajo_raiz (t : sistema) : NoDup (rutas_bajo_raiz t).
Proof.
  unfold rutas_bajo_raiz. destruct (is_dir t []); [|constructor].
  apply NoDup_filter, NoDup_fst_map_to_list.
Qed.

Lemma elem_of_rutas_bajo_raiz (t : sistema) (q : ruta) :
  q ∈ rutas_bajo_raiz t ↔ t !! [] = Some Carpeta ∧ q ≠ [] ∧ is_Some (t !! q).
Proof.
  unfold rutas_bajo_raiz, is_dir. destruct (t !! []) as [[c|]|] eqn:Hr.
  - split; [by intros ?%elem_of_nil|by intros [? _]].
  - rewrite list_elem_of_filter, list_elem_of_fmap. split.
    + intros (Hq & [q' x] & -> & Hx%elem_of_map_to_list). by split_and!.
    + intros (_ & Hq & x & Hx). split; [done|]. exists (q, x). split; [done|].
      by apply elem_of_map_to_list.
  - split; [by intros ?%elem_of_nil|by intros [? _]].
Qed.

(** The first loop touches, below the folders, only the files it is
    handed. *)
Lemma mover_items_marco denegado self items s (q : ruta) :
  2 ≤ length q → q ∉ items →
  fs (foldl (flip (mover_item denegado self)) s items).1 !! q = fs s.1 !! q.
Proof.
  intros Hlen. revert s. induction items as [|item items IH]; intros s Hq; simpl; [done|].
  apply not_elem_of_cons in Hq as [Hne Hq]. rewrite IH by done. unfold flip.
  destruct (mover_item_efecto denegado self item s) as [s'|e k|e k c d]; simpl; [done..|].
  rewrite lookup_insert_ne by (intros <-; simpl in Hlen; lia).
  by rewrite lookup_delete_ne.
Qed.

(** C4. In a flattening pass, take any file of a subfolder (not a
    subject's) whose move is not refused and whose name is taken in
    [carpeta_origen] when its turn comes.  It is moved under its name with
    [_n] before the extension, [n] being the first of 1, 2, 3, ... whose
    name is free at that moment, whatever was counted for the files
    before it.  When the pass ends the file is in [carpeta_origen] under
    that name with its content, it is gone from the subfolder, and a file
    that held the name in [carpeta_origen] is still there unchanged. *)
Theorem mover_archivos_de_subcarpetas_colision
    (denegado : ruta → bool) (rglob : sistema → list ruta) (self : OrganizadorArchivos)
    (e : estado) (antes despues : list ruta) (item : ruta) (c : string) :
  let nombre := List.last item "" in
  let numerado n := con_contador (stem nombre) n (suffix nombre) in
  let s := foldl (flip (mover_item denegado self)) (print L_moviendo_de_subcarpetas e, 0) antes in
  let e' := (mover_archivos_de_subcarpetas denegado rglob self e).2 in
  (∀ t, rglob t ≡ₚ rutas_bajo_raiz t) →
  rglob (fs e) = antes ++ item :: despues →
  fs e !! item = Some (Archivo c) →
  Path_parent (Path_div (carpeta_origen self) item) ≠ carpeta_origen self →
  en_carpeta_de_materia self (Path_parent (Path_div (carpeta_origen self) item)) = false →
  denegado item = false →
  is_Some (fs s.1 !! [nombre]) →
  ∃ n, 1 ≤ n
       ∧ (∀ j, 1 ≤ j < n → is_Some (fs s.1 !! [numerado j]))
       ∧ fs s.1 !! [numerado n] = None
       ∧ fs e' !! [numerado n] = Some (Archivo c)
       ∧ fs e' !! item = None
       ∧ L_movido item (numerado n) ∈ salida e'
       ∧ ∀ c0, fs s.1 !! [nombre] = Some (Archivo c0) → fs e' !! [nombre] = Some (Archivo c0).
Proof.
  intros nombre numerado s e' Hperm Hlista Hc Hsub Hmat Hden Hcol.
  assert (item ∈ rutas_bajo_raiz (fs e)) as (Hraiz & Hne & _)%elem_of_rutas_bajo_raiz.
  { rewrite <- Hperm, Hlista. apply elem_of_app. right. left. }
  assert (2 ≤ length item) as Hlen.
  { pose proof (en_subcarpeta _ _ Hne Hsub). destruct item as [|? [|? ?]]; simpl; [done..|lia]. }
  assert (item ∉ antes) as Hfuera.
  { pose proof (NoDup_rutas_bajo_raiz (fs e)) as Hnd.
    rewrite <- Hperm, Hlista in Hnd. apply NoDup_app in Hnd as (_ & Hnd & _).
    intros Hin. apply (Hnd _ Hin). left. }
  assert (fs s.1 !! item = Some (Archivo c)) as Hc'.
  { unfold s. by rewrite mover_items_marco. }
  assert (fs s.1 !! [] = Some Carpeta) as Hraiz'.
  { by apply (mover_items_conserva denegado self antes (print L_moviendo_de_subcarpetas e, 0)). }
  destruct s as [ei ki] eqn:Hs. simpl in *.
  destruct (mover_item_movido denegado self item ei ki c Hc' Hraiz' Hsub Hmat Hden)
    as (d & Hdl & Hpaso).
  destruct (destino_libre_spec (fs ei) nombre) as (d' & Hdl' & Hd & Hcasos).
  assert (d' = d) as -> by (unfold nombre in Hdl'; congruence).
  destruct Hcasos as [E|(_ & n & Hn & E & Hj)].
  { rewrite E in Hd. destruct Hcol as [? ?]. congruence. }
  rewrite E in *. clear E.
  exists n. split_and!; [done..| | | |].
  all: unfold e'; rewrite mover_archivos_de_subcarpetas_eq; simpl.
  all: unfold tras_eliminar, tras_mover; rewrite Hlista, foldl_app; simpl.
  all: unfold flip at 2; fold s; rewrite Hs, Hpaso.
  all: set (s1 := (print _ _, S ki)).
  all: set (s2 := foldl _ s1 despues).
  all: set (s3 := foldl _ _ _).
  all: pose proof (mover_items_conserva denegado self despues s1) as C1; fold s2 in C1.
  all: pose proof (eliminar_carpetas_conserva denegado self
                     (sorted_reverse self (rglob (fs s2.1)))
                     (print L_eliminando_vacias s2.1, 0)) as C2; fold s3 in C2.
  all: destruct (conserva_trans _ _ _ C1 C2) as (_ & Harch & Haus).
  - apply Harch; [|done]. simpl. apply lookup_insert_eq.
  - apply Haus; [|done]. simpl.
    rewrite lookup_insert_ne by (intros E; rewrite <- E in Hlen; simpl in Hlen; lia).
    apply lookup_delete_eq.
  - pose proof (mover_items_crece denegado self despues s1) as [x1 P1].
    change (salida s2.1 = salida s1.1 ++ x1) in P1.
    pose proof (eliminar_carpetas_crece denegado self
                  (sorted_reverse self (rglob (fs s2.1)))
                  (print L_eliminando_vacias s2.1, 0)) as [x2 P2]. fold s3 in P2.
    rewrite P2. unfold print at 1. simpl. rewrite P1.
    unfold s1, print. simpl.
    repeat first [ by (apply elem_of_app; right; apply list_elem_of_singleton)
                 | apply elem_of_app; left ].
  - intros c0 Hc0. apply Harch; [|done]. simpl.
    rewrite lookup_insert_ne by (intros [= E]; fold nombre in Hc0; congruence).
    rewrite lookup_delete_ne; [done|]. intros E. rewrite E in Hlen. simpl in Hlen. lia.
Qed.

Lemma mover_archivos_de_subcarpetas_colision_witness :
  let e := mkEstado ejemplo_colision [] in
  let e' := (mover_archivos_de_subcarpetas (λ _, false) rutas_bajo_raiz
               ejemplo_organizador e).2 in
  ∃ n, 1 ≤ n
       ∧ (∀ j, 1 ≤ j < n → is_Some (ejemplo_colision !! [con_contador "x" j ".pdf"]))
       ∧ ejemplo_colision !! [con_contador "x" n ".pdf"] = None
       ∧ fs e' !! [con_contador "x" n ".pdf"] = Some (Archivo "anidado")
       ∧ fs e' !! ["sub"; "x.pdf"] = None
       ∧ L_movido ["sub"; "x.pdf"] (con_contador "x" n ".pdf") ∈ salida e'
       ∧ ∀ c0, ejemplo_colision !! ["x.pdf"] = Some (Archivo c0) →
               fs e' !! ["x.pdf"] = Some (Archivo c0).
Proof.
  apply (mover_archivos_de_subcarpetas_colision (λ _, false) rutas_bajo_raiz
           ejemplo_organizador (mkEstado ejemplo_colision [])
           [] [["x.pdf"]; ["sub"]] ["sub"; "x.pdf"] "anidado").
  - reflexivity.
  - vm_compute. reflexivity.
  - vm_compute. reflexivity.
  - discriminate.
  - vm_compute. reflexivity.
  - reflexivity.
  - vm_compute. eexists. reflexivity.
Defined.

(** The example of the specification: the nested [x.pdf] lands as
    [x_1.pdf] beside the [x.pdf] that was there. *)
Example aplanar_x_pdf :
  let e' := (mover_archivos_de_subcarpetas (λ _, false) rutas_bajo_raiz ejemplo_organizador
               (mkEstado ejemplo_colision [])).2 in
  map_to_list (fs e') = [ (["x.pdf"], Archivo "original");
                          (["x_1.pdf"], Archivo "anidado"); ([], Carpeta) ]
  ∧ salida e' = [ L_moviendo_de_subcarpetas; L_movido ["sub"; "x.pdf"] "x_1.pdf";
                  L_eliminando_vacias; L_eliminada ["sub"];
                  L_archivos_movidos 1; L_carpetas_eliminadas 1 ].
Proof. split; vm_compute; reflexivity. Qed.

(** ** Paths as strings *)

Section Rutas.

Implicit Types (a u cola : string) (o : Path) (r : ruta).




Lemma join_app r1 r2 :
  r1 ≠ [] → r2 ≠ [] → Str.join "/" (r1 ++ r2) = Str.join "/" r1 +:+ "/" +:+ Str.join "/" r2.
Proof.
  intros H1 H2. induction r1 as [|x [|y r1] IH]; [done| |].
  - destruct r2; [done|]. reflexivity.
  - change (Str.join "/" ((x :: y :: r1) ++ r2))
      with (x +:+ "/" +:+ Str.join "/" ((y :: r1) ++ r2)).
    rewrite IH by done.
    change (Str.join "/" (x :: y :: r1)) with (x +:+ "/" +:+ Str.join "/" (y :: r1)).
    by rewrite !str_app_assoc.
Qed.

(** The string of a path below [o] is the string of [o], or nothing when
    [o] is the current directory, followed by the components. *)
Lemma Path_str_div o r :
  r ≠ [] →
  ∃ u cola, Path_str (Path_div o r) = u +:+ cola
            ∧ (u = Path_str o ∨ u = "")
            ∧ (cola = Str.join "/" r ∨ cola = "/" +:+ Str.join "/" r).
Proof.
  intros Hr.
  assert (∀ l : ruta, l ≠ [] →
            match l with [] => "." | _ => Str.join "/" l end = Str.join "/" l) as Hno_vacia.
  { by intros [|? ?]. }
  destruct o as [[] [|p ps]]; unfold Path_str, Path_div; cbn [absoluta parts].
  - exists "/", (Str.join "/" r). auto.
  - exists ("/" +:+ Str.join "/" (p :: ps)), ("/" +:+ Str.join "/" r). split; [|auto].
    rewrite (join_app (p :: ps) r) by done. by rewrite !str_app_assoc.
  - exists "", (Str.join "/" r). split; [|auto]. rewrite app_nil_l. by apply Hno_vacia.
  - exists (Str.join "/" (p :: ps)), ("/" +:+ Str.join "/" r). split; [|auto].
    rewrite Hno_vacia by done. by apply join_app.
Qed.


End Rutas.

(** ** Loops in which one or two rounds do something *)

Section Bucles.

Context {A B : Type} (f : B → A → B).

Lemma foldl_sin_efecto (b : B) (l : list A) :
  (∀ a, a ∈ l → f b a = b) → foldl f b l = b.
Proof.
  induction l as [|a l IH]; intros H; simpl; [done|].
  rewrite H by left. apply IH. intros a' ?. apply H. by right.
Qed.


End Bucles.

(** ** The order of the pruning loop *)

Section Orden.

Variable self : OrganizadorArchivos.

Lemma profundidad_length (p q : ruta) :
  profundidad self q ≤ profundidad self p ↔ length q ≤ length p.
Proof. unfold profundidad, len_parts, Path_div. simpl. rewrite !length_app. lia. Qed.

Lemma insertar_por_profundidad_perm p l : insertar_por_profundidad self p l ≡ₚ p :: l.
Proof.
  induction l as [|q l IH]; simpl; [done|].
  destruct (_ <=? _); [done|]. rewrite IH. apply Permutation_swap.
Qed.

Lemma sorted_reverse_perm l : sorted_reverse self l ≡ₚ l.
Proof.
  induction l as [|p l IH]; simpl; [done|].
  rewrite insertar_por_profundidad_perm. by rewrite IH.
Qed.

(** In the sorted list no path stands before a deeper one. *)
Lemma sorted_reverse_ordenado l :
  StronglySorted (λ p q, length q ≤ length p) (sorted_reverse self l).
Proof.
  induction l as [|p l IH]; simpl; [constructor|].
  revert IH. generalize (sorted_reverse self l). clear l.
  intros l. induction l as [|q l IH]; intros Hs; simpl.
  - repeat constructor.
  - apply StronglySorted_cons in Hs as [Hq Hs].
    destruct (_ <=? _) eqn:E.
    + apply Nat.leb_le, profundidad_length in E.
      apply StronglySorted_cons. split; [|by apply StronglySorted_cons].
      constructor; [done|]. eapply Forall_impl; [done|]. intros x ?. simpl in *. lia.
    + apply Nat.leb_gt in E.
      assert (length p ≤ length q) as Hpq.
      { apply profundidad_length. unfold profundidad. lia. }
      apply StronglySorted_cons. split; [|by apply IH].
      apply Forall_forall. intros x Hx.
      rewrite insertar_por_profundidad_perm in Hx.
      apply elem_of_cons in Hx as [->|Hx]; [done|].
      by eapply Forall_forall in Hq.
Qed.


End Orden.

(** ** Rounds of the flattener, computed *)

Section Rondas.

Variable denegado : ruta → bool.
Variable self : OrganizadorArchivos.

Lemma Path_name_div (o : Path) (r : ruta) (x : string) :
  Path_name (Path_div o (r ++ [x])) = x.
Proof. unfold Path_name, Path_div. simpl. rewrite app_assoc. apply last_last. Qed.





Lemma eliminar_carpeta_vacia q e k :
  fs e !! q = Some Carpeta → q ≠ [] →
  en_lista (Path_name (Path_div (carpeta_origen self) q))
           (keys (materias_palabras_clave self)) = false →
  en_carpeta_de_materia self (Path_parent (Path_div (carpeta_origen self) q)) = false →
  tiene_entradas (fs e) q = false →
  denegado q = false →
  eliminar_carpeta denegado self q (e, k)
  = (print (L_eliminada q) (con_fs (delete q (fs e)) e), S k).
Proof.
  intros Hq Hne Hnom Hmat Hent Hden. unfold eliminar_carpeta, is_dir, rmdir, is_dir.
  rewrite Hq, Hnom, Hmat, Hent, Hden. simpl.
  rewrite bool_decide_eq_true_2; [done|]. by intros ?%Path_div_inj.
Qed.


End Rondas.

(** ** Flatten, build, organize: the nested report *)

Section InformeAnidado.

Variable denegado : ruta → bool.
Variable rglob : sistema → list ruta.
Variable iterdir : sistema → list string.
Hypothesis sin_rechazos : ∀ p, denegado p = false.
Hypothesis rglob_permutacion : ∀ t, rglob t ≡ₚ rutas_bajo_raiz t.
Hypothesis iterdir_permutacion : ∀ t, iterdir t ≡ₚ nombres_raiz t.

Variables (raiz : Path) (palabras : list string).
Variable estructura : option (gmap string (list string)).
Variable c : string.

Local Abbreviation self := (init raiz [("Database", palabras)] estructura).

Hypothesis palabra_report : "report" ∈ palabras.
Hypothesis carpeta_pdf : "pdf" ∈ obtener_carpetas_para_materia self "Database".
Hypothesis raiz_sin_materia : Str.contains (Path_str raiz) "Database" = false.








End InformeAnidado.



(** The same run, computed: what the tree holds at the end and what was
    printed. *)
Example informe_anidado_calculado :
  let e' := estado_final
              (organizar_archivos (λ _, false) rutas_bajo_raiz nombres_raiz
                 (init (mkPath false ["root"]) [("Database", ["report"])] None) true true
                 (mkEstado (arbol_anidado "%PDF-1.4") [])) in
  map_to_list (fs e')
  = [ (["Database"; "powerpoint"], Carpeta); (["Database"; "words"], Carpeta);
      (["Database"; "pdf"], Carpeta);
      (["Database"; "pdf"; "report.pdf"], Archivo "%PDF-1.4");
      (["Database"], Carpeta); ([], Carpeta) ]
  ∧ salida e'
    = [ L_moviendo_de_subcarpetas; L_movido ["A"; "B"; "report.pdf"] "report.pdf";
        L_eliminando_vacias; L_eliminada ["A"; "B"]; L_eliminada ["A"];
        L_archivos_movidos 1; L_carpetas_eliminadas 2;
        L_creando_estructura; L_creada "Database" "pdf"; L_creada "Database" "words";
        L_creada "Database" "powerpoint";
        L_organizando; L_organizado "report.pdf" "Database" "pdf";
        L_separador; L_resumen; L_archivos_organizados 1; L_archivos_sin_organizar 0 ].
Proof. split; vm_compute; reflexivity. Qed.

(** ** Which errors end a run *)


Section Errores.

Variable denegado : ruta → bool.
Variable rglob : sistema → list ruta.
Variable iterdir : sistema → list string.
Hypothesis rglob_permutacion : ∀ t, rglob t ≡ₚ rutas_bajo_raiz t.
Variable self : OrganizadorArchivos.



End Errores.




(** ** What a run reports *)

Section Cuentas.

Implicit Types (p clase : linea → bool) (N : list linea).

Lemma cuenta_app p (M : list linea) N : cuenta p (M ++ N) = cuenta p M + cuenta p N.
Proof. unfold cuenta. by rewrite List.filter_app, length_app. Qed.

Lemma cuenta_ajena p clase N :
  (∀ l, clase l = true → p l = false) →
  Forall (λ l, clase l = true) N → cuenta p N = 0.
Proof.
  intros H. induction 1 as [|l N Hl _ IH]; [done|].
  unfold cuenta in *. simpl. by rewrite (H l Hl).
Qed.

Lemma omap_ajena {X} (f : linea → option X) clase N :
  (∀ l, clase l = true → f l = None) →
  Forall (λ l, clase l = true) N → omap f N = [].
Proof.
  intros H. induction 1 as [|l N Hl _ IH]; [done|]. simpl. by rewrite (H l Hl).
Qed.

(** A loop each of whose rounds prints at most one line of a class, and
    counts the lines that [p] holds of. *)
Lemma bucle_contado {A} (paso : A → estado * nat → estado * nat) p clase
    (items : list A) (s : estado * nat) :
  (∀ a s, paso a s = s
          ∨ ∃ l, clase l = true
                 ∧ salida (paso a s).1 = salida s.1 ++ [l]
                 ∧ (paso a s).2 = s.2 + cuenta p [l]) →
  ∃ N, salida (foldl (flip paso) s items).1 = salida s.1 ++ N
       ∧ Forall (λ l, clase l = true) N
       ∧ (foldl (flip paso) s items).2 = s.2 + cuenta p N.
Proof.
  intros Hpaso. revert s. induction items as [|a items IH]; intros s; simpl.
  - exists []. by rewrite app_nil_r, Nat.add_0_r.
  - destruct (IH (flip paso s a)) as (N & HN & Hclase & Hcuenta).
    change (flip paso s a) with (paso a s) in *.
    destruct (Hpaso a s) as [E|(l & Hl & Hsal & Hk)].
    + exists N. rewrite E in *. done.
    + exists (l :: N). rewrite HN, Hcuenta, Hsal, Hk. split_and!.
      * by rewrite <- app_assoc.
      * by constructor.
      * change (l :: N) with ([l] ++ N). rewrite (cuenta_app p [l] N). lia.
Qed.

End Cuentas.

Section Informes.

Variable denegado : ruta → bool.
Variable rglob : sistema → list ruta.
Variable iterdir : sistema → list string.
Variable self : OrganizadorArchivos.

(** The flattener prints, as its two counts, the number of files it
    says it moved and the number of folders it says it removed. *)
Lemma mover_archivos_de_subcarpetas_informe e :
  ∃ N, salida (mover_archivos_de_subcarpetas denegado rglob self e).2 = salida e ++ N
       ∧ Forall (λ l, de_aplanar l = true) N
       ∧ L_archivos_movidos (cuenta es_movido N) ∈ N
       ∧ L_carpetas_eliminadas (cuenta es_eliminada N) ∈ N.
Proof.
  rewrite mover_archivos_de_subcarpetas_eq. unfold tras_eliminar, tras_mover.
  destruct (bucle_contado (mover_item denegado self) es_movido de_mover
              (rglob (fs e)) (print L_moviendo_de_subcarpetas e, 0))
    as (M & HM & HclaseM & Hk1).
  { intros a s.
    destruct (mover_item_efecto denegado self a s) as [s'|e' k|e' k c d]; [by left|right..].
    - eexists. split_and!; [|reflexivity|]; [done|]. unfold cuenta. simpl. lia.
    - eexists. split_and!; [|reflexivity|]; [done|]. unfold cuenta. simpl. lia. }
  set (s1 := foldl _ _ (rglob (fs e))) in *.
  destruct (bucle_contado (eliminar_carpeta denegado self) es_eliminada de_eliminar
              (sorted_reverse self (rglob (fs s1.1))) (print L_eliminando_vacias s1.1, 0))
    as (E & HE & HclaseE & Hk2).
  { intros a s.
    destruct (eliminar_carpeta_efecto denegado self a s) as [s'|e' k|e' k]; [by left|right..].
    - eexists. split_and!; [|reflexivity|]; [done|]. unfold cuenta. simpl. lia.
    - eexists. split_and!; [|reflexivity|]; [done|]. unfold cuenta. simpl. lia. }
  set (s2 := foldl _ _ (sorted_reverse _ _)) in *.
  simpl in HM, HE, Hk1, Hk2.
  set (N := [L_moviendo_de_subcarpetas] ++ M ++ [L_eliminando_vacias] ++ E
            ++ [L_archivos_movidos s1.2; L_carpetas_eliminadas s2.2]).
  assert (cuenta es_movido N = s1.2) as Hc1.
  { unfold N. rewrite !cuenta_app, Hk1.
    rewrite (cuenta_ajena es_movido de_eliminar E); [|by intros []|done].
    unfold cuenta. simpl. lia. }
  assert (cuenta es_eliminada N = s2.2) as Hc2.
  { unfold N. rewrite !cuenta_app, Hk2.
    rewrite (cuenta_ajena es_eliminada de_mover M); [|by intros []|done].
    unfold cuenta. simpl. lia. }
  exists N. rewrite Hc1, Hc2. split_and!.
  - unfold print at 1 2. simpl. rewrite HE, HM. unfold N. by rewrite <- !app_assoc.
  - unfold N. repeat (apply Forall_app; split); try by repeat constructor.
    + eapply Forall_impl; [exact HclaseM|]. by intros [].
    + eapply Forall_impl; [exact HclaseE|]. by intros [].
  - unfold N. do 4 (apply elem_of_app; right). left.
  - unfold N. do 4 (apply elem_of_app; right). right. left.
Qed.

Lemma crear_tipos_informe materia carpetas e v e' :
  crear_tipos materia carpetas e = Normal v e' →
  ∃ C, salida e' = salida e ++ C ∧ Forall (λ l, de_crear l = true) C.
Proof.
  revert e. induction carpetas as [|tipo resto IH]; intros e; simpl.
  - intros ?; simplify_eq. exists []. by rewrite app_nil_r.
  - destruct (mkdir _ _) as [t|]; [|done].
    intros (C & -> & HC)%IH. exists (L_creada materia tipo :: C). split.
    + simpl. by rewrite <- app_assoc.
    + by constructor.
Qed.

Lemma crear_materias_informe materias e v e' :
  crear_materias self materias e = Normal v e' →
  ∃ C, salida e' = salida e ++ C ∧ Forall (λ l, de_crear l = true) C.
Proof.
  revert e. induction materias as [|materia resto IH]; intros e; simpl.
  - intros ?; simplify_eq. exists []. by rewrite app_nil_r.
  - destruct (mkdir _ _) as [t|]; [|done].
    destruct (crear_tipos _ _ _) as [w e1|] eqn:Htipos; [|done]. simpl.
    apply crear_tipos_informe in Htipos as (C1 & HC1 & Hclase1).
    intros (C2 & -> & Hclase2)%IH. exists (C1 ++ C2). split.
    + rewrite HC1. simpl. by rewrite <- app_assoc.
    + by apply Forall_app.
Qed.

Lemma crear_estructura_carpetas_informe e v e' :
  crear_estructura_carpetas self e = Normal v e' →
  ∃ C, salida e' = salida e ++ C ∧ Forall (λ l, de_crear l = true) C.
Proof.
  unfold crear_estructura_carpetas.
  intros (C & -> & HC)%crear_materias_informe.
  exists (L_creando_estructura :: C). split.
  - simpl. by rewrite <- app_assoc.
  - by constructor.
Qed.

(** The loop of the organizer counts the files it says it organized and
    keeps the names of those it says it left. *)
Lemma organizar_items_informe nombres l :
  let l' := foldl (flip (organizar_item denegado self)) l nombres in
  ∃ O, salida (l_estado l') = salida (l_estado l) ++ O
       ∧ Forall (λ x, de_organizar x = true) O
       ∧ archivos_organizados l' = archivos_organizados l + cuenta es_organizado O
       ∧ archivos_no_organizados l' = archivos_no_organizados l ++ omap pendiente_de O.
Proof.
  simpl. revert l. induction nombres as [|n nombres IH]; intros l; simpl.
  - exists []. by rewrite !app_nil_r, Nat.add_0_r.
  - destruct (IH (flip (organizar_item denegado self) l n)) as (O & HO & Hclase & Hk & Hp).
    change (flip (organizar_item denegado self) l n)
      with (organizar_item denegado self n l) in *.
    rewrite HO, Hk, Hp.
    destruct (organizar_item_efecto denegado self n l)
      as [->|linea Hlinea ->|c m t dst _ _ _ _ ->].
    + by exists O.
    + exists (linea :: O).
      assert (de_organizar linea = true ∧ cuenta es_organizado [linea] = 0
              ∧ pendiente_de linea = Some n) as (H1 & H2 & H3).
      { destruct Hlinea as [->|[(? & ? & ->)|(? & ->)]]; done. }
      change (linea :: O) with ([linea] ++ O).
      rewrite cuenta_app, H2, omap_app. cbn [omap list_omap]. rewrite H3.
      cbn [l_estado archivos_organizados archivos_no_organizados salida print].
      split_and!; [by rewrite <- app_assoc|by apply Forall_app; split; [repeat constructor|]
                  |done|by rewrite <- app_assoc].
    + exists (L_organizado n m t :: O).
      change (L_organizado n m t :: O) with ([L_organizado n m t] ++ O).
      rewrite cuenta_app, omap_app.
      change (cuenta es_organizado [L_organizado n m t]) with 1.
      cbn [omap list_omap pendiente_de app].
      cbn [l_estado archivos_organizados archivos_no_organizados salida print con_fs].
      split_and!; [by rewrite <- app_assoc|by constructor|lia|done].
Qed.

End Informes.

Section InformeFinal.

Variable denegado : ruta → bool.
Variable rglob : sistema → list ruta.
Variable iterdir : sistema → list string.
Variable self : OrganizadorArchivos.

Lemma omap_listado_pendientes (ns : list string) : omap listado_de (map L_pendiente ns) = ns.
Proof.
  induction ns as [|n ns IH]; [done|].
  change (omap listado_de (map L_pendiente (n :: ns)))
    with (n :: omap listado_de (map L_pendiente ns)).
  by rewrite IH.
Qed.

Lemma cuenta_pendientes p (ns : list string) :
  (∀ n, p (L_pendiente n) = false) → cuenta p (map L_pendiente ns) = 0.
Proof.
  intros Hp. induction ns as [|n ns IH]; [done|].
  unfold cuenta in *. simpl. by rewrite Hp.
Qed.

Lemma omap_pendiente_pendientes (ns : list string) :
  omap pendiente_de (map L_pendiente ns) = [].
Proof. by induction ns. Qed.

Lemma Forall_pendientes (ns : list string) :
  Forall (λ l, de_organizador l = true) (map L_pendiente ns).
Proof. induction ns; by constructor. Qed.

(** The organizer prints, as its two counts, the number of files it says
    it organized and the number it says it left, and lists the names of
    the latter in the order in which it met them. *)
Lemma organizar_nivel_superior_informe e v e' :
  organizar_nivel_superior denegado iterdir self e = Normal v e' →
  ∃ N, salida e' = salida e ++ N
       ∧ Forall (λ l, de_organizador l = true) N
       ∧ L_archivos_organizados (cuenta es_organizado N) ∈ N
       ∧ L_archivos_sin_organizar (length (omap pendiente_de N)) ∈ N
       ∧ omap listado_de N = omap pendiente_de N.
Proof.
  unfold organizar_nivel_superior. cbn [fs print].
  destruct (fs e !! []) as [[c|]|]; [done| |done]. intros ?; simplify_eq.
  set (l0 := mkLocales (print L_organizando e) 0 []).
  destruct (organizar_items_informe denegado self (iterdir (fs e)) l0)
    as (O & HO & Hclase & Hk & Hp).
  set (l' := foldl _ l0 _) in *. simpl in HO, Hk, Hp.
  set (T := match archivos_no_organizados l' with
            | [] => []
            | ns => L_no_se_pudieron_organizar :: map L_pendiente ns
            end).
  assert (cuenta es_organizado T = 0 ∧ omap pendiente_de T = []
          ∧ omap listado_de T = archivos_no_organizados l'
          ∧ Forall (λ l, de_organizador l = true) T) as (HT1 & HT2 & HT3 & HT4).
  { unfold T. destruct (archivos_no_organizados l') as [|n ns]; [by split_and!|].
    split_and!.
    - change (L_no_se_pudieron_organizar :: map L_pendiente (n :: ns))
        with ([L_no_se_pudieron_organizar] ++ map L_pendiente (n :: ns)).
      rewrite cuenta_app. by rewrite cuenta_pendientes.
    - change (omap pendiente_de (L_no_se_pudieron_organizar :: map L_pendiente (n :: ns)))
        with (omap pendiente_de (map L_pendiente (n :: ns))).
      apply omap_pendiente_pendientes.
    - change (omap listado_de (L_no_se_pudieron_organizar :: map L_pendiente (n :: ns)))
        with (omap listado_de (map L_pendiente (n :: ns))).
      apply omap_listado_pendientes.
    - constructor; [done|]. apply Forall_pendientes. }
  set (N := [L_organizando] ++ O
            ++ [L_separador; L_resumen; L_archivos_organizados (archivos_organizados l');
                L_archivos_sin_organizar (length (archivos_no_organizados l'))]
            ++ T).
  assert (cuenta es_organizado N = archivos_organizados l') as Hc.
  { unfold N. rewrite !cuenta_app, HT1, Hk. unfold cuenta. simpl. lia. }
  assert (omap pendiente_de N = archivos_no_organizados l') as Hq.
  { unfold N. rewrite !omap_app, HT2, Hp. simpl. by rewrite app_nil_r. }
  assert (omap listado_de N = archivos_no_organizados l') as Hlist.
  { unfold N. rewrite !omap_app, HT3.
    rewrite (omap_ajena listado_de de_organizar O); [done|by intros []|done]. }
  exists N. rewrite Hc, Hq, Hlist. split_and!.
  - rewrite imprimir_resumen_salida. fold T. rewrite HO. unfold N, print. simpl.
    by rewrite <- !app_assoc.
  - unfold N. repeat (apply Forall_app; split); try done; try by repeat constructor.
    eapply Forall_impl; [exact Hclase|]. by intros [].
  - unfold N. do 2 (apply elem_of_app; right). apply elem_of_app. left.
    do 2 right. left.
  - unfold N. do 2 (apply elem_of_app; right). apply elem_of_app. left.
    do 3 right. left.
  - done.
Qed.

End InformeFinal.

(** C6, as the code has it.  [organizar_archivos] returns [None].  What it
    gives of a run it prints: when it flattens, the number of files it
    reported moved and the number of folders it reported removed; the
    number of files it reported organized; the number of files it
    reported left where they were; and, at the end, the names of those
    files in the order met.  The reason of each is on the line printed
    for that file, the closing list has the names alone. *)
Theorem organizar_archivos_informa
    (denegado : ruta → bool) (rglob : sistema → list ruta) (iterdir : sistema → list string)
    (self : OrganizadorArchivos) (mover crear : bool) (e e' : estado) (v : NoneType) :
  organizar_archivos denegado rglob iterdir self mover crear e = Normal v e' →
  v = PyNone
  ∧ ∃ nuevas,
      salida e' = salida e ++ nuevas
      ∧ (mover = true →
         L_archivos_movidos (cuenta es_movido nuevas) ∈ nuevas
         ∧ L_carpetas_eliminadas (cuenta es_eliminada nuevas) ∈ nuevas)
      ∧ L_archivos_organizados (cuenta es_organizado nuevas) ∈ nuevas
      ∧ L_archivos_sin_organizar (length (omap pendiente_de nuevas)) ∈ nuevas
      ∧ omap listado_de nuevas = omap pendiente_de nuevas.
Proof.
  intros Hrun. split; [by destruct v|].
  unfold organizar_archivos in Hrun.
  destruct (preparar denegado rglob self mover crear e) as [w e2|] eqn:Hprep; [|done].
  simpl in Hrun. unfold preparar in Hprep.
  set (e1 := if mover then _ else e) in Hprep.
  assert (∃ A, salida e1 = salida e ++ A
               ∧ Forall (λ l, de_aplanar l = true) A
               ∧ (mover = true →
                  L_archivos_movidos (cuenta es_movido A) ∈ A
                  ∧ L_carpetas_eliminadas (cuenta es_eliminada A) ∈ A))
    as (A & HA & HclaseA & HAk).
  { unfold e1. destruct mover.
    - destruct (mover_archivos_de_subcarpetas_informe denegado rglob self e)
        as (A & ? & ? & ? & ?). by exists A.
    - exists []. by rewrite app_nil_r. }
  clearbody e1.
  assert (∃ C, salida e2 = salida e1 ++ C ∧ Forall (λ l, de_crear l = true) C)
    as (C & HC & HclaseC).
  { destruct crear.
    - by apply crear_estructura_carpetas_informe in Hprep.
    - simplify_eq. exists []. by rewrite app_nil_r. }
  apply organizar_nivel_superior_informe in Hrun as (N & HN & HclaseN & Hko & Hkp & Hlist).
  exists (A ++ C ++ N).
  assert (cuenta es_movido (A ++ C ++ N) = cuenta es_movido A) as ->.
  { rewrite !cuenta_app.
    rewrite (cuenta_ajena es_movido de_crear C); [|by intros []|done].
    rewrite (cuenta_ajena es_movido de_organizador N); [|by intros []|done]. lia. }
  assert (cuenta es_eliminada (A ++ C ++ N) = cuenta es_eliminada A) as ->.
  { rewrite !cuenta_app.
    rewrite (cuenta_ajena es_eliminada de_crear C); [|by intros []|done].
    rewrite (cuenta_ajena es_eliminada de_organizador N); [|by intros []|done]. lia. }
  assert (cuenta es_organizado (A ++ C ++ N) = cuenta es_organizado N) as ->.
  { rewrite !cuenta_app.
    rewrite (cuenta_ajena es_organizado de_crear C); [|by intros []|done].
    rewrite (cuenta_ajena es_organizado de_aplanar A); [|by intros []|done]. lia. }
  assert (omap pendiente_de (A ++ C ++ N) = omap pendiente_de N) as ->.
  { rewrite !omap_app.
    rewrite (omap_ajena pendiente_de de_crear C); [|by intros []|done].
    by rewrite (omap_ajena pendiente_de de_aplanar A); [|by intros []|done]. }
  assert (omap listado_de (A ++ C ++ N) = omap listado_de N) as ->.
  { rewrite !omap_app.
    rewrite (omap_ajena listado_de de_crear C); [|by intros []|done].
    by rewrite (omap_ajena listado_de de_aplanar A); [|by intros []|done]. }
  split_and!.
  - rewrite HN, HC, HA. by rewrite <- !app_assoc.
  - intros Hm. destruct (HAk Hm). split; apply elem_of_app; by left.
  - do 2 (apply elem_of_app; right). done.
  - do 2 (apply elem_of_app; right). done.
  - done.
Qed.

(** Against C6 as the specification words it.  Two runs, one that
    organizes a file and one that organizes none, return the same value,
    [None]: the counts are in what is printed, and no reading of the
    returned value gives them. *)
Lemma organizar_archivos_devuelve_none :
  let r1 :=
    organizar_archivos (λ _, false) rutas_bajo_raiz nombres_raiz ejemplo_organizador
      false false (mkEstado ejemplo_repetido []) in
  let r2 :=
    organizar_archivos (λ _, false) rutas_bajo_raiz nombres_raiz ejemplo_organizador
      false false (mkEstado ejemplo_redes []) in
  valor_de r1 = Some PyNone
  ∧ valor_de r2 = Some PyNone
  ∧ salida (estado_final r1)
    = [ L_organizando; L_organizado "consultas_sql.pdf" "Base de Datos" "pdf";
        L_separador; L_resumen; L_archivos_organizados 1; L_archivos_sin_organizar 0 ]
  ∧ salida (estado_final r2)
    = [ L_organizando;
        L_sin_carpeta "redes_practica.zip" "Redes de la computadora" "comprimidos";
        L_separador; L_resumen; L_archivos_organizados 0; L_archivos_sin_organizar 1;
        L_no_se_pudieron_organizar; L_pendiente "redes_practica.zip" ]
  ∧ ¬ ∃ leer : NoneType → nat,
        (∀ v, valor_de r1 = Some v → leer v = 1)
        ∧ (∀ v, valor_de r2 = Some v → leer v = 0).
Proof.
  intros r1 r2.
  assert (valor_de r1 = Some PyNone) as H1 by (vm_compute; reflexivity).
  assert (valor_de r2 = Some PyNone) as H2 by (vm_compute; reflexivity).
  split_and!; [done|done|vm_compute; reflexivity|vm_compute; reflexivity|].
  intros (leer & L1 & L2). specialize (L1 _ H1). specialize (L2 _ H2). congruence.
Qed.

Lemma organizar_archivos_informa_witness :
  let r :=
    organizar_archivos (λ _, false) rutas_bajo_raiz nombres_raiz ejemplo_organizador
      true true (mkEstado ejemplo_colision []) in
  PyNone = PyNone
  ∧ ∃ nuevas,
      salida (estado_final r) = [] ++ nuevas
      ∧ (true = true →
         L_archivos_movidos (cuenta es_movido nuevas) ∈ nuevas
         ∧ L_carpetas_eliminadas (cuenta es_eliminada nuevas) ∈ nuevas)
      ∧ L_archivos_organizados (cuenta es_organizado nuevas) ∈ nuevas
      ∧ L_archivos_sin_organizar (length (omap pendiente_de nuevas)) ∈ nuevas
      ∧ omap listado_de nuevas = omap pendiente_de nuevas.
Proof.
  intros r.
  apply (organizar_archivos_informa (λ _, false) rutas_bajo_raiz nombres_raiz
           ejemplo_organizador true true (mkEstado ejemplo_colision []) (estado_final r)
           PyNone).
  vm_compute. reflexivity.
Defined.

(** * Further properties

    What follows goes beyond the statements above: what each pass keeps
    of the tree, what it never does, when it is complete, what its
    report is worth, and how the passes compose. *)

(** ** Trees as lists of entries *)

Section Entradas.

Implicit Types (t : sistema) (k : ruta) (x : entrada) (c : string).

(** The entries of a tree, one path taken apart. *)
Lemma map_to_list_insert_perm t k x :
  map_to_list (<[k := x]> t) ≡ₚ (k, x) :: map_to_list (delete k t).
Proof.
  rewrite <- insert_delete_eq. apply map_to_list_insert, lookup_delete_eq.
Qed.

Lemma map_to_list_lookup_perm t k :
  map_to_list t
  ≡ₚ match t !! k with Some y => [(k, y)] | None => [] end ++ map_to_list (delete k t).
Proof.
  destruct (t !! k) as [y|] eqn:Hk; simpl.
  - symmetry. by apply map_to_list_delete.
  - by rewrite delete_id.
Qed.






Lemma cuantas_perm p (l1 l2 : list (ruta * entrada)) :
  l1 ≡ₚ l2 →
  length (List.filter (λ qx, p qx.1 qx.2) l1) = length (List.filter (λ qx, p qx.1 qx.2) l2).
Proof.
  induction 1 as [|[q x] l1 l2 _ IH|[q x] [q' x'] l|l1 l2 l3 _ IH1 _ IH2]; simpl.
  - done.
  - destruct (p q x); simpl; by rewrite IH.
  - by destruct (p q x), (p q' x').
  - by rewrite IH1.
Qed.

Lemma cuantas_insert p t k x :
  cuantas p (<[k := x]> t) = (if p k x then 1 else 0) + cuantas p (delete k t).
Proof.
  unfold cuantas. rewrite (cuantas_perm p _ _ (map_to_list_insert_perm t k x)). simpl.
  by destruct (p k x).
Qed.

Lemma cuantas_lookup p t k :
  cuantas p t
  = match t !! k with Some y => if p k y then 1 else 0 | None => 0 end
    + cuantas p (delete k t).
Proof.
  unfold cuantas at 1. rewrite (cuantas_perm p _ _ (map_to_list_lookup_perm t k)).
  destruct (t !! k) as [y|]; simpl; [|done]. by destruct (p k y).
Qed.

End Entradas.

Lemma tiene_entradas_spec (t : sistema) (d : ruta) :
  tiene_entradas t d = true ↔ ∃ q : ruta, is_Some (t !! q) ∧ q ≠ [] ∧ removelast q = d.
Proof.
  unfold tiene_entradas. rewrite existsb_exists. split.
  - intros (q & Hq%list_elem_of_In & Hh). exists q.
    apply list_elem_of_fmap in Hq as ([q' x] & -> & Hq%elem_of_map_to_list).
    unfold hijo_de in Hh. apply bool_decide_eq_true in Hh. destruct Hh. simpl in *. eauto.
  - intros (q & [x Hx] & Hne & Hd). exists q. split.
    + apply list_elem_of_In, list_elem_of_fmap. exists (q, x). split; [done|].
      by apply elem_of_map_to_list.
    + unfold hijo_de. by apply bool_decide_eq_true.
Qed.

Lemma length_removelast {A} (l : list A) : l ≠ [] → length l = S (length (removelast l)).
Proof.
  intros Hl. destruct (exists_last Hl) as (l' & a & ->).
  rewrite removelast_last, length_app. simpl. lia.
Qed.

Lemma parent_no_raiz (o : Path) (q : ruta) :
  2 ≤ length q → Path_parent (Path_div o q) ≠ o.
Proof.
  intros Hq. assert (q ≠ []) as Hne by (intros ->; simpl in Hq; lia).
  rewrite Path_parent_div by done. intros E%Path_div_inj.
  rewrite (length_removelast q Hne), E in Hq. simpl in Hq. lia.
Qed.

(** ** The flattener: what it keeps *)

Section SinPerdida.

Variable denegado : ruta → bool.
Variable self : OrganizadorArchivos.



(** A round of the first loop counts a file exactly when one leaves the
    folders; it leaves the folders as many as they are. *)
Lemma mover_item_cuantas item s :
  s.2 + cuantas archivo_anidado (fs s.1)
  = (mover_item denegado self item s).2
    + cuantas archivo_anidado (fs (mover_item denegado self item s).1)
  ∧ cuantas es_carpeta (fs (mover_item denegado self item s).1)
    = cuantas es_carpeta (fs s.1).
Proof.
  destruct (mover_item_efecto denegado self item s)
    as [s|e k|e k c d Hc _ Hne Hsub _ _ _ Hd]; [done..|]. cbn [fst snd fs print con_fs].
  assert (delete [d] (delete item (fs e)) = delete item (fs e)) as Hdd.
  { apply delete_id. by rewrite lookup_delete_ne by (intros ->; congruence). }
  assert (2 ≤ length item) as Hlen.
  { rewrite (length_removelast item Hne). destruct (removelast item); [done|simpl; lia]. }
  rewrite !cuantas_insert, Hdd.
  rewrite (cuantas_lookup archivo_anidado (fs e) item),
          (cuantas_lookup es_carpeta (fs e) item), Hc.
  unfold archivo_anidado. rewrite (proj2 (Nat.leb_le _ _) Hlen). simpl. lia.
Qed.

Lemma eliminar_carpeta_cuantas carpeta s :
  s.2 + cuantas es_carpeta (fs s.1)
  = (eliminar_carpeta denegado self carpeta s).2
    + cuantas es_carpeta (fs (eliminar_carpeta denegado self carpeta s).1)
  ∧ cuantas archivo_anidado (fs (eliminar_carpeta denegado self carpeta s).1)
    = cuantas archivo_anidado (fs s.1).
Proof.
  destruct (eliminar_carpeta_efecto denegado self carpeta s)
    as [s|e k|e k Hc _ _ _ _]; [done..|]. cbn [fst snd fs print con_fs].
  rewrite (cuantas_lookup es_carpeta (fs e) carpeta),
          (cuantas_lookup archivo_anidado (fs e) carpeta), Hc.
  unfold archivo_anidado. rewrite andb_false_r. simpl. lia.
Qed.

End SinPerdida.


(** X2. The two counts that end the report of a flattening pass are
    those of the tree: the files below the folders of [carpeta_origen]
    are fewer by the number printed as moved, the folders fewer by the
    number printed as removed. *)
Theorem mover_archivos_de_subcarpetas_cuenta
    (denegado : ruta → bool) (rglob : sistema → list ruta) (self : OrganizadorArchivos)
    (e : estado) :
  let e' := (mover_archivos_de_subcarpetas denegado rglob self e).2 in
  ∃ k j antes,
    salida e' = antes ++ [L_archivos_movidos k; L_carpetas_eliminadas j]
    ∧ cuantas archivo_anidado (fs e) = k + cuantas archivo_anidado (fs e')
    ∧ cuantas es_carpeta (fs e) = j + cuantas es_carpeta (fs e').
Proof.
  intros e'. unfold e'. rewrite mover_archivos_de_subcarpetas_eq. cbn [snd fs print salida].
  exists (tras_mover denegado self rglob e).2, (tras_eliminar denegado self rglob e).2.
  eexists. split; [by rewrite <- app_assoc|].
  assert ((0 + cuantas archivo_anidado (fs e)
           = (tras_mover denegado self rglob e).2
             + cuantas archivo_anidado (fs (tras_mover denegado self rglob e).1))
          ∧ cuantas es_carpeta (fs (tras_mover denegado self rglob e).1)
            = cuantas es_carpeta (fs e)) as [Hk1 Hj1].
  { unfold tras_mover.
    apply (foldl_invariante (flip (mover_item denegado self))
             (λ s, 0 + cuantas archivo_anidado (fs e)
                   = s.2 + cuantas archivo_anidado (fs s.1)
                   ∧ cuantas es_carpeta (fs s.1) = cuantas es_carpeta (fs e))); [done|].
    intros s item _ [H1 H2]. unfold flip.
    destruct (mover_item_cuantas denegado self item s) as [H3 H4]. split; congruence. }
  assert (((tras_eliminar denegado self rglob e).2
           + cuantas es_carpeta (fs (tras_eliminar denegado self rglob e).1)
           = 0 + cuantas es_carpeta (fs (tras_mover denegado self rglob e).1))
          ∧ cuantas archivo_anidado (fs (tras_eliminar denegado self rglob e).1)
            = cuantas archivo_anidado (fs (tras_mover denegado self rglob e).1))
    as [Hj2 Hk2].
  { unfold tras_eliminar.
    apply (foldl_invariante (flip (eliminar_carpeta denegado self))
             (λ s, s.2 + cuantas es_carpeta (fs s.1)
                   = 0 + cuantas es_carpeta (fs (tras_mover denegado self rglob e).1)
                   ∧ cuantas archivo_anidado (fs s.1)
                     = cuantas archivo_anidado (fs (tras_mover denegado self rglob e).1)));
      [done|].
    intros s carpeta _ [H1 H2]. unfold flip.
    destruct (eliminar_carpeta_cuantas denegado self carpeta s) as [H3 H4].
    split; congruence. }
  lia.
Qed.

Section Componentes.

Implicit Types (m : string) (o : Path) (r : ruta).

(** A component of a path occurs in the string of the path. *)
Lemma join_componente m r1 r2 :
  ∃ pre post, Str.join "/" (r1 ++ m :: r2) = pre +:+ m +:+ post.
Proof.
  induction r1 as [|x r1 (pre & post & IH)].
  - destruct r2 as [|y r2].
    + exists "", "". by rewrite str_app_nil_r.
    + exists "", ("/" +:+ Str.join "/" (y :: r2)). reflexivity.
  - exists (x +:+ "/" +:+ pre), post.
    assert (∃ y r', r1 ++ m :: r2 = y :: r') as (y & r' & E).
    { destruct r1; simpl; eauto. }
    change (Str.join "/" ((x :: r1) ++ m :: r2))
      with (Str.join "/" (x :: (r1 ++ m :: r2))).
    rewrite E in IH |- *.
    change (Str.join "/" (x :: y :: r')) with (x +:+ "/" +:+ Str.join "/" (y :: r')).
    rewrite IH. by rewrite !str_app_assoc.
Qed.

Lemma contains_componente o m r1 r2 :
  Str.contains (Path_str (Path_div o (r1 ++ m :: r2))) m = true.
Proof.
  apply contains_spec.
  destruct (join_componente m (parts o ++ r1) r2) as (pre & post & E).
  rewrite <- app_assoc in E.
  unfold Path_str, Path_div. cbn [absoluta parts].
  destruct (absoluta o).
  - exists ("/" +:+ pre), post. by rewrite E.
  - exists pre, post. rewrite <- E.
    by destruct (parts o ++ r1 ++ m :: r2) eqn:E'; [destruct (parts o), r1|].
Qed.

End Componentes.

Section Materias.

Variable denegado : ruta → bool.
Variable self : OrganizadorArchivos.

(** Below the folder of a subject every parent is "in a subject's folder"
    for the two loops. *)
Lemma en_carpeta_de_materia_bajo materia (q : ruta) :
  materia ∈ keys (materias_palabras_clave self) → q ≠ [] →
  en_carpeta_de_materia self (Path_parent (Path_div (carpeta_origen self) (materia :: q)))
  = true.
Proof.
  intros Hm Hq. rewrite Path_parent_div by done.
  unfold en_carpeta_de_materia. apply existsb_exists. exists materia. split.
  - by apply list_elem_of_In.
  - replace (removelast (materia :: q)) with ([] ++ materia :: removelast q)
      by (by destruct q).
    apply contains_componente.
Qed.

Lemma mover_item_respeta materia (q : ruta) item s :
  materia ∈ keys (materias_palabras_clave self) →
  q ≠ [] ∨ is_Some (fs s.1 !! [materia]) →
  fs (mover_item denegado self item s).1 !! (materia :: q) = fs s.1 !! (materia :: q).
Proof.
  intros Hm Hq.
  destruct (mover_item_efecto denegado self item s)
    as [s|e k|e k c d Hc _ Hne Hsub Hfuera _ _ Hd]; [done..|]. simpl in *.
  rewrite lookup_insert_ne, lookup_delete_ne; [done| |].
  - intros ->. destruct q as [|x q]; [done|].
    by rewrite en_carpeta_de_materia_bajo in Hfuera.
  - intros [= -> <-]. destruct Hq as [?|[? ?]]; [done|congruence].
Qed.

Lemma eliminar_carpeta_respeta materia (q : ruta) carpeta s :
  materia ∈ keys (materias_palabras_clave self) →
  fs (eliminar_carpeta denegado self carpeta s).1 !! (materia :: q) = fs s.1 !! (materia :: q).
Proof.
  intros Hm.
  destruct (eliminar_carpeta_efecto denegado self carpeta s)
    as [s|e k|e k Hc Hne _ Hnombre Hfuera]; [done..|]. simpl.
  rewrite lookup_delete_ne; [done|]. intros ->.
  destruct q as [|x q].
  - rewrite (Path_name_div _ [] materia) in Hnombre.
    unfold en_lista in Hnombre. by rewrite bool_decide_eq_true_2 in Hnombre.
  - by rewrite en_carpeta_de_materia_bajo in Hfuera.
Qed.

Lemma pasada_respeta_materia rglob e materia (q : ruta) :
  materia ∈ keys (materias_palabras_clave self) →
  q ≠ [] ∨ is_Some (fs e !! [materia]) →
  fs (mover_archivos_de_subcarpetas denegado rglob self e).2 !! (materia :: q)
  = fs e !! (materia :: q).
Proof.
  intros Hm Hq. rewrite mover_archivos_de_subcarpetas_eq. cbn [snd fs print].
  unfold tras_eliminar.
  etrans.
  { apply (foldl_invariante (flip (eliminar_carpeta denegado self))
             (λ s, fs s.1 !! (materia :: q)
                   = fs (tras_mover denegado self rglob e).1 !! (materia :: q))).
    - done.
    - intros s a _ Hs. unfold flip. by rewrite eliminar_carpeta_respeta. }
  unfold tras_mover.
  assert (∀ s : estado * nat, fs s.1 !! (materia :: q) = fs e !! (materia :: q) →
               q ≠ [] ∨ is_Some (fs s.1 !! [materia])) as Hinv.
  { intros s Hs. destruct Hq as [?|Hq]; [by left|]. destruct (decide (q = [])) as [->|]; [|by left].
    right. by rewrite Hs. }
  apply (foldl_invariante (flip (mover_item denegado self))
           (λ s, fs s.1 !! (materia :: q) = fs e !! (materia :: q))).
  - done.
  - intros s a _ Hs. unfold flip. rewrite mover_item_respeta; auto.
Qed.

End Materias.

(** X3. A flattening pass leaves the folder of a subject, when
    [carpeta_origen] has it, and every path below that folder exactly as
    they are: what was organized is not pulled back up, and the folders
    of the subject are not pruned. *)
Theorem mover_archivos_de_subcarpetas_respeta_materias
    (denegado : ruta → bool) (rglob : sistema → list ruta) (self : OrganizadorArchivos)
    (e : estado) (materia : string) (q : ruta) :
  let e' := (mover_archivos_de_subcarpetas denegado rglob self e).2 in
  materia ∈ keys (materias_palabras_clave self) →
  fs e !! [materia] = Some Carpeta →
  fs e' !! (materia :: q) = fs e !! (materia :: q).
Proof.
  intros e' Hm Hdir. apply pasada_respeta_materia; [done|].
  right. by rewrite Hdir.
Qed.

Lemma mover_archivos_de_subcarpetas_respeta_materias_witness :
  let e := mkEstado ejemplo_repetido [] in
  let e' := (mover_archivos_de_subcarpetas (λ _, false) rutas_bajo_raiz
               ejemplo_organizador e).2 in
  fs e' !! ["Base de Datos"; "pdf"; "consultas_sql.pdf"]
  = fs e !! ["Base de Datos"; "pdf"; "consultas_sql.pdf"].
Proof.
  apply (mover_archivos_de_subcarpetas_respeta_materias (λ _, false) rutas_bajo_raiz
           ejemplo_organizador (mkEstado ejemplo_repetido []) "Base de Datos"
           ["pdf"; "consultas_sql.pdf"]).
  - apply (bool_decide_unpack _). vm_compute. exact I.
  - vm_compute. reflexivity.
Defined.

(** ** The flattener: when it is complete *)

Section Completo.

Variable denegado : ruta → bool.
Variable self : OrganizadorArchivos.

(** Below the folders, the first loop makes nothing and changes nothing:
    what is there afterwards was there before. *)
Lemma mover_items_solo_quita items s (q : ruta) x :
  2 ≤ length q →
  fs (foldl (flip (mover_item denegado self)) s items).1 !! q = Some x →
  fs s.1 !! q = Some x.
Proof.
  intros Hq. revert s. induction items as [|item items IH]; intros s; simpl; [done|].
  intros H%IH. unfold flip in H.
  destruct (mover_item_efecto denegado self item s)
    as [s|e k|e k c d Hc _ _ _ _ _ _ Hd]; [done..|]. simpl in *.
  rewrite lookup_insert_ne in H by (intros <-; simpl in Hq; lia).
  destruct (decide (q = item)) as [->|?]; [by rewrite lookup_delete_eq in H|].
  by rewrite lookup_delete_ne in H.
Qed.

(** A file of a subfolder that the first loop is handed and is free to
    move is gone when the loop ends. *)
Lemma mover_items_quita items s (q : ruta) c :
  q ∈ items →
  fs s.1 !! q = Some (Archivo c) → fs s.1 !! [] = Some Carpeta →
  2 ≤ length q →
  en_carpeta_de_materia self (Path_parent (Path_div (carpeta_origen self) q)) = false →
  denegado q = false →
  fs (foldl (flip (mover_item denegado self)) s items).1 !! q = None.
Proof.
  intros Hin Hq Hraiz Hlen Hfuera Hden.
  revert s Hq Hraiz. induction items as [|item items IH]; intros s Hq Hraiz.
  { by apply elem_of_nil in Hin. }
  cbn [foldl]. destruct (decide (item = q)) as [->|Hne].
  - destruct s as [e k]. cbn [fst] in *.
    destruct (mover_item_movido denegado self q e k c Hq Hraiz) as (d & _ & E);
      [by apply parent_no_raiz|done..|].
    change (flip (mover_item denegado self) (e, k) q)
      with (mover_item denegado self q (e, k)). rewrite E.
    destruct (fs (foldl _ _ items).1 !! q) as [x|] eqn:Hx; [|done].
    apply mover_items_solo_quita in Hx; [|done]. simpl in Hx.
    rewrite lookup_insert_ne in Hx by (intros <-; simpl in Hlen; lia).
    by rewrite lookup_delete_eq in Hx.
  - apply elem_of_cons in Hin as [?|Hin]; [congruence|]. apply IH; [done|..].
    + change (flip (mover_item denegado self) s item)
        with (foldl (flip (mover_item denegado self)) s [item]).
      rewrite (mover_items_marco denegado self [item] s q Hlen); [done|].
      by intros ?%list_elem_of_singleton.
    + pose proof (mover_item_conserva denegado self item s) as (Hr & _). by apply Hr.
Qed.

Lemma eliminar_carpeta_arbol carpeta s :
  fs (eliminar_carpeta denegado self carpeta s).1 = fs s.1
  ∨ fs (eliminar_carpeta denegado self carpeta s).1 = delete carpeta (fs s.1).
Proof.
  destruct (eliminar_carpeta_efecto denegado self carpeta s) as [s|e k|e k _ _ _ _ _]; auto.
Qed.

(** The second loop only removes: what is there afterwards was there
    before, and a path it is not handed is as it was. *)
Lemma eliminar_carpetas_solo_quita carpetas s (q : ruta) x :
  fs (foldl (flip (eliminar_carpeta denegado self)) s carpetas).1 !! q = Some x →
  fs s.1 !! q = Some x.
Proof.
  revert s. induction carpetas as [|carpeta carpetas IH]; intros s; simpl; [done|].
  intros H%IH. unfold flip in H.
  destruct (eliminar_carpeta_efecto denegado self carpeta s) as [s|e k|e k _ _ _ _ _];
    [done..|]. simpl in *.
  destruct (decide (q = carpeta)) as [->|?]; [by rewrite lookup_delete_eq in H|].
  by rewrite lookup_delete_ne in H.
Qed.

Lemma eliminar_carpetas_marco carpetas s (q : ruta) :
  q ∉ carpetas →
  fs (foldl (flip (eliminar_carpeta denegado self)) s carpetas).1 !! q = fs s.1 !! q.
Proof.
  revert s. induction carpetas as [|carpeta carpetas IH]; intros s Hq; simpl; [done|].
  apply not_elem_of_cons in Hq as [Hne Hq]. rewrite IH by done. unfold flip.
  destruct (eliminar_carpeta_efecto denegado self carpeta s) as [s|e k|e k _ _ _ _ _];
    [done..|]. simpl. by rewrite lookup_delete_ne.
Qed.

Lemma eliminar_carpetas_archivos carpetas s (q : ruta) c :
  fs s.1 !! q = Some (Archivo c) →
  fs (foldl (flip (eliminar_carpeta denegado self)) s carpetas).1 !! q = Some (Archivo c).
Proof.
  revert s. induction carpetas as [|carpeta carpetas IH]; intros s Hq; simpl; [done|].
  apply IH. unfold flip.
  destruct (eliminar_carpeta_efecto denegado self carpeta s) as [s|e k|e k Hc _ _ _ _];
    [done..|]. simpl in *. rewrite lookup_delete_ne; [done|]. intros ->. congruence.
Qed.

(** An empty folder that the second loop is handed after everything
    deeper, and is free to remove, is gone when the loop ends. *)
Lemma eliminar_carpetas_quita carpetas s (d : ruta) :
  StronglySorted (λ p q : ruta, length q ≤ length p) carpetas →
  d ∈ carpetas →
  fs s.1 !! d = Some Carpeta → d ≠ [] →
  en_lista (Path_name (Path_div (carpeta_origen self) d))
           (keys (materias_palabras_clave self)) = false →
  en_carpeta_de_materia self (Path_parent (Path_div (carpeta_origen self) d)) = false →
  denegado d = false →
  tiene_entradas (fs (foldl (flip (eliminar_carpeta denegado self)) s carpetas).1) d = false →
  fs (foldl (flip (eliminar_carpeta denegado self)) s carpetas).1 !! d = None.
Proof.
  intros Hsorted Hin Hd Hne Hnombre Hfuera Hden.
  revert s Hd. induction Hsorted as [|carpeta carpetas Hsorted IH Hall]; intros s Hd Hvacia.
  { by apply elem_of_nil in Hin. }
  cbn [foldl] in *. destruct (decide (carpeta = d)) as [->|Hdist].
  - destruct s as [e k]. cbn [fst] in *.
    assert (tiene_entradas (fs e) d = false) as Hv.
    { apply not_true_is_false. intros (q & [x Hx] & Hq & Hpar)%tiene_entradas_spec.
      apply not_true_iff_false in Hvacia. apply Hvacia, tiene_entradas_spec.
      exists q. split; [|done].
      assert (q ∉ carpetas) as Hfuera_q.
      { intros Hq_in. eapply Forall_forall in Hall; [|done].
        rewrite (length_removelast q Hq), Hpar in Hall. lia. }
      rewrite eliminar_carpetas_marco by done. unfold flip.
      destruct (eliminar_carpeta_arbol d (e, k)) as [-> | ->]; cbn [fst]; [eauto|].
      rewrite lookup_delete_ne; [eauto|]. intros E.
      pose proof (length_removelast q Hq) as Hl. rewrite Hpar, E in Hl. lia. }
    change (flip (eliminar_carpeta denegado self) (e, k) d)
      with (eliminar_carpeta denegado self d (e, k)).
    rewrite (eliminar_carpeta_vacia denegado self d e k) by done.
    destruct (fs (foldl _ _ carpetas).1 !! d) as [x|] eqn:Hx; [|done].
    apply eliminar_carpetas_solo_quita in Hx. simpl in Hx. by rewrite lookup_delete_eq in Hx.
  - apply elem_of_cons in Hin as [?|Hin]; [congruence|]. apply IH; [done| |done].
    change (flip (eliminar_carpeta denegado self) s carpeta)
      with (foldl (flip (eliminar_carpeta denegado self)) s [carpeta]).
    rewrite (eliminar_carpetas_marco [carpeta] s d); [done|].
    by intros ?%list_elem_of_singleton.
Qed.

Lemma tras_pasada_aplanado rglob e (q : ruta) c :
  (∀ t, rglob t ≡ₚ rutas_bajo_raiz t) →
  fs e !! [] = Some Carpeta →
  fs (mover_archivos_de_subcarpetas denegado rglob self e).2 !! q = Some (Archivo c) →
  2 ≤ length q → denegado q = false →
  en_carpeta_de_materia self (Path_parent (Path_div (carpeta_origen self) q)) = true.
Proof.
  intros Hperm Hraiz Hq Hlen Hden.
  rewrite mover_archivos_de_subcarpetas_eq in Hq. cbn [snd fs print] in Hq.
  unfold tras_eliminar in Hq. apply eliminar_carpetas_solo_quita in Hq.
  cbn [fst fs print] in Hq. pose proof Hq as Hq1.
  unfold tras_mover in Hq. apply mover_items_solo_quita in Hq; [|done].
  cbn [fst fs print] in Hq.
  apply not_false_iff_true. intros Hfuera.
  unfold tras_mover in Hq1. rewrite mover_items_quita with (c := c) in Hq1; try done.
  rewrite Hperm. apply elem_of_rutas_bajo_raiz. split_and!; [done| |by rewrite Hq].
  intros ->. simpl in Hlen. lia.
Qed.

Lemma tras_pasada_podado rglob e (d : ruta) :
  (∀ t, rglob t ≡ₚ rutas_bajo_raiz t) →
  fs e !! [] = Some Carpeta →
  let e' := (mover_archivos_de_subcarpetas denegado rglob self e).2 in
  fs e' !! d = Some Carpeta → d ≠ [] → tiene_entradas (fs e') d = false →
  denegado d = false →
  en_lista (Path_name (Path_div (carpeta_origen self) d))
           (keys (materias_palabras_clave self)) = true
  ∨ en_carpeta_de_materia self (Path_parent (Path_div (carpeta_origen self) d)) = true.
Proof.
  intros Hperm Hraiz e'. unfold e'. clear e'.
  rewrite mover_archivos_de_subcarpetas_eq. cbn [snd fs print].
  intros Hd Hne Hvacia Hden.
  destruct (en_lista _ _) eqn:Hnombre; [by left|]. right.
  apply not_false_iff_true. intros Hfuera.
  unfold tras_eliminar in Hd, Hvacia.
  pose proof Hd as Hd1. apply eliminar_carpetas_solo_quita in Hd1. cbn [fst fs print] in Hd1.
  rewrite eliminar_carpetas_quita in Hd; try done.
  - apply sorted_reverse_ordenado.
  - rewrite sorted_reverse_perm, Hperm. apply elem_of_rutas_bajo_raiz.
    split_and!; [|done|by rewrite Hd1].
    pose proof (mover_items_conserva denegado self (rglob (fs e))
                  (print L_moviendo_de_subcarpetas e, 0)) as (Hr & _).
    by apply Hr.
Qed.

(** On a tree where neither loop finds anything to do the pass changes
    nothing. *)
Lemma pasada_sin_efecto rglob e :
  aplanado self (fs e) → podado self (fs e) →
  fs (mover_archivos_de_subcarpetas denegado rglob self e).2 = fs e.
Proof.
  intros Hap Hpo. rewrite mover_archivos_de_subcarpetas_eq. cbn [snd fs print].
  assert (fs (tras_mover denegado self rglob e).1 = fs e) as E1.
  { unfold tras_mover.
    apply (foldl_invariante (flip (mover_item denegado self)) (λ s, fs s.1 = fs e)); [done|].
    intros s item _ Hs. unfold flip.
    destruct (mover_item_efecto denegado self item s)
      as [s|e1 k|e1 k c d Hc _ Hne Hsub Hfuera _ _ _]; [done..|].
    cbn [fst] in Hs. rewrite Hs in Hc.
    assert (2 ≤ length item) as Hlen.
    { rewrite (length_removelast item Hne). destruct (removelast item); [done|simpl; lia]. }
    pose proof (Hap item c Hc Hlen). congruence. }
  unfold tras_eliminar.
  apply (foldl_invariante (flip (eliminar_carpeta denegado self)) (λ s, fs s.1 = fs e));
    [done|].
  intros s carpeta _ Hs. unfold flip.
  destruct (eliminar_carpeta_efecto denegado self carpeta s)
    as [s|e1 k|e1 k Hc Hne Hvacia Hnombre Hfuera]; [done..|].
  cbn [fst] in Hs. rewrite Hs in Hc, Hvacia.
  destruct (Hpo carpeta Hc Hne Hvacia); congruence.
Qed.

(** The first loop makes no folder and removes none. *)
Lemma mover_items_carpetas items s (q : ruta) :
  fs (foldl (flip (mover_item denegado self)) s items).1 !! q = Some Carpeta
  ↔ fs s.1 !! q = Some Carpeta.
Proof.
  revert s. induction items as [|item items IH]; intros s; cbn [foldl]; [done|].
  rewrite IH. unfold flip.
  destruct (mover_item_efecto denegado self item s)
    as [s|e k|e k c d Hc _ _ _ _ _ _ Hd]; [done..|]. cbn [fst fs print con_fs].
  destruct (decide (q = [d])) as [->|?].
  - rewrite lookup_insert_eq, Hd. done.
  - rewrite lookup_insert_ne by done.
    destruct (decide (q = item)) as [->|?].
    + rewrite lookup_delete_eq, Hc. done.
    + by rewrite lookup_delete_ne.
Qed.

End Completo.

(** X4. Flattening is complete.  When [carpeta_origen] is a directory
    and [rglob] lists what is below it, a file that is in the tree after
    the pass, and whose move was not refused, is in [carpeta_origen]
    itself or in a folder whose path, as a string, contains the name of
    a subject. *)
Theorem mover_archivos_de_subcarpetas_aplana
    (denegado : ruta → bool) (rglob : sistema → list ruta) (self : OrganizadorArchivos)
    (e : estado) (q : ruta) (c : string) :
  let e' := (mover_archivos_de_subcarpetas denegado rglob self e).2 in
  (∀ t, rglob t ≡ₚ rutas_bajo_raiz t) →
  fs e !! [] = Some Carpeta →
  fs e' !! q = Some (Archivo c) →
  denegado q = false →
  length q = 1
  ∨ en_carpeta_de_materia self (Path_parent (Path_div (carpeta_origen self) q)) = true.
Proof.
  intros e' Hperm Hraiz Hq Hden.
  destruct (decide (length q = 1)) as [?|Hlen]; [by left|]. right.
  eapply tras_pasada_aplanado; [done..| |done].
  destruct q as [|x [|y q]]; simpl in *; [|done|lia].
  pose proof (mover_archivos_de_subcarpetas_conserva denegado self rglob e) as (Hr & _).
  fold e' in Hr. rewrite Hr in Hq; done.
Qed.

Lemma mover_archivos_de_subcarpetas_aplana_witness :
  length ["Base de Datos"; "pdf"; "consultas_sql.pdf"] = 1
  ∨ en_carpeta_de_materia ejemplo_organizador
      (Path_parent (Path_div (carpeta_origen ejemplo_organizador)
                      ["Base de Datos"; "pdf"; "consultas_sql.pdf"])) = true.
Proof.
  apply (mover_archivos_de_subcarpetas_aplana (λ _, false) rutas_bajo_raiz
           ejemplo_organizador (mkEstado ejemplo_repetido [])
           ["Base de Datos"; "pdf"; "consultas_sql.pdf"] "version antigua").
  - reflexivity.
  - vm_compute. reflexivity.
  - vm_compute. reflexivity.
  - reflexivity.
Defined.

(** X5. Pruning is complete in one pass.  When [carpeta_origen] is a
    directory and [rglob] lists what is below it, a folder that is left
    empty after the pass, and whose removal was not refused, has the
    name of a subject or lies in a folder whose path, as a string,
    contains the name of a subject: nested empty folders all go, the
    deepest first. *)
Theorem mover_archivos_de_subcarpetas_poda
    (denegado : ruta → bool) (rglob : sistema → list ruta) (self : OrganizadorArchivos)
    (e : estado) (d : ruta) :
  let e' := (mover_archivos_de_subcarpetas denegado rglob self e).2 in
  (∀ t, rglob t ≡ₚ rutas_bajo_raiz t) →
  fs e !! [] = Some Carpeta →
  fs e' !! d = Some Carpeta → d ≠ [] →
  tiene_entradas (fs e') d = false →
  denegado d = false →
  en_lista (Path_name (Path_div (carpeta_origen self) d))
           (keys (materias_palabras_clave self)) = true
  ∨ en_carpeta_de_materia self (Path_parent (Path_div (carpeta_origen self) d)) = true.
Proof. intros e' Hperm Hraiz. by apply tras_pasada_podado. Qed.

Lemma mover_archivos_de_subcarpetas_poda_witness :
  en_lista (Path_name (Path_div (carpeta_origen ejemplo_organizador) ["Base de Datos"]))
           (keys (materias_palabras_clave ejemplo_organizador)) = true
  ∨ en_carpeta_de_materia ejemplo_organizador
      (Path_parent (Path_div (carpeta_origen ejemplo_organizador) ["Base de Datos"])) = true.
Proof.
  apply (mover_archivos_de_subcarpetas_poda (λ _, false) rutas_bajo_raiz
           ejemplo_organizador (mkEstado ejemplo_carpetas_vacias []) ["Base de Datos"]).
  - reflexivity.
  - vm_compute. reflexivity.
  - vm_compute. reflexivity.
  - discriminate.
  - vm_compute. reflexivity.
  - reflexivity.
Defined.

(** X6. Flattening twice is flattening once: when nothing is refused,
    a second pass leaves the tree as the first pass left it. *)
Theorem mover_archivos_de_subcarpetas_dos_veces
    (denegado : ruta → bool) (rglob : sistema → list ruta) (self : OrganizadorArchivos)
    (e : estado) :
  let e1 := (mover_archivos_de_subcarpetas denegado rglob self e).2 in
  let e2 := (mover_archivos_de_subcarpetas denegado rglob self e1).2 in
  (∀ t, rglob t ≡ₚ rutas_bajo_raiz t) →
  (∀ p, denegado p = false) →
  fs e !! [] = Some Carpeta →
  fs e2 = fs e1.
Proof.
  intros e1 e2 Hperm Hden Hraiz. apply pasada_sin_efecto.
  - intros q c Hq Hlen. by eapply tras_pasada_aplanado.
  - intros d Hd Hne Hvacia. by eapply tras_pasada_podado.
Qed.

Lemma mover_archivos_de_subcarpetas_dos_veces_witness :
  let e1 := (mover_archivos_de_subcarpetas (λ _, false) rutas_bajo_raiz
               ejemplo_organizador (mkEstado ejemplo_colision [])).2 in
  let e2 := (mover_archivos_de_subcarpetas (λ _, false) rutas_bajo_raiz
               ejemplo_organizador e1).2 in
  fs e2 = fs e1.
Proof.
  apply (mover_archivos_de_subcarpetas_dos_veces (λ _, false) rutas_bajo_raiz
           ejemplo_organizador (mkEstado ejemplo_colision [])).
  - reflexivity.
  - reflexivity.
  - vm_compute. reflexivity.
Defined.

(** ** The flattener below a path that names a subject *)

Section RaizDeMateria.

Variable denegado : ruta → bool.
Variable rglob : sistema → list ruta.
Variable self : OrganizadorArchivos.

(** Unless [o] is the current directory, written [.], the string of a
    path below [o] begins with the string of [o]. *)
Lemma Path_str_div_prefijo (o : Path) (r : ruta) :
  absoluta o = true ∨ parts o ≠ [] →
  ∃ cola, Path_str (Path_div o r) = Path_str o +:+ cola.
Proof.
  intros Ho. destruct r as [|x r].
  { exists "". by rewrite Path_div_nil, str_app_nil_r. }
  destruct (Path_str_div o (x :: r)) as (u & cola & E & [->| ->] & _); [done|by exists cola|].
  destruct o as [[] [|p ps]]; unfold Path_str, Path_div in *; cbn [absoluta parts] in *.
  - by exists (Str.join "/" (x :: r)).
  - exists ("/" +:+ Str.join "/" (x :: r)).
    rewrite (join_app (p :: ps) (x :: r)) by done. by rewrite !str_app_assoc.
  - by destruct Ho.
  - exists ("/" +:+ Str.join "/" (x :: r)). by apply join_app.
Qed.

Variable materia : string.
Hypothesis materia_configurada : materia ∈ keys (materias_palabras_clave self).
Hypothesis raiz_con_materia : Str.contains (Path_str (carpeta_origen self)) materia = true.
Hypothesis raiz_escrita :
  absoluta (carpeta_origen self) = true ∨ parts (carpeta_origen self) ≠ [].

Lemma en_carpeta_de_materia_raiz (r : ruta) :
  en_carpeta_de_materia self (Path_div (carpeta_origen self) r) = true.
Proof.
  unfold en_carpeta_de_materia. apply existsb_exists. exists materia.
  split; [by apply list_elem_of_In|].
  destruct (Path_str_div_prefijo (carpeta_origen self) r raiz_escrita) as (cola & ->).
  by apply contains_app_l.
Qed.

Lemma mover_item_raiz_de_materia item s :
  item ≠ [] → mover_item denegado self item s = s.
Proof.
  intros Hne. unfold mover_item. destruct s as [e k].
  destruct (is_file _ _ && _); [|done].
  by rewrite Path_parent_div, en_carpeta_de_materia_raiz.
Qed.

Lemma eliminar_carpeta_raiz_de_materia carpeta s :
  carpeta ≠ [] → eliminar_carpeta denegado self carpeta s = s.
Proof.
  intros Hne. unfold eliminar_carpeta. destruct s as [e k].
  destruct (is_dir _ _ && _); [|done].
  destruct (en_lista _ _); [done|].
  by rewrite Path_parent_div, en_carpeta_de_materia_raiz.
Qed.

Lemma pasada_en_raiz_de_materia e :
  (∀ t, rglob t ≡ₚ rutas_bajo_raiz t) →
  mover_archivos_de_subcarpetas denegado rglob self e
  = (PyNone,
     mkEstado (fs e)
       (salida e ++ [L_moviendo_de_subcarpetas; L_eliminando_vacias;
                     L_archivos_movidos 0; L_carpetas_eliminadas 0])).
Proof.
  intros Hperm.
  assert (∀ (t : sistema) (q : ruta), q ∈ rglob t → q ≠ []) as Hne.
  { intros t q. rewrite Hperm. by intros (_ & ? & _)%elem_of_rutas_bajo_raiz. }
  rewrite mover_archivos_de_subcarpetas_eq.
  assert (tras_mover denegado self rglob e = (print L_moviendo_de_subcarpetas e, 0)) as E1.
  { unfold tras_mover. apply foldl_sin_efecto. intros item Hin. unfold flip.
    apply mover_item_raiz_de_materia. by eapply Hne. }
  assert (tras_eliminar denegado self rglob e
          = (print L_eliminando_vacias (print L_moviendo_de_subcarpetas e), 0)) as E2.
  { unfold tras_eliminar. rewrite E1. cbn [fst]. apply foldl_sin_efecto.
    intros carpeta Hin. unfold flip. apply eliminar_carpeta_raiz_de_materia.
    rewrite sorted_reverse_perm in Hin. by eapply Hne. }
  rewrite E1, E2. unfold print. simpl. by rewrite <- !app_assoc.
Qed.

End RaizDeMateria.

(** X7. The test [materia in str(item.parent)] reads the whole path.
    When the path of [carpeta_origen] itself, as a string, contains the
    name of a subject (and [carpeta_origen] is not the bare current
    directory, whose string [.] is no part of the paths below it), every
    folder counts as a subject's: the pass moves nothing, removes
    nothing, and reports 0 and 0. *)
Theorem mover_archivos_de_subcarpetas_raiz_de_materia
    (denegado : ruta → bool) (rglob : sistema → list ruta) (self : OrganizadorArchivos)
    (e : estado) (materia : string) :
  (∀ t, rglob t ≡ₚ rutas_bajo_raiz t) →
  materia ∈ keys (materias_palabras_clave self) →
  Str.contains (Path_str (carpeta_origen self)) materia = true →
  absoluta (carpeta_origen self) = true ∨ parts (carpeta_origen self) ≠ [] →
  mover_archivos_de_subcarpetas denegado rglob self e
  = (PyNone,
     mkEstado (fs e)
       (salida e ++ [L_moviendo_de_subcarpetas; L_eliminando_vacias;
                     L_archivos_movidos 0; L_carpetas_eliminadas 0])).
Proof. intros Hperm Hm Hraiz Ho. by eapply pasada_en_raiz_de_materia. Qed.

Lemma mover_archivos_de_subcarpetas_raiz_de_materia_witness :
  mover_archivos_de_subcarpetas (λ _, false) rutas_bajo_raiz
    (init (mkPath true ["home"; "Base de Datos"]) ejemplo_materias None)
    (mkEstado ejemplo_colision [])
  = (PyNone,
     mkEstado ejemplo_colision
       [L_moviendo_de_subcarpetas; L_eliminando_vacias;
        L_archivos_movidos 0; L_carpetas_eliminadas 0]).
Proof.
  apply (mover_archivos_de_subcarpetas_raiz_de_materia (λ _, false) rutas_bajo_raiz
           (init (mkPath true ["home"; "Base de Datos"]) ejemplo_materias None)
           (mkEstado ejemplo_colision []) "Base de Datos").
  - reflexivity.
  - apply (bool_decide_unpack _). vm_compute. exact I.
  - vm_compute. reflexivity.
  - left. reflexivity.
Defined.

(** ** The flattener: numbered names and extensions *)

Section Extensiones.

Implicit Types (s a b pre post : string) (i k : nat).

Lemma rfind_dot_app a b :
  Str.rfind_dot (a +:+ b)
  = match Str.rfind_dot b with
    | Some j => Some (String.length a + j)
    | None => Str.rfind_dot a
    end.
Proof.
  induction a as [|c a IH].
  - rewrite str_app_nil_l. by destruct (Str.rfind_dot b).
  - rewrite str_app_cons. cbn [Str.rfind_dot String.length]. rewrite IH.
    by destruct (Str.rfind_dot b).
Qed.

(** The last dot of a string cuts it in two, with no dot after the cut. *)
Lemma rfind_dot_some s i :
  Str.rfind_dot s = Some i →
  ∃ pre post, s = pre +:+ String "." post ∧ String.length pre = i
              ∧ Str.rfind_dot post = None.
Proof.
  revert i. induction s as [|c s IH]; intros i; simpl; [done|].
  destruct (Str.rfind_dot s) as [j|] eqn:Hs.
  - intros [= <-]. destruct (IH j eq_refl) as (pre & post & -> & <- & Hpost).
    by exists (String c pre), post.
  - destruct (Ascii.eqb c ".") eqn:Hc; [|done]. intros [= <-].
    apply Ascii.eqb_eq in Hc as ->. by exists "", s.
Qed.

Lemma substring_pre pre post : String.substring 0 (String.length pre) (pre +:+ post) = pre.
Proof.
  induction pre as [|c pre IH].
  - rewrite str_app_nil_l. by destruct post.
  - rewrite str_app_cons. cbn [String.length String.substring]. by rewrite IH.
Qed.

Lemma substring_todo s : String.substring 0 (String.length s) s = s.
Proof. induction s as [|c s IH]; simpl; [done|]. by rewrite IH. Qed.

Lemma substring_post pre post :
  String.substring (String.length pre) (String.length post) (pre +:+ post) = post.
Proof.
  induction pre as [|c pre IH].
  - rewrite str_app_nil_l. apply substring_todo.
  - rewrite str_app_cons. by cbn [String.length String.substring].
Qed.

(** A name with an extension is its stem, a dot and what follows the
    dot, in which there is no dot. *)
Lemma corte_some s i :
  corte s = Some i →
  ∃ pre post, s = pre +:+ String "." post ∧ String.length pre = i
              ∧ pre ≠ "" ∧ post ≠ "" ∧ Str.rfind_dot post = None.
Proof.
  unfold corte. destruct (Str.rfind_dot s) as [j|] eqn:Hs; [|done].
  destruct ((0 <? j) && (j <? String.length s - 1)) eqn:Hj; [|done]. intros [= <-].
  apply andb_true_iff in Hj as [H0%Nat.ltb_lt H1%Nat.ltb_lt].
  destruct (rfind_dot_some s j Hs) as (pre & post & -> & <- & Hpost).
  exists pre, post. split_and!; try done.
  - intros ->. simpl in H0. lia.
  - intros ->. rewrite str_length_app in H1. simpl in H1. lia.
Qed.

Lemma corte_con_extension pre post :
  pre ≠ "" → post ≠ "" → Str.rfind_dot post = None →
  corte (pre +:+ String "." post) = Some (String.length pre).
Proof.
  intros Hpre Hpost Hdot. unfold corte. rewrite rfind_dot_app. simpl. rewrite Hdot. simpl.
  rewrite Nat.add_0_r, str_length_app. simpl.
  assert (0 < String.length pre) by (destruct pre; [done|simpl; lia]).
  assert (0 < String.length post) by (destruct post; [done|simpl; lia]).
  rewrite (proj2 (Nat.ltb_lt _ _)) by done.
  by rewrite (proj2 (Nat.ltb_lt _ _)) by lia.
Qed.

Lemma suffix_con_extension pre post :
  pre ≠ "" → post ≠ "" → Str.rfind_dot post = None →
  suffix (pre +:+ String "." post) = String "." post
  ∧ stem (pre +:+ String "." post) = pre.
Proof.
  intros Hpre Hpost Hdot. unfold suffix, stem. rewrite corte_con_extension by done. split.
  - replace (String.length (pre +:+ String "." post) - String.length pre)
      with (String.length (String "." post)) by (rewrite str_length_app; lia).
    apply substring_post.
  - apply substring_pre.
Qed.

(** The digits of a number have no dot. *)
Lemma pretty_N_go_sin_punto (x : N) s :
  ∃ d, pretty_N_go x s = d +:+ s ∧ Str.rfind_dot d = None.
Proof.
  revert s. induction (N.lt_wf_0 x) as [x _ IH]. intros s.
  destruct (decide (x = 0)%N) as [->|Hx].
  - exists "". by rewrite pretty_N_go_0.
  - rewrite pretty_N_go_step by lia.
    destruct (IH (x `div` 10)%N) with (s := String (pretty_N_char (x `mod` 10)) s)
      as (d & -> & Hd).
    { apply N.div_lt; lia. }
    exists (d +:+ String (pretty_N_char (x `mod` 10)) ""). split.
    + by rewrite str_app_assoc.
    + rewrite rfind_dot_app. simpl.
      assert (Ascii.eqb (pretty_N_char (x `mod` 10)) "." = false) as ->; [|done].
      unfold pretty_N_char. by repeat case_match.
Qed.

Lemma pretty_sin_punto k : Str.rfind_dot (pretty k) = None.
Proof.
  unfold pretty, pretty_nat, pretty, pretty_N. case_decide; [done|].
  destruct (pretty_N_go_sin_punto (N.of_nat k) "") as (d & -> & Hd).
  by rewrite str_app_nil_r.
Qed.

(** A numbered name keeps the extension of the name it is made from. *)
Lemma con_contador_extension nombre k :
  suffix nombre ≠ "" →
  suffix (con_contador (stem nombre) k (suffix nombre)) = suffix nombre
  ∧ stem (con_contador (stem nombre) k (suffix nombre)) = stem nombre +:+ "_" +:+ pretty k.
Proof.
  intros Hext. destruct (corte nombre) as [i|] eqn:Hi.
  - destruct (corte_some nombre i Hi) as (pre & post & -> & <- & Hpre & Hpost & Hdot).
    destruct (suffix_con_extension pre post Hpre Hpost Hdot) as [-> ->].
    unfold con_contador. rewrite <- !str_app_assoc.
    apply suffix_con_extension; [|done..].
    destruct pre; [done|]. by rewrite str_app_cons.
  - unfold suffix in Hext. by rewrite Hi in Hext.
Qed.

(** No extension of the catalog begins with a dot and an underscore. *)
Lemma buscar_tipo_subrayado
    (carpeta : Path) (materias : list (string * list string))
    (estructura : option (gmap string (list string))) r :
  obtener_tipo_archivo (init carpeta materias estructura) (String "." (String "_" r)) = None.
Proof.
  unfold obtener_tipo_archivo. cbn [tipos_archivos init Str.lower].
  change (Str.lower_ascii ".") with "."%char. change (Str.lower_ascii "_") with "_"%char.
  unfold buscar_tipo, en_lista.
  repeat (rewrite bool_decide_eq_false_2;
          [|intros H; repeat (apply elem_of_cons in H as [H|H]; [discriminate|]);
            by apply elem_of_nil in H]).
  done.
Qed.

(** A name without extension, numbered, has no extension of the catalog
    either. *)
Lemma con_contador_sin_extension
    (carpeta : Path) (materias : list (string * list string))
    (estructura : option (gmap string (list string))) nombre k :
  suffix nombre = "" →
  obtener_tipo_archivo (init carpeta materias estructura)
    (suffix (con_contador (stem nombre) k (suffix nombre)))
  = obtener_tipo_archivo (init carpeta materias estructura) "".
Proof.
  intros Hext. rewrite Hext.
  assert (corte nombre = None) as Hcorte.
  { destruct (corte nombre) as [i|] eqn:Hi; [|done].
    destruct (corte_some nombre i Hi) as (pre & post & -> & <- & Hpre & Hpost & Hdot).
    by destruct (suffix_con_extension pre post Hpre Hpost Hdot) as [E _];
      rewrite E in Hext. }
  unfold stem. rewrite Hcorte. unfold con_contador. rewrite str_app_nil_r.
  assert (Str.rfind_dot ("_" +:+ pretty k) = None) as Hcola.
  { change ("_" +:+ pretty k) with (String "_" (pretty k)). simpl.
    by rewrite pretty_sin_punto. }
  unfold suffix at 1. unfold corte in *. rewrite rfind_dot_app, Hcola.
  destruct (Str.rfind_dot nombre) as [j|] eqn:Hj; [|done].
  destruct (0 <? j) eqn:H0; [|done]. simpl in *.
  destruct (j <? String.length nombre - 1) eqn:H1; [done|].
  apply Nat.ltb_lt in H0. apply Nat.ltb_ge in H1.
  destruct (rfind_dot_some nombre j Hj) as (pre & post & -> & <- & Hpost).
  rewrite str_length_app in H1. simpl in H1.
  destruct post as [|? ?]; [|simpl in H1; lia].
  rewrite !str_length_app. simpl.
  rewrite (proj2 (Nat.ltb_lt _ _)) by lia.
  rewrite (str_app_assoc pre).
  change (String "." "" +:+ "_" +:+ pretty k) with (String "." (String "_" (pretty k))).
  replace (String.length pre + 1 + S (String.length (pretty k)) - String.length pre)
    with (String.length (String "." (String "_" (pretty k)))) by (simpl; lia).
  rewrite substring_post. apply buscar_tipo_subrayado.
Qed.

End Extensiones.

(** X8. The name under which the flattener puts a file in
    [carpeta_origen], its own or a numbered one, is of the same type as
    the name the file had: [base_n.ext] keeps the extension, and a name
    without extension gets none of the catalog by being numbered. *)
Theorem destino_libre_conserva_tipo
    (carpeta : Path) (materias : list (string * list string))
    (estructura : option (gmap string (list string)))
    (t : sistema) (nombre destino : string) :
  let self := init carpeta materias estructura in
  destino_libre t nombre = Some destino →
  obtener_tipo_archivo self (suffix destino) = obtener_tipo_archivo self (suffix nombre).
Proof.
  intros self Hd.
  destruct (destino_libre_spec t nombre) as (d & Hd' & _ & [->|(_ & k & _ & -> & _)]);
    rewrite Hd in Hd'; simplify_eq; [done|].
  destruct (decide (suffix nombre = "")) as [Hext|Hext].
  - unfold self. rewrite con_contador_sin_extension by done. by rewrite Hext.
  - by destruct (con_contador_extension nombre k Hext) as [-> _].
Qed.

Lemma destino_libre_conserva_tipo_witness :
  obtener_tipo_archivo ejemplo_organizador (suffix "x_1.pdf")
  = obtener_tipo_archivo ejemplo_organizador (suffix "x.pdf").
Proof.
  apply (destino_libre_conserva_tipo (mkPath false []) ejemplo_materias
           (Some ejemplo_estructura) ejemplo_colision "x.pdf" "x_1.pdf").
  vm_compute. reflexivity.
Defined.

(** ** The flattener: what its lines are worth *)

Section LineasDelAplanado.

Variable denegado : ruta → bool.
Variable self : OrganizadorArchivos.

(** The first loop: every move it has reported stands. *)
Lemma mover_items_ciertos items e :
  let s := foldl (flip (mover_item denegado self)) (e, 0) items in
  ∃ lineas, salida s.1 = salida e ++ lineas
    ∧ Forall (λ x, de_mover x = true) lineas
    ∧ movidos_ciertos (fs e) (fs s.1) lineas.
Proof.
  simpl.
  cut (∀ s0 : estado * nat,
         (∃ lineas, salida s0.1 = salida e ++ lineas
            ∧ Forall (λ x, de_mover x = true) lineas
            ∧ movidos_ciertos (fs e) (fs s0.1) lineas
            ∧ ∀ (item : ruta) d, L_movido item d ∈ lineas → 2 ≤ length item)
         ∧ (∀ (q : ruta) x, 2 ≤ length q → fs s0.1 !! q = Some x → fs e !! q = Some x) →
         ∃ lineas, salida (foldl (flip (mover_item denegado self)) s0 items).1
                   = salida e ++ lineas
           ∧ Forall (λ x, de_mover x = true) lineas
           ∧ movidos_ciertos (fs e) (fs (foldl (flip (mover_item denegado self)) s0 items).1)
               lineas).
  { intros H. apply H. split; [|done]. exists []. split_and!; [by rewrite app_nil_r|done| |].
    - by intros ? ? ?%elem_of_nil.
    - by intros ? ? ?%elem_of_nil. }
  induction items as [|item items IH]; intros s0 [Hl Hprof]; cbn [foldl].
  { destruct Hl as (lineas & ? & ? & ? & _). by exists lineas. }
  apply IH. unfold flip. destruct Hl as (lineas & Hsal & Hcl & Hmov & Hlargo).
  destruct (mover_item_efecto denegado self item s0)
    as [s|e1 k|e1 k c d Hc _ Hne Hsub _ _ _ Hd]; cbn [fst fs salida print con_fs] in *.
  - split; [|done]. by exists lineas.
  - split; [|done]. exists (lineas ++ [L_error_moviendo (List.last item "")]).
    split_and!; [by rewrite Hsal, app_assoc
                |by apply Forall_app; split; [|apply Forall_singleton]| |].
    + intros item' d' [?|Hin%list_elem_of_singleton]%elem_of_app; [auto|done].
    + intros item' d' [?|Hin%list_elem_of_singleton]%elem_of_app; [eauto|done].
  - assert (2 ≤ length item) as Hlen.
    { rewrite (length_removelast item Hne). destruct (removelast item); [done|simpl; lia]. }
    split.
    + exists (lineas ++ [L_movido item d]).
      split_and!; [by rewrite Hsal, app_assoc
                  |by apply Forall_app; split; [|apply Forall_singleton]| |].
      * intros item' d' [Hin|Hin%list_elem_of_singleton]%elem_of_app.
        -- destruct (Hmov item' d' Hin) as (Hno & c' & Hc' & Hd').
           pose proof (Hlargo item' d' Hin) as Hlen'.
           split.
           ++ rewrite lookup_insert_ne by (intros <-; simpl in Hlen'; lia).
              destruct (decide (item' = item)) as [->|?]; [apply lookup_delete_eq|].
              by rewrite lookup_delete_ne.
           ++ exists c'. split; [done|].
              rewrite lookup_insert_ne by (intros [= ->]; congruence).
              rewrite lookup_delete_ne; [done|]. intros ->. simpl in Hlen. lia.
        -- simplify_eq. split.
           ++ rewrite lookup_insert_ne by (intros <-; simpl in Hlen; lia).
              apply lookup_delete_eq.
           ++ exists c. split; [by apply Hprof|]. apply lookup_insert_eq.
      * intros item' d' [?|Hin%list_elem_of_singleton]%elem_of_app; [eauto|].
        by simplify_eq.
    + intros q x Hq. rewrite lookup_insert_ne by (intros <-; simpl in Hq; lia).
      destruct (decide (q = item)) as [->|?]; [by rewrite lookup_delete_eq|].
      rewrite lookup_delete_ne by done. by apply Hprof.
Qed.

(** The second loop: every removal it has reported stands, and it
    undoes no move. *)
Lemma eliminar_carpetas_ciertas carpetas e :
  let s := foldl (flip (eliminar_carpeta denegado self)) (e, 0) carpetas in
  ∃ lineas, salida s.1 = salida e ++ lineas
    ∧ Forall (λ x, de_eliminar x = true) lineas
    ∧ eliminadas_ciertas (fs e) (fs s.1) lineas
    ∧ (∀ (q : ruta) c, fs e !! q = Some (Archivo c) → fs s.1 !! q = Some (Archivo c))
    ∧ (∀ q : ruta, fs e !! q = None → fs s.1 !! q = None).
Proof.
  simpl.
  cut (∀ s0 : estado * nat,
         (∃ lineas, salida s0.1 = salida e ++ lineas
            ∧ Forall (λ x, de_eliminar x = true) lineas
            ∧ eliminadas_ciertas (fs e) (fs s0.1) lineas)
         ∧ (∀ (q : ruta) x, fs s0.1 !! q = Some x → fs e !! q = Some x) →
         ∃ lineas, salida (foldl (flip (eliminar_carpeta denegado self)) s0 carpetas).1
                   = salida e ++ lineas
           ∧ Forall (λ x, de_eliminar x = true) lineas
           ∧ eliminadas_ciertas (fs e)
               (fs (foldl (flip (eliminar_carpeta denegado self)) s0 carpetas).1) lineas).
  { intros H. destruct (H (e, 0)) as (lineas & ? & ? & ?).
    { split; [|done]. exists []. split_and!; [by rewrite app_nil_r|done|].
      by intros ? ?%elem_of_nil. }
    exists lineas. split_and!; [done..| |].
    - intros q c Hq. by apply eliminar_carpetas_archivos.
    - intros q Hq. destruct (fs (foldl _ _ carpetas).1 !! q) as [x|] eqn:Hx; [|done].
      apply eliminar_carpetas_solo_quita in Hx. simpl in Hx. congruence. }
  induction carpetas as [|carpeta carpetas IH]; intros s0 [Hl Hantes]; cbn [foldl]; [done|].
  apply IH. unfold flip. destruct Hl as (lineas & Hsal & Hcl & Hel).
  destruct (eliminar_carpeta_efecto denegado self carpeta s0)
    as [s|e1 k|e1 k Hc _ _ _ _]; cbn [fst fs salida print con_fs] in *.
  - split; [|done]. by exists lineas.
  - split; [|done]. exists (lineas ++ [L_no_se_pudo_eliminar
                                         (Path_name (Path_div (carpeta_origen self) carpeta))]).
    split_and!; [by rewrite Hsal, app_assoc|by apply Forall_app; split; [|apply Forall_singleton]|].
    intros q [?|Hin%list_elem_of_singleton]%elem_of_app; [auto|done].
  - split.
    + exists (lineas ++ [L_eliminada carpeta]).
      split_and!; [by rewrite Hsal, app_assoc|by apply Forall_app; split; [|apply Forall_singleton]|].
      intros q [Hin|Hin%list_elem_of_singleton]%elem_of_app.
      * destruct (Hel q Hin) as [Hq Hno]. split; [done|].
        destruct (decide (q = carpeta)) as [->|?]; [apply lookup_delete_eq|].
        by rewrite lookup_delete_ne.
      * simplify_eq. split; [by apply Hantes|apply lookup_delete_eq].
    + intros q x. destruct (decide (q = carpeta)) as [->|?]; [by rewrite lookup_delete_eq|].
      rewrite lookup_delete_ne by done. apply Hantes.
Qed.

End LineasDelAplanado.

(** X9. What a flattening pass reports has happened and stands when
    the pass ends.  For every line [Movido: item → d] of the pass, [item]
    was a file before the pass, is gone after it, and [carpeta_origen]
    holds its content under the name [d]; for every line [Eliminada: q],
    [q] was a folder before the pass and is gone after it. *)
Theorem mover_archivos_de_subcarpetas_lineas_ciertas
    (denegado : ruta → bool) (rglob : sistema → list ruta) (self : OrganizadorArchivos)
    (e : estado) :
  let e' := (mover_archivos_de_subcarpetas denegado rglob self e).2 in
  ∃ lineas,
    salida e' = salida e ++ lineas
    ∧ movidos_ciertos (fs e) (fs e') lineas
    ∧ eliminadas_ciertas (fs e) (fs e') lineas.
Proof.
  intros e'. unfold e'. rewrite mover_archivos_de_subcarpetas_eq. cbn [snd fs salida print].
  destruct (mover_items_ciertos denegado self (rglob (fs e))
              (print L_moviendo_de_subcarpetas e)) as (N1 & Hs1 & Hc1 & Hm1).
  fold (tras_mover denegado self rglob e) in Hs1, Hm1. cbn [fs salida print] in Hs1, Hm1.
  destruct (eliminar_carpetas_ciertas denegado self
              (sorted_reverse self (rglob (fs (tras_mover denegado self rglob e).1)))
              (print L_eliminando_vacias (tras_mover denegado self rglob e).1))
    as (N2 & Hs2 & Hc2 & He2 & Harch & Hnada).
  fold (tras_eliminar denegado self rglob e) in Hs2, He2, Harch, Hnada.
  cbn [fs salida print] in Hs2, He2, Harch, Hnada.
  exists ([L_moviendo_de_subcarpetas] ++ N1 ++ [L_eliminando_vacias] ++ N2
          ++ [L_archivos_movidos (tras_mover denegado self rglob e).2;
              L_carpetas_eliminadas (tras_eliminar denegado self rglob e).2]).
  split_and!.
  - rewrite Hs2, Hs1. by rewrite <- !app_assoc.
  - intros item d Hin.
    assert (L_movido item d ∈ N1) as Hin1.
    { repeat (apply elem_of_app in Hin as [Hin|Hin]); try done.
      - by apply list_elem_of_singleton in Hin.
      - by apply list_elem_of_singleton in Hin.
      - eapply Forall_forall in Hc2; [|done]. done.
      - by repeat (apply elem_of_cons in Hin as [?|Hin]; [done|]); apply elem_of_nil in Hin. }
    destruct (Hm1 item d Hin1) as (Hno & c & Hc & Hd). split; [by apply Hnada|].
    exists c. split; [done|]. by apply Harch.
  - intros q Hin.
    assert (L_eliminada q ∈ N2) as Hin2.
    { repeat (apply elem_of_app in Hin as [Hin|Hin]); try done.
      - by apply list_elem_of_singleton in Hin.
      - eapply Forall_forall in Hc1; [|done]. done.
      - by apply list_elem_of_singleton in Hin.
      - by repeat (apply elem_of_cons in Hin as [?|Hin]; [done|]); apply elem_of_nil in Hin. }
    destruct (He2 q Hin2) as [Hq Hno]. split; [|done].
    unfold tras_mover in Hq. by apply mover_items_carpetas in Hq.
Qed.

(** ** The structure builder, further *)

Section Constructor.

Variable self : OrganizadorArchivos.

(** What [mkdir] answers, and what it leaves, by what is at the path. *)
Lemma mkdir_spec (p : ruta) (t : sistema) :
  p ≠ [] → t !! removelast p = Some Carpeta →
  match t !! p with
  | Some (Archivo _) => mkdir p t = Falla FileExistsError
  | Some Carpeta => mkdir p t = Hecho t
  | None => mkdir p t = Hecho (<[p := Carpeta]> t)
  end.
Proof.
  intros Hp Hpar. unfold mkdir. destruct (t !! p) as [[c|]|]; [done..|].
  destruct p; [done|]. by rewrite Hpar.
Qed.

Lemma mkdir_nuevo (p : ruta) (t t' : sistema) (q : ruta) x :
  mkdir p t = Hecho t' → t' !! q = Some x → t !! q = Some x ∨ (x = Carpeta ∧ q = p).
Proof.
  unfold mkdir. destruct (t !! p) as [[c|]|] eqn:Hp; [done| |].
  - intros [= <-]. auto.
  - destruct p as [|n p]; [done|].
    destruct (t !! removelast (n :: p)) as [[c|]|]; [done| |done].
    intros [= <-]. destruct (decide (q = n :: p)) as [->|Hq].
    + rewrite lookup_insert_eq. intros [= <-]. auto.
    + rewrite lookup_insert_ne by done. auto.
Qed.

Lemma crear_tipos_nuevo materia carpetas e (q : ruta) x :
  fs (estado_final (crear_tipos materia carpetas e)) !! q = Some x →
  fs e !! q = Some x ∨ (x = Carpeta ∧ ∃ tipo, tipo ∈ carpetas ∧ q = [materia; tipo]).
Proof.
  revert e. induction carpetas as [|tipo resto IH]; intros e; simpl; [auto|].
  destruct (mkdir [materia; tipo] (fs e)) as [t|] eqn:Hmk; [|auto].
  intros Hq. destruct (IH _ Hq) as [Hq'|(-> & tipo' & ? & ->)].
  - simpl in Hq'. destruct (mkdir_nuevo _ _ _ _ _ Hmk Hq') as [?|[-> ->]]; [by left|].
    right. split; [done|]. exists tipo. split; [left|done].
  - right. split; [done|]. exists tipo'. split; [by right|done].
Qed.

Lemma crear_materias_nuevo materias e (q : ruta) x :
  fs (estado_final (crear_materias self materias e)) !! q = Some x →
  fs e !! q = Some x
  ∨ (x = Carpeta
     ∧ ∃ materia, materia ∈ materias
         ∧ (q = [materia]
            ∨ ∃ tipo, tipo ∈ obtener_carpetas_para_materia self materia
                ∧ q = [materia; tipo])).
Proof.
  revert e. induction materias as [|materia resto IH]; intros e; simpl; [auto|].
  destruct (mkdir [materia] (fs e)) as [t|] eqn:Hmk; [|auto].
  pose proof (crear_tipos_nuevo materia (obtener_carpetas_para_materia self materia)
                (con_fs t e) q x) as Htipos.
  assert (fs (con_fs t e) !! q = Some x →
          fs e !! q = Some x
          ∨ (x = Carpeta
             ∧ ∃ materia0, materia0 ∈ materia :: resto
                 ∧ (q = [materia0]
                    ∨ ∃ tipo, tipo ∈ obtener_carpetas_para_materia self materia0
                        ∧ q = [materia0; tipo]))) as Hmat.
  { intros Hq. simpl in Hq. destruct (mkdir_nuevo _ _ _ _ _ Hmk Hq) as [?|[-> ->]]; [by left|].
    right. split; [done|]. exists materia. split; [left|by left]. }
  assert (fs (estado_final (crear_tipos materia (obtener_carpetas_para_materia self materia)
                              (con_fs t e))) !! q = Some x →
          fs e !! q = Some x
          ∨ (x = Carpeta
             ∧ ∃ materia0, materia0 ∈ materia :: resto
                 ∧ (q = [materia0]
                    ∨ ∃ tipo, tipo ∈ obtener_carpetas_para_materia self materia0
                        ∧ q = [materia0; tipo]))) as Htip.
  { intros Hq. destruct (Htipos Hq) as [?|(-> & tipo & ? & ->)]; [auto|].
    right. split; [done|]. exists materia. split; [left|]. right. eauto. }
  destruct (crear_tipos _ _ _) as [w e1|y e1]; simpl in *; [|done].
  intros Hq. destruct (IH _ Hq) as [Hq'|(-> & materia' & ? & Hcual)]; [auto|].
  right. split; [done|]. exists materia'. split; [by right|done].
Qed.

(** What is printed does not depend on the tree. *)
Lemma crear_tipos_salida materia carpetas e v e' :
  crear_tipos materia carpetas e = Normal v e' →
  salida e' = salida e ++ (L_creada materia <$> carpetas).
Proof.
  revert e. induction carpetas as [|tipo resto IH]; intros e; simpl.
  - intros ?; simplify_eq. by rewrite app_nil_r.
  - destruct (mkdir [materia; tipo] (fs e)) as [t|] eqn:Hmk; [|done].
    intros ->%IH. simpl. by rewrite <- app_assoc.
Qed.

Lemma crear_materias_salida materias e v e' :
  crear_materias self materias e = Normal v e' →
  salida e' = salida e ++ lineas_creadas self materias.
Proof.
  unfold lineas_creadas.
  revert e. induction materias as [|materia resto IH]; intros e; simpl.
  - intros ?; simplify_eq. by rewrite app_nil_r.
  - destruct (mkdir [materia] (fs e)) as [t|] eqn:Hmk; [|done].
    destruct (crear_tipos _ _ _) as [w e1|] eqn:Htipos; [|done]. simpl.
    intros ->%IH. apply crear_tipos_salida in Htipos as ->. simpl.
    by rewrite <- app_assoc.
Qed.

(** With [carpeta_origen] in place the builder stops only at a file that
    has the name of a folder it is to make, and then with
    [FileExistsError]. *)
Lemma crear_tipos_resultado materia carpetas e :
  fs e !! [materia] = Some Carpeta →
  match crear_tipos materia carpetas e with
  | Normal _ e' =>
      (∀ tipo, tipo ∈ carpetas → is_file (fs e) [materia; tipo] = false)
      ∧ ∀ q, is_file (fs e') q = is_file (fs e) q
  | Excepcion x _ =>
      x = FileExistsError ∧ ∃ tipo, tipo ∈ carpetas ∧ is_file (fs e) [materia; tipo] = true
  end.
Proof.
  revert e. induction carpetas as [|tipo resto IH]; intros e Hm; simpl.
  - split; [|done]. by intros ? ?%elem_of_nil.
  - pose proof (mkdir_spec [materia; tipo] (fs e)) as Hmk. simpl in Hmk.
    specialize (Hmk ltac:(done) Hm).
    assert (∀ t, mkdir [materia; tipo] (fs e) = Hecho t →
                 t !! [materia] = Some Carpeta
                 ∧ is_file (fs e) [materia; tipo] = false
                 ∧ ∀ q, is_file t q = is_file (fs e) q) as Hok.
    { intros t Ht. unfold is_file.
      destruct (fs e !! [materia; tipo]) as [[c|]|] eqn:Hq; rewrite Ht in Hmk; simplify_eq.
      - done.
      - split_and!; [by rewrite lookup_insert_ne|done|]. intros q.
        destruct (decide (q = [materia; tipo])) as [->|?].
        + by rewrite lookup_insert_eq, Hq.
        + by rewrite lookup_insert_ne. }
    destruct (mkdir [materia; tipo] (fs e)) as [t|x] eqn:Ht.
    + destruct (Hok t eq_refl) as (Hm' & Hlibre & Higual).
      specialize (IH (print (L_creada materia tipo) (con_fs t e)) Hm').
      destruct (crear_tipos materia resto _) as [w e'|x e'].
      * destruct IH as [IH1 IH2]. simpl in *. split.
        -- intros tipo' [->|?]%elem_of_cons; [done|]. rewrite <- Higual. auto.
        -- intros q. by rewrite IH2, Higual.
      * destruct IH as (-> & tipo' & ? & Hf). simpl in Hf. rewrite Higual in Hf.
        split; [done|]. exists tipo'. split; [by right|done].
    + destruct (fs e !! [materia; tipo]) as [[c|]|] eqn:Hq; simplify_eq.
      split; [done|]. exists tipo. split; [left|]. unfold is_file. by rewrite Hq.
Qed.

Lemma crear_materias_resultado materias e :
  fs e !! [] = Some Carpeta →
  match crear_materias self materias e with
  | Normal _ e' =>
      ∀ materia, materia ∈ materias →
        is_file (fs e) [materia] = false
        ∧ ∀ tipo, tipo ∈ obtener_carpetas_para_materia self materia →
            is_file (fs e) [materia; tipo] = false
  | Excepcion x _ =>
      x = FileExistsError
      ∧ ∃ materia, materia ∈ materias
          ∧ (is_file (fs e) [materia] = true
             ∨ ∃ tipo, tipo ∈ obtener_carpetas_para_materia self materia
                 ∧ is_file (fs e) [materia; tipo] = true)
  end.
Proof.
  revert e. induction materias as [|materia resto IH]; intros e Hraiz; simpl.
  - by intros ? ?%elem_of_nil.
  - pose proof (mkdir_spec [materia] (fs e)) as Hmk. simpl in Hmk.
    specialize (Hmk ltac:(done) Hraiz).
    assert (∀ t, mkdir [materia] (fs e) = Hecho t →
                 t !! [materia] = Some Carpeta
                 ∧ t !! [] = Some Carpeta
                 ∧ is_file (fs e) [materia] = false
                 ∧ ∀ q, is_file t q = is_file (fs e) q) as Hok.
    { intros t Ht. unfold is_file.
      destruct (fs e !! [materia]) as [[c|]|] eqn:Hq; rewrite Ht in Hmk; simplify_eq.
      - done.
      - split_and!; [apply lookup_insert_eq|by rewrite lookup_insert_ne|done|]. intros q.
        destruct (decide (q = [materia])) as [->|?].
        + by rewrite lookup_insert_eq, Hq.
        + by rewrite lookup_insert_ne. }
    destruct (mkdir [materia] (fs e)) as [t|x] eqn:Ht.
    + destruct (Hok t eq_refl) as (Hm & Hraiz' & Hlibre & Higual).
      pose proof (crear_tipos_resultado materia (obtener_carpetas_para_materia self materia)
                    (con_fs t e) Hm) as Htipos.
      destruct (crear_tipos materia _ (con_fs t e)) as [w e1|x e1] eqn:Hrun; simpl.
      * destruct Htipos as [Hlibres Higual1]. simpl in *.
        assert (fs e1 !! [] = Some Carpeta) as Hraiz1.
        { apply crear_tipos_normal in Hrun as [Hkeep _]. by apply Hkeep. }
        specialize (IH e1 Hraiz1).
        destruct (crear_materias self resto e1) as [w' e'|x e'].
        -- intros materia' [->|Hin]%elem_of_cons.
           ++ split; [done|]. intros tipo Htipo. rewrite <- Higual. auto.
           ++ destruct (IH materia' Hin) as [IH1 IH2]. rewrite Higual1, Higual in IH1.
              split; [done|]. intros tipo Htipo. rewrite <- Higual, <- Higual1. auto.
        -- destruct IH as (-> & materia' & Hin & Hcual). split; [done|].
           exists materia'. split; [by right|].
           destruct Hcual as [Hf|(tipo & ? & Hf)]; rewrite Higual1, Higual in Hf; eauto.
      * destruct Htipos as (-> & tipo & ? & Hf). simpl in Hf. rewrite Higual in Hf.
        split; [done|]. exists materia. split; [left|]. eauto.
    + destruct (fs e !! [materia]) as [[c|]|] eqn:Hq; simplify_eq.
      split; [done|]. exists materia. split; [left|]. left. unfold is_file. by rewrite Hq.
Qed.




End Constructor.



(** X11. What [crear_estructura_carpetas] prints does not depend on
    the tree: after the heading, one line [Creada] for every folder of
    every subject, in the order of the configuration, also for the
    folders that were there already. *)
Theorem crear_estructura_carpetas_informa_todo (self : OrganizadorArchivos) (e e' : estado) v :
  crear_estructura_carpetas self e = Normal v e' →
  salida e' = salida e ++ L_creando_estructura
                          :: lineas_creadas self (keys (materias_palabras_clave self)).
Proof.
  unfold crear_estructura_carpetas. intros ->%crear_materias_salida. simpl.
  by rewrite <- app_assoc.
Qed.

Lemma crear_estructura_carpetas_informa_todo_witness :
  let e := mkEstado (arbol_aplanado "%PDF-1.4") [] in
  let e' := estado_final (crear_estructura_carpetas ejemplo_database e) in
  salida e' = salida e ++ L_creando_estructura
                          :: lineas_creadas ejemplo_database
                               (keys (materias_palabras_clave ejemplo_database)).
Proof.
  apply (crear_estructura_carpetas_informa_todo ejemplo_database
           (mkEstado (arbol_aplanado "%PDF-1.4") [])
           (estado_final (crear_estructura_carpetas ejemplo_database
                            (mkEstado (arbol_aplanado "%PDF-1.4") []))) PyNone).
  vm_compute. reflexivity.
Defined.



(** ** The organizer, further *)

Section RondasDelOrganizador.

Variable denegado : ruta → bool.
Variable self : OrganizadorArchivos.

Implicit Types (l : locales) (n nombre : string).

(** What a round does to the tree and to the count: nothing, or the
    move of the file [n] of [carpeta_origen] into the folder of its
    subject and type, counted. *)
Lemma organizar_item_arbol n l :
  (fs (l_estado (organizar_item denegado self n l)) = fs (l_estado l)
   ∧ archivos_organizados (organizar_item denegado self n l) = archivos_organizados l
   ∧ ∃ otras, salida (l_estado (organizar_item denegado self n l))
              = salida (l_estado l) ++ otras
              ∧ Forall (λ x, es_organizado x = false) otras)
  ∨ ∃ c m t (dst : ruta),
      fs (l_estado l) !! [n] = Some (Archivo c)
      ∧ identificar_materia self n = Some m
      ∧ obtener_tipo_archivo self (suffix n) = Some t
      ∧ t ∈ obtener_carpetas_para_materia self m
      ∧ (dst = [m; t; n] ∨ dst = [m; t; n; n])
      ∧ fs (l_estado l) !! dst ≠ Some Carpeta
      ∧ fs (l_estado l) !! removelast dst = Some Carpeta
      ∧ fs (l_estado (organizar_item denegado self n l))
        = <[dst := Archivo c]> (delete [n] (fs (l_estado l)))
      ∧ archivos_organizados (organizar_item denegado self n l)
        = S (archivos_organizados l)
      ∧ salida (l_estado (organizar_item denegado self n l))
        = salida (l_estado l) ++ [L_organizado n m t].
Proof.
  assert (∀ linea : linea, es_organizado linea = false →
            ∃ otras, salida (l_estado l) ++ [linea] = salida (l_estado l) ++ otras
                     ∧ Forall (λ x, es_organizado x = false) otras) as Hotra.
  { intros linea Hl. exists [linea]. split; [done|]. by apply Forall_singleton. }
  unfold organizar_item.
  destruct (is_dir _ [n]).
  { left. split_and!; [done..|]. exists []. by rewrite app_nil_r. }
  destruct (verdadero _ && verdadero _) eqn:Hv;
    [|left; split_and!; [done..|]; by apply Hotra].
  destruct (identificar_materia self n) as [m|] eqn:Hm; [|done].
  destruct (obtener_tipo_archivo self (suffix n)) as [t|] eqn:Ht;
    [|by rewrite andb_false_r in Hv]. simpl.
  unfold en_lista. case_bool_decide as Hsi;
    [|left; split_and!; [done..|]; by apply Hotra].
  destruct (shutil_move _ _ _ _) as [t'|x] eqn:Hmv;
    [|left; split_and!; [done..|]; by apply Hotra].
  apply shutil_move_hecho in Hmv
    as (c & real_dst & Hsrc & _ & -> & Hpar & _ & [[-> Hd]|(-> & _ & Hd)]).
  - right. exists c, m, t, [m; t; n]. split_and!; try done; [by left|].
    unfold is_dir in Hd. intros E. by rewrite E in Hd.
  - right. exists c, m, t, [m; t; n; n]. split_and!; try done; [by right|].
    simpl in Hd. by rewrite Hd.
Qed.

(** A round makes no folder, removes none and replaces none. *)
Lemma organizar_item_carpetas n l (q : ruta) :
  fs (l_estado (organizar_item denegado self n l)) !! q = Some Carpeta
  ↔ fs (l_estado l) !! q = Some Carpeta.
Proof.
  destruct (organizar_item_arbol n l)
    as [[-> _]|(c & m & t & dst & Hc & _ & _ & _ & _ & Hdst & _ & -> & _)]; [done|].
  destruct (decide (q = dst)) as [->|?].
  - rewrite lookup_insert_eq. split; [done|]. intros ?. by destruct Hdst.
  - rewrite lookup_insert_ne by done.
    destruct (decide (q = [n])) as [->|?].
    + rewrite lookup_delete_eq, Hc. done.
    + by rewrite lookup_delete_ne.
Qed.

Lemma organizar_items_carpetas nombres l (q : ruta) :
  fs (l_estado (foldl (flip (organizar_item denegado self)) l nombres)) !! q = Some Carpeta
  ↔ fs (l_estado l) !! q = Some Carpeta.
Proof.
  revert l. induction nombres as [|n nombres IH]; intros l; simpl; [done|].
  rewrite IH. apply organizar_item_carpetas.
Qed.

(** Where the files are after the loop: where they were, or, for a file
    that was in [carpeta_origen], in the folder of its subject and
    type. *)
Lemma organizar_items_archivos nombres l (q : ruta) c :
  fs (l_estado (foldl (flip (organizar_item denegado self)) l nombres)) !! q
  = Some (Archivo c) →
  fs (l_estado l) !! q = Some (Archivo c)
  ∨ ∃ n m t,
      fs (l_estado l) !! [n] = Some (Archivo c)
      ∧ identificar_materia self n = Some m
      ∧ obtener_tipo_archivo self (suffix n) = Some t
      ∧ t ∈ obtener_carpetas_para_materia self m
      ∧ (q = [m; t; n] ∨ q = [m; t; n; n]).
Proof.
  revert l. induction nombres as [|n nombres IH]; intros l; simpl; [by left|].
  intros Hq. apply IH in Hq. unfold flip in Hq.
  destruct (organizar_item_arbol n l)
    as [[E _]|(c0 & m0 & t0 & dst & Hc & Hm & Ht & Hsi & Hdst & _ & _ & E & _)];
    rewrite E in Hq; [done|].
  assert (∀ (p : ruta) x, length p ≠ 3 → length p ≠ 4 →
            <[dst := Archivo c0]> (delete [n] (fs (l_estado l))) !! p = Some x →
            fs (l_estado l) !! p = Some x) as Hcorto.
  { intros p x H3 H4. rewrite lookup_insert_ne by (by intros <-; destruct Hdst as [->| ->]).
    destruct (decide (p = [n])) as [->|?]; [by rewrite lookup_delete_eq|].
    by rewrite lookup_delete_ne. }
  destruct Hq as [Hq|(n1 & m1 & t1 & Hn1 & Hm1 & Ht1 & Hsi1 & Hq1)].
  - destruct (decide (q = dst)) as [->|?].
    + rewrite lookup_insert_eq in Hq. simplify_eq. right. exists n, m0, t0. done.
    + left. rewrite lookup_insert_ne in Hq by done.
      destruct (decide (q = [n])) as [->|?]; [by rewrite lookup_delete_eq in Hq|].
      by rewrite lookup_delete_ne in Hq.
  - right. exists n1, m1, t1. split_and!; try done. by apply Hcorto in Hn1.
Qed.

(** The loop counts every entry of [carpeta_origen] that is not a
    folder once: as organized, or as left where it is. *)
Lemma organizar_items_cuenta nombres l :
  let l' := foldl (flip (organizar_item denegado self)) l nombres in
  archivos_organizados l' + length (archivos_no_organizados l')
  = archivos_organizados l + length (archivos_no_organizados l)
    + length (filter (λ n, is_dir (fs (l_estado l)) [n] = false) nombres).
Proof.
  simpl. revert l. induction nombres as [|n nombres IH]; intros l; simpl; [lia|].
  rewrite IH.
  change (flip (organizar_item denegado self) l n) with (organizar_item denegado self n l).
  assert (filter (λ n0, is_dir (fs (l_estado (organizar_item denegado self n l))) [n0] = false)
            nombres
          = filter (λ n0, is_dir (fs (l_estado l)) [n0] = false) nombres) as ->.
  { apply list_filter_iff. intros n0. unfold is_dir.
    pose proof (organizar_item_carpetas n l [n0]) as Hc.
    destruct (fs (l_estado (organizar_item denegado self n l)) !! [n0]) as [[?|]|],
             (fs (l_estado l) !! [n0]) as [[?|]|]; try done;
      try (by destruct Hc as [Hc1 Hc2]; first [discriminate (Hc1 eq_refl)
                                               | discriminate (Hc2 eq_refl)]). }
  rewrite filter_cons. unfold organizar_item.
  destruct (is_dir (fs (l_estado l)) [n]) eqn:Hd.
  - rewrite decide_False by done. lia.
  - rewrite decide_True by done.
    repeat case_match; simpl; rewrite ?length_app; simpl; lia.
Qed.

(** A file of [carpeta_origen] whose round leaves it pending, in every
    tree with a property that the rounds keep, is still there when the
    loop ends, with the line of its round printed and its name listed. *)
Lemma organizar_items_pendiente (Inv : sistema → Prop) nombre c linea nombres l :
  (∀ l n, Inv (fs (l_estado l)) → Inv (fs (l_estado (organizar_item denegado self n l)))) →
  (∀ l, Inv (fs (l_estado l)) → fs (l_estado l) !! [nombre] = Some (Archivo c) →
        organizar_item denegado self nombre l
        = mkLocales (print linea (l_estado l)) (archivos_organizados l)
            (archivos_no_organizados l ++ [nombre])) →
  Inv (fs (l_estado l)) →
  fs (l_estado l) !! [nombre] = Some (Archivo c) →
  let l' := foldl (flip (organizar_item denegado self)) l nombres in
  fs (l_estado l') !! [nombre] = Some (Archivo c)
  ∧ (nombre ∈ nombres →
     linea ∈ salida (l_estado l') ∧ nombre ∈ archivos_no_organizados l').
Proof.
  intros Hinv Hronda. revert l.
  induction nombres as [|n nombres IH]; intros l HI Hf; simpl.
  - split; [done|]. by intros ?%elem_of_nil.
  - destruct (decide (n = nombre)) as [->|Hn].
    + pose proof (Hronda l HI Hf) as E.
      destruct (IH (organizar_item denegado self nombre l)) as [IH1 _].
      { by apply Hinv. }
      { by rewrite E. }
      split; [done|]. intros _.
      destruct (organizar_items_crece denegado self nombres
                  (organizar_item denegado self nombre l)) as [[s1 Hs1] [s2 Hs2]].
      change (flip (organizar_item denegado self) l nombre)
        with (organizar_item denegado self nombre l).
      rewrite Hs1, Hs2, E. simpl. split.
      * rewrite !elem_of_app. left; right. by apply list_elem_of_singleton.
      * rewrite !elem_of_app. left; right. by apply list_elem_of_singleton.
    + destruct (IH (organizar_item denegado self n l)) as [IH1 IH2].
      { by apply Hinv. }
      { rewrite organizar_item_marco; [done|congruence..]. }
      split; [done|]. intros [?|?]%elem_of_cons; [congruence|auto].
Qed.

End RondasDelOrganizador.

Section CuentasDelOrganizador.

Variable denegado : ruta → bool.
Variable self : OrganizadorArchivos.

(** The names of [carpeta_origen] that are not folders are as many as
    its files. *)
Lemma archivos_de_raiz_nombres (t : sistema) :
  length (filter (λ n, is_dir t [n] = false) (nombres_raiz t)) = cuantas archivo_de_raiz t.
Proof.
  unfold nombres_raiz, cuantas.
  assert (∀ q x, (q, x) ∈ map_to_list t → t !! q = Some x) as Hl.
  { intros q x. apply elem_of_map_to_list. }
  induction (map_to_list t) as [|[q x] l IH]; [done|].
  rewrite fmap_cons. cbn [fst snd omap list_omap List.filter].
  specialize (IH (λ q' x' H, Hl q' x' (list_elem_of_further _ _ _ H))).
  pose proof (Hl q x (list_elem_of_here _ _)) as Hq.
  destruct q as [|n [|??]]; cbn [archivo_de_raiz length Nat.eqb andb]; [done| |done].
  rewrite filter_cons.
  assert (is_dir t [n] = match x with Carpeta => true | Archivo _ => false end) as Hd.
  { unfold is_dir. rewrite Hq. by destruct x. }
  destruct x; [rewrite decide_True by done|rewrite decide_False by (by rewrite Hd)];
    simpl; by rewrite IH.
Qed.

(** A round of the organizer counts a file as organized exactly when
    one leaves [carpeta_origen]. *)
Lemma organizar_item_cuantas n l :
  archivos_organizados (organizar_item denegado self n l)
  + cuantas archivo_de_raiz (fs (l_estado (organizar_item denegado self n l)))
  = archivos_organizados l + cuantas archivo_de_raiz (fs (l_estado l)).
Proof.
  destruct (organizar_item_arbol denegado self n l)
    as [(-> & -> & _)|(c & m & t & dst & Hc & _ & _ & _ & Hcual & _ & _ & -> & -> & _)];
    [done|].
  rewrite cuantas_insert.
  rewrite (cuantas_lookup archivo_de_raiz (fs (l_estado l)) [n]), Hc.
  rewrite (cuantas_lookup archivo_de_raiz (delete [n] (fs (l_estado l))) dst).
  assert (∀ x, archivo_de_raiz dst x = false) as Hdst.
  { intros x. by destruct Hcual as [-> | ->]. }
  rewrite Hdst. destruct (delete [n] (fs (l_estado l)) !! dst) as [y|]; [rewrite Hdst|];
    simpl; lia.
Qed.

Lemma organizar_items_cuantas nombres l :
  let l' := foldl (flip (organizar_item denegado self)) l nombres in
  archivos_organizados l' + cuantas archivo_de_raiz (fs (l_estado l'))
  = archivos_organizados l + cuantas archivo_de_raiz (fs (l_estado l)).
Proof.
  simpl. revert l. induction nombres as [|n nombres IH]; intros l; simpl; [done|].
  rewrite IH. apply organizar_item_cuantas.
Qed.



(** The organizer: every file it has reported organized is where the
    line says. *)
Lemma organizar_items_ciertos nombres l0 :
  let l' := foldl (flip (organizar_item denegado self)) l0 nombres in
  ∃ lineas, salida (l_estado l') = salida (l_estado l0) ++ lineas
    ∧ organizados_ciertos (fs (l_estado l0)) (fs (l_estado l')) lineas.
Proof.
  simpl.
  cut (∀ l,
         (∃ lineas, salida (l_estado l) = salida (l_estado l0) ++ lineas
            ∧ organizados_ciertos (fs (l_estado l0)) (fs (l_estado l)) lineas)
         ∧ (∀ n x, fs (l_estado l) !! [n] = Some x → fs (l_estado l0) !! [n] = Some x) →
         ∃ lineas, salida (l_estado (foldl (flip (organizar_item denegado self)) l nombres))
                   = salida (l_estado l0) ++ lineas
           ∧ organizados_ciertos (fs (l_estado l0))
               (fs (l_estado (foldl (flip (organizar_item denegado self)) l nombres))) lineas).
  { intros H. apply H. split; [|done]. exists []. split; [by rewrite app_nil_r|].
    by intros ? ? ? ?%elem_of_nil. }
  induction nombres as [|n nombres IH]; intros l [Hl Hraiz]; cbn [foldl]; [done|].
  apply IH. unfold flip. destruct Hl as (lineas & Hsal & Hor).
  destruct (organizar_item_arbol denegado self n l)
    as [(Efs & _ & otras & Esal & Hotras)
       |(c & m & t & dst & Hc & _ & _ & _ & Hcual & _ & _ & Efs & _ & Esal)].
  - rewrite Efs, Esal. split; [|done]. exists (lineas ++ otras).
    split; [by rewrite Hsal, app_assoc|].
    intros n' m' t' [?|Hin]%elem_of_app; [auto|].
    eapply Forall_forall in Hotras; [|done]. done.
  - rewrite Efs, Esal.
    assert (∀ n' : string, dst ≠ [n']) as Hdst by (by intros n'; destruct Hcual as [-> | ->]).
    split.
    + exists (lineas ++ [L_organizado n m t]). split; [by rewrite Hsal, app_assoc|].
      intros n' m' t' [Hin|Hin%list_elem_of_singleton]%elem_of_app.
      * destruct (Hor n' m' t' Hin) as (Hno & c' & Hc' & Hdonde).
        assert (n' ≠ n) as Hnn by (intros ->; congruence).
        split.
        -- rewrite lookup_insert_ne by done. by rewrite lookup_delete_ne by congruence.
        -- exists c'. split; [done|].
           destruct Hdonde as [Hd|Hd]; [left|right];
             (rewrite lookup_insert_ne by (by destruct Hcual as [-> | ->]; congruence));
             by rewrite lookup_delete_ne.
      * simplify_eq. split.
        -- rewrite lookup_insert_ne by done. apply lookup_delete_eq.
        -- exists c. split; [by apply Hraiz|].
           destruct Hcual as [-> | ->]; [left|right]; apply lookup_insert_eq.
    + intros n' x. rewrite lookup_insert_ne by done.
      destruct (decide (n' = n)) as [->|?]; [by rewrite lookup_delete_eq|].
      rewrite lookup_delete_ne by congruence. apply Hraiz.
Qed.

End CuentasDelOrganizador.

Section NivelSuperior.

Variable denegado : ruta → bool.
Variable iterdir : sistema → list string.
Variable self : OrganizadorArchivos.

Lemma organizar_nivel_superior_normal e v e' :
  organizar_nivel_superior denegado iterdir self e = Normal v e' →
  fs e !! [] = Some Carpeta
  ∧ e' = imprimir_resumen
           (foldl (flip (organizar_item denegado self))
              (mkLocales (print L_organizando e) 0 []) (iterdir (fs e))).
Proof.
  unfold organizar_nivel_superior. cbn [fs print].
  destruct (fs e !! []) as [[?|]|]; [done| |done]. intros ?; by simplify_eq.
Qed.

Lemma organizar_nivel_superior_pendiente (Inv : sistema → Prop) nombre c linea e :
  (∀ t, iterdir t ≡ₚ nombres_raiz t) →
  (∀ l n, Inv (fs (l_estado l)) → Inv (fs (l_estado (organizar_item denegado self n l)))) →
  (∀ l, Inv (fs (l_estado l)) → fs (l_estado l) !! [nombre] = Some (Archivo c) →
        organizar_item denegado self nombre l
        = mkLocales (print linea (l_estado l)) (archivos_organizados l)
            (archivos_no_organizados l ++ [nombre])) →
  Inv (fs e) →
  fs e !! [] = Some Carpeta →
  fs e !! [nombre] = Some (Archivo c) →
  ∃ e2, organizar_nivel_superior denegado iterdir self e = Normal PyNone e2
        ∧ fs e2 !! [nombre] = Some (Archivo c)
        ∧ linea ∈ salida e2
        ∧ L_pendiente nombre ∈ salida e2.
Proof.
  intros Hperm Hinv Hronda HI Hraiz Hf.
  unfold organizar_nivel_superior. cbn [fs print]. rewrite Hraiz.
  eexists. split; [done|].
  destruct (organizar_items_pendiente denegado self Inv nombre c linea (iterdir (fs e))
              (mkLocales (print L_organizando e) 0 []) Hinv Hronda HI Hf) as [Hfs Hlog].
  destruct Hlog as [Hlinea Hpend].
  { rewrite Hperm. apply elem_of_nombres_raiz. by rewrite Hf. }
  rewrite imprimir_resumen_fs, imprimir_resumen_salida. split_and!; [done| |].
  - apply elem_of_app. by left.
  - apply elem_of_app. right. apply elem_of_app. right.
    destruct (archivos_no_organizados _) as [|n ns] eqn:E; [by apply elem_of_nil in Hpend|].
    right. apply list_elem_of_fmap. eauto.
Qed.

End NivelSuperior.

Lemma identificar_materia_configurada (self : OrganizadorArchivos) (nombre m : string) :
  identificar_materia self nombre = Some m → m ∈ keys (materias_palabras_clave self).
Proof.
  unfold identificar_materia. intros E.
  pose proof (buscar_materia_spec (Str.lower nombre) (materias_palabras_clave self)) as H.
  rewrite E in H. destruct H as (antes & ps & despues & -> & _).
  unfold keys. rewrite fmap_app, fmap_cons. apply elem_of_app. right. left.
Qed.

Lemma obtener_tipo_archivo_del_catalogo (self : OrganizadorArchivos) (extension t : string) :
  obtener_tipo_archivo self extension = Some t → t ∈ keys (tipos_archivos self).
Proof.
  unfold obtener_tipo_archivo. intros E.
  pose proof (buscar_tipo_spec (Str.lower extension) (tipos_archivos self)) as H.
  rewrite E in H. destruct H as (antes & xs & despues & -> & _).
  unfold keys. rewrite fmap_app, fmap_cons. apply elem_of_app. right. left.
Qed.

(** X13. A file of [carpeta_origen] that fails the test
    [if materia and tipo], because no subject is found for its name or
    no type for its extension, is left where it is with its content, is
    reported with the reasons that apply, and is listed among the files
    left pending. *)
Theorem organizar_archivos_no_clasificado
    (denegado : ruta → bool) (rglob : sistema → list ruta) (iterdir : sistema → list string)
    (self : OrganizadorArchivos) (mover crear : bool) (e0 e1 : estado) v
    (nombre c : string) :
  (∀ t, iterdir t ≡ₚ nombres_raiz t) →
  preparar denegado rglob self mover crear e0 = Normal v e1 →
  fs e1 !! [] = Some Carpeta →
  fs e1 !! [nombre] = Some (Archivo c) →
  verdadero (identificar_materia self nombre)
  && verdadero (obtener_tipo_archivo self (suffix nombre)) = false →
  ∃ e2,
    organizar_archivos denegado rglob iterdir self mover crear e0 = Normal PyNone e2
    ∧ fs e2 !! [nombre] = Some (Archivo c)
    ∧ L_no_organizado nombre (motivo_de self nombre) ∈ salida e2
    ∧ L_pendiente nombre ∈ salida e2.
Proof.
  intros Hperm Hprep Hraiz Hf Hv. unfold organizar_archivos. rewrite Hprep. cbn [luego].
  apply (organizar_nivel_superior_pendiente denegado iterdir self (λ _, True) nombre c);
    try done.
  intros l _ Hl. unfold organizar_item, is_dir. by rewrite Hl, Hv.
Qed.

Lemma organizar_archivos_no_clasificado_witness :
  ∃ e2,
    organizar_archivos (λ _, false) rutas_bajo_raiz nombres_raiz ejemplo_organizador
      false false (mkEstado ejemplo_sin_clasificar []) = Normal PyNone e2
    ∧ fs e2 !! ["notas.txt"] = Some (Archivo "apuntes")
    ∧ L_no_organizado "notas.txt" (motivo_de ejemplo_organizador "notas.txt") ∈ salida e2
    ∧ L_pendiente "notas.txt" ∈ salida e2.
Proof.
  apply (organizar_archivos_no_clasificado (λ _, false) rutas_bajo_raiz nombres_raiz
           ejemplo_organizador false false
           (mkEstado ejemplo_sin_clasificar []) (mkEstado ejemplo_sin_clasificar []) PyNone).
  - reflexivity.
  - reflexivity.
  - vm_compute. reflexivity.
  - vm_compute. reflexivity.
  - vm_compute. reflexivity.
Defined.

(** X14. The organizer makes no folder.  Run without
    [crear_estructura], a file whose subject and type resolve, and
    whose type is among the folders of the subject, but whose folder is
    not in the tree, stays in [carpeta_origen] with its content: the
    move fails, the failure is caught, an error line is printed for the
    file, and it is listed among the files left pending. *)
Theorem organizar_archivos_sin_carpeta_destino
    (denegado : ruta → bool) (rglob : sistema → list ruta) (iterdir : sistema → list string)
    (self : OrganizadorArchivos) (mover : bool) (e0 e1 : estado) v
    (nombre m t c : string) :
  (∀ t, iterdir t ≡ₚ nombres_raiz t) →
  preparar denegado rglob self mover false e0 = Normal v e1 →
  bien_formado (fs e1) →
  fs e1 !! [nombre] = Some (Archivo c) →
  identificar_materia self nombre = Some m →
  obtener_tipo_archivo self (suffix nombre) = Some t →
  verdadero (identificar_materia self nombre)
  && verdadero (obtener_tipo_archivo self (suffix nombre)) = true →
  t ∈ obtener_carpetas_para_materia self m →
  fs e1 !! [m; t] ≠ Some Carpeta →
  ∃ e2,
    organizar_archivos denegado rglob iterdir self mover false e0 = Normal PyNone e2
    ∧ fs e2 !! [nombre] = Some (Archivo c)
    ∧ L_error_organizando nombre ∈ salida e2
    ∧ L_pendiente nombre ∈ salida e2.
Proof.
  intros Hperm Hprep Hwf Hf Hm Ht Hv Hsi Hno.
  unfold organizar_archivos. rewrite Hprep. cbn [luego].
  pose proof (Hwf [nombre] _ Hf ltac:(done)) as Hraiz. simpl in Hraiz.
  apply (organizar_nivel_superior_pendiente denegado iterdir self
           (λ a, a !! [m; t] ≠ Some Carpeta ∧ a !! [m; t; nombre] ≠ Some Carpeta) nombre c);
    try done.
  - intros l n [H1 H2]. by rewrite !organizar_item_carpetas.
  - intros l [H1 H2] Hl. unfold organizar_item, is_dir. rewrite Hl, Hv, Hm, Ht. simpl.
    unfold en_lista. rewrite bool_decide_eq_true_2 by done.
    assert (shutil_move denegado [nombre] [m; t; nombre] (fs (l_estado l))
            = Falla PermissionError
            ∨ shutil_move denegado [nombre] [m; t; nombre] (fs (l_estado l))
              = Falla FileNotFoundError) as [-> | ->]; [|done..].
    unfold shutil_move, is_dir. destruct (denegado [nombre]); [by left|]. right.
    rewrite Hl. simpl.
    destruct (fs (l_estado l) !! [m; t; nombre]) as [[?|]|]; [|done|]; simpl;
      by destruct (fs (l_estado l) !! [m; t]) as [[?|]|].
  - split; [done|]. intros E. by pose proof (Hwf _ _ E ltac:(done)).
Qed.

Lemma organizar_archivos_sin_carpeta_destino_witness :
  ∃ e2,
    organizar_archivos (λ _, false) rutas_bajo_raiz nombres_raiz ejemplo_database
      false false (mkEstado (arbol_aplanado "%PDF-1.4") []) = Normal PyNone e2
    ∧ fs e2 !! ["report.pdf"] = Some (Archivo "%PDF-1.4")
    ∧ L_error_organizando "report.pdf" ∈ salida e2
    ∧ L_pendiente "report.pdf" ∈ salida e2.
Proof.
  apply (organizar_archivos_sin_carpeta_destino (λ _, false) rutas_bajo_raiz nombres_raiz
           ejemplo_database false
           (mkEstado (arbol_aplanado "%PDF-1.4") []) (mkEstado (arbol_aplanado "%PDF-1.4") [])
           PyNone "report.pdf" "Database" "pdf" "%PDF-1.4").
  - reflexivity.
  - reflexivity.
  - apply (bool_decide_unpack _). vm_compute. exact I.
  - vm_compute. reflexivity.
  - vm_compute. reflexivity.
  - vm_compute. reflexivity.
  - vm_compute. reflexivity.
  - apply (bool_decide_unpack _). vm_compute. exact I.
  - vm_compute. discriminate.
Defined.

(** X15. The loop of [organizar_archivos] makes no folder, removes
    none and replaces none: the folders of the tree when the run
    returns are those it had when the loop began. *)
Theorem organizar_archivos_carpetas_intactas
    (denegado : ruta → bool) (rglob : sistema → list ruta) (iterdir : sistema → list string)
    (self : OrganizadorArchivos) (mover crear : bool) (e0 e1 e2 : estado) v v' (q : ruta) :
  preparar denegado rglob self mover crear e0 = Normal v e1 →
  organizar_archivos denegado rglob iterdir self mover crear e0 = Normal v' e2 →
  fs e2 !! q = Some Carpeta ↔ fs e1 !! q = Some Carpeta.
Proof.
  intros Hprep. unfold organizar_archivos. rewrite Hprep. cbn [luego].
  intros [_ ->]%organizar_nivel_superior_normal.
  by rewrite imprimir_resumen_fs, organizar_items_carpetas.
Qed.

Lemma organizar_archivos_carpetas_intactas_witness :
  let e0 := mkEstado ejemplo_repetido [] in
  let e2 := estado_final
              (organizar_archivos (λ _, false) rutas_bajo_raiz nombres_raiz
                 ejemplo_organizador false false e0) in
  fs e2 !! ["Base de Datos"; "pdf"] = Some Carpeta
  ↔ fs e0 !! ["Base de Datos"; "pdf"] = Some Carpeta.
Proof.
  apply (organizar_archivos_carpetas_intactas (λ _, false) rutas_bajo_raiz nombres_raiz
           ejemplo_organizador false false (mkEstado ejemplo_repetido [])
           (mkEstado ejemplo_repetido [])
           (estado_final
              (organizar_archivos (λ _, false) rutas_bajo_raiz nombres_raiz
                 ejemplo_organizador false false (mkEstado ejemplo_repetido [])))
           PyNone PyNone).
  - reflexivity.
  - vm_compute. reflexivity.
Defined.

(** X16. Where the files are when [organizar_archivos] returns: a
    file is where it was, with its content, when the loop began, or it
    was a file [n] of [carpeta_origen], with that content, and is now in
    the folder of the subject found for [n] and of the type found for
    its extension, a type the subject has a folder for (under [n], or,
    when that name was a folder there, inside it). *)
Theorem organizar_archivos_procedencia
    (denegado : ruta → bool) (rglob : sistema → list ruta) (iterdir : sistema → list string)
    (self : OrganizadorArchivos) (mover crear : bool) (e0 e1 e2 : estado) v v'
    (q : ruta) (c : string) :
  preparar denegado rglob self mover crear e0 = Normal v e1 →
  organizar_archivos denegado rglob iterdir self mover crear e0 = Normal v' e2 →
  fs e2 !! q = Some (Archivo c) →
  fs e1 !! q = Some (Archivo c)
  ∨ ∃ n m t,
      fs e1 !! [n] = Some (Archivo c)
      ∧ identificar_materia self n = Some m
      ∧ obtener_tipo_archivo self (suffix n) = Some t
      ∧ t ∈ obtener_carpetas_para_materia self m
      ∧ (q = [m; t; n] ∨ q = [m; t; n; n]).
Proof.
  intros Hprep. unfold organizar_archivos. rewrite Hprep. cbn [luego].
  intros [_ ->]%organizar_nivel_superior_normal.
  rewrite imprimir_resumen_fs. intros Hq.
  by apply organizar_items_archivos in Hq.
Qed.

Lemma organizar_archivos_procedencia_witness :
  let e1 := mkEstado ejemplo_repetido [] in
  let self := ejemplo_organizador in
  let q := ["Base de Datos"; "pdf"; "consultas_sql.pdf"] in
  fs e1 !! q = Some (Archivo "version nueva")
  ∨ ∃ n m t,
      fs e1 !! [n] = Some (Archivo "version nueva")
      ∧ identificar_materia self n = Some m
      ∧ obtener_tipo_archivo self (suffix n) = Some t
      ∧ t ∈ obtener_carpetas_para_materia self m
      ∧ (q = [m; t; n] ∨ q = [m; t; n; n]).
Proof.
  apply (organizar_archivos_procedencia (λ _, false) rutas_bajo_raiz nombres_raiz
           ejemplo_organizador false false (mkEstado ejemplo_repetido [])
           (mkEstado ejemplo_repetido [])
           (estado_final
              (organizar_archivos (λ _, false) rutas_bajo_raiz nombres_raiz
                 ejemplo_organizador false false (mkEstado ejemplo_repetido [])))
           PyNone PyNone).
  - reflexivity.
  - vm_compute. reflexivity.
  - vm_compute. reflexivity.
Defined.

(** X17. The two counts of the summary are those of the tree: the
    number printed as organized and the number printed as left over add
    up to the number of files that [carpeta_origen] had when the loop
    began, and the number printed as left over is the number of files
    it has when the run returns. *)
Theorem organizar_archivos_cuenta_todos
    (denegado : ruta → bool) (rglob : sistema → list ruta) (iterdir : sistema → list string)
    (self : OrganizadorArchivos) (mover crear : bool) (e0 e1 e2 : estado) v v' :
  (∀ t, iterdir t ≡ₚ nombres_raiz t) →
  preparar denegado rglob self mover crear e0 = Normal v e1 →
  organizar_archivos denegado rglob iterdir self mover crear e0 = Normal v' e2 →
  ∃ a b antes despues,
    salida e2 = antes ++ [L_separador; L_resumen; L_archivos_organizados a;
                          L_archivos_sin_organizar b] ++ despues
    ∧ a + b = cuantas archivo_de_raiz (fs e1)
    ∧ b = cuantas archivo_de_raiz (fs e2).
Proof.
  intros Hperm Hprep. unfold organizar_archivos. rewrite Hprep. cbn [luego].
  intros [_ ->]%organizar_nivel_superior_normal.
  set (l0 := mkLocales (print L_organizando e1) 0 []).
  set (l' := foldl _ _ _).
  exists (archivos_organizados l'), (length (archivos_no_organizados l')).
  eexists _, _. split; [apply imprimir_resumen_salida|].
  pose proof (organizar_items_cuenta denegado self (iterdir (fs e1)) l0) as Hab.
  pose proof (organizar_items_cuantas denegado self (iterdir (fs e1)) l0) as Ha.
  cbn zeta in Hab, Ha. fold l' in Hab, Ha.
  cbn [l0 archivos_organizados archivos_no_organizados l_estado fs print length] in Hab, Ha.
  rewrite (Hperm (fs e1)), archivos_de_raiz_nombres in Hab.
  rewrite imprimir_resumen_fs. lia.
Qed.

Lemma organizar_archivos_cuenta_todos_witness :
  let e1 := mkEstado ejemplo_repetido [] in
  let e2 := estado_final
              (organizar_archivos (λ _, false) rutas_bajo_raiz nombres_raiz
                 ejemplo_organizador false false e1) in
  ∃ a b antes despues,
    salida e2 = antes ++ [L_separador; L_resumen; L_archivos_organizados a;
                          L_archivos_sin_organizar b] ++ despues
    ∧ a + b = cuantas archivo_de_raiz (fs e1)
    ∧ b = cuantas archivo_de_raiz (fs e2).
Proof.
  apply (organizar_archivos_cuenta_todos (λ _, false) rutas_bajo_raiz nombres_raiz
           ejemplo_organizador false false (mkEstado ejemplo_repetido [])
           (mkEstado ejemplo_repetido [])
           (estado_final
              (organizar_archivos (λ _, false) rutas_bajo_raiz nombres_raiz
                 ejemplo_organizador false false (mkEstado ejemplo_repetido [])))
           PyNone PyNone).
  - reflexivity.
  - reflexivity.
  - vm_compute. reflexivity.
Defined.

(** X18. What the organizer reports has happened and stands when the
    run returns: for every line that reports [n] organized under a
    subject and a type, [n] was a file of [carpeta_origen] when the
    loop began, is gone from it, and its content is in the folder of
    that subject and type under the name [n] (or inside [n] there). *)
Theorem organizar_archivos_lineas_ciertas
    (denegado : ruta → bool) (rglob : sistema → list ruta) (iterdir : sistema → list string)
    (self : OrganizadorArchivos) (mover crear : bool) (e0 e1 e2 : estado) v v' :
  preparar denegado rglob self mover crear e0 = Normal v e1 →
  organizar_archivos denegado rglob iterdir self mover crear e0 = Normal v' e2 →
  ∃ lineas,
    salida e2 = salida e1 ++ lineas
    ∧ organizados_ciertos (fs e1) (fs e2) lineas.
Proof.
  intros Hprep. unfold organizar_archivos. rewrite Hprep. cbn [luego].
  intros [_ ->]%organizar_nivel_superior_normal.
  destruct (organizar_items_ciertos denegado self (iterdir (fs e1))
              (mkLocales (print L_organizando e1) 0 [])) as (N & Hs & Hor).
  cbn [l_estado fs salida print] in Hs, Hor.
  rewrite imprimir_resumen_fs, imprimir_resumen_salida, Hs.
  eexists. split; [by rewrite <- !app_assoc|].
  intros n m t Hin. apply Hor.
  repeat (apply elem_of_app in Hin as [Hin|Hin]); try done.
  - by apply list_elem_of_singleton in Hin.
  - by repeat (apply elem_of_cons in Hin as [?|Hin]; [done|]); apply elem_of_nil in Hin.
  - destruct (archivos_no_organizados _) as [|x xs]; [by apply elem_of_nil in Hin|].
    apply elem_of_cons in Hin as [?|Hin]; [done|].
    by apply list_elem_of_fmap in Hin as (? & ? & ?).
Qed.

Lemma organizar_archivos_lineas_ciertas_witness :
  let e1 := mkEstado ejemplo_repetido [] in
  let e2 := estado_final
              (organizar_archivos (λ _, false) rutas_bajo_raiz nombres_raiz
                 ejemplo_organizador false false e1) in
  ∃ lineas,
    salida e2 = salida e1 ++ lineas
    ∧ organizados_ciertos (fs e1) (fs e2) lineas.
Proof.
  apply (organizar_archivos_lineas_ciertas (λ _, false) rutas_bajo_raiz nombres_raiz
           ejemplo_organizador false false (mkEstado ejemplo_repetido [])
           (mkEstado ejemplo_repetido [])
           (estado_final
              (organizar_archivos (λ _, false) rutas_bajo_raiz nombres_raiz
                 ejemplo_organizador false false (mkEstado ejemplo_repetido [])))
           PyNone PyNone).
  - reflexivity.
  - vm_compute. reflexivity.
Defined.

(** X19. The builder and the organizer together.  Run with
    [crear_estructura], a file of [carpeta_origen] whose subject and
    type resolve (passing the test [if materia and tipo]), whose type is
    among the folders of the subject, whose move is not refused and
    whose name is not that of a folder in the destination, is moved:
    the folder it needs is there because the builder has just made
    sure of it. *)
Theorem organizar_archivos_coloca
    (denegado : ruta → bool) (rglob : sistema → list ruta) (iterdir : sistema → list string)
    (carpeta : Path) (materias : list (string * list string))
    (estructura : option (gmap string (list string)))
    (mover : bool) (e0 e1 : estado) v (nombre m t c : string) :
  let self := init carpeta materias estructura in
  (∀ t, iterdir t ≡ₚ nombres_raiz t) →
  preparar denegado rglob self mover true e0 = Normal v e1 →
  bien_formado (fs e1) →
  fs e1 !! [nombre] = Some (Archivo c) →
  identificar_materia self nombre = Some m →
  obtener_tipo_archivo self (suffix nombre) = Some t →
  verdadero (identificar_materia self nombre)
  && verdadero (obtener_tipo_archivo self (suffix nombre)) = true →
  t ∈ obtener_carpetas_para_materia self m →
  fs e1 !! [m; t; nombre] ≠ Some Carpeta →
  denegado [nombre] = false →
  ∃ e2,
    organizar_archivos denegado rglob iterdir self mover true e0 = Normal PyNone e2
    ∧ fs e2 !! [m; t; nombre] = Some (Archivo c)
    ∧ fs e2 !! [nombre] = None
    ∧ L_organizado nombre m t ∈ salida e2.
Proof.
  intros self Hperm Hprep Hwf Hf Hm Ht Hv Hsi Hdst Hd.
  assert (m ≠ "") as Hne.
  { intros ->. by rewrite Hm in Hv. }
  assert (fs e1 !! [m; t] = Some Carpeta) as Hpar.
  { unfold preparar in Hprep. unfold crear_estructura_carpetas in Hprep.
    apply crear_materias_normal in Hprep as [_ Hped].
    destruct (Hped m) as [_ Htipos]; [by eapply identificar_materia_configurada|].
    by apply Htipos. }
  unfold organizar_archivos. rewrite Hprep. simpl.
  unfold organizar_nivel_superior. simpl.
  pose proof (Hwf [nombre] _ Hf ltac:(done)) as Hraiz. simpl in Hraiz. rewrite Hraiz.
  eexists. split; [done|].
  destruct (organizar_items_sobre denegado carpeta materias estructura nombre m t
              Hm Hne Ht (iterdir (fs e1))
              (mkLocales (print L_organizando e1) 0 []) c Hd Hsi Hf)
    as (H1 & H3 & Hlog); [|done| |].
  { simpl. unfold is_dir. by destruct (fs e1 !! [m; t; nombre]) as [[?|]|]. }
  { rewrite Hperm. apply elem_of_nombres_raiz. by rewrite Hf. }
  rewrite imprimir_resumen_fs, imprimir_resumen_salida. split_and!; [done..|].
  apply elem_of_app. by left.
Qed.

Lemma organizar_archivos_coloca_witness :
  ∃ e2,
    organizar_archivos (λ _, false) rutas_bajo_raiz nombres_raiz ejemplo_database
      false true (mkEstado (arbol_aplanado "%PDF-1.4") []) = Normal PyNone e2
    ∧ fs e2 !! ["Database"; "pdf"; "report.pdf"] = Some (Archivo "%PDF-1.4")
    ∧ fs e2 !! ["report.pdf"] = None
    ∧ L_organizado "report.pdf" "Database" "pdf" ∈ salida e2.
Proof.
  apply (organizar_archivos_coloca (λ _, false) rutas_bajo_raiz nombres_raiz
           (mkPath false ["root"]) [("Database", ["report"])] None false
           (mkEstado (arbol_aplanado "%PDF-1.4") [])
           (estado_final
              (preparar (λ _, false) rutas_bajo_raiz ejemplo_database false true
                 (mkEstado (arbol_aplanado "%PDF-1.4") [])))
           PyNone "report.pdf" "Database" "pdf" "%PDF-1.4").
  - reflexivity.
  - vm_compute. reflexivity.
  - apply (bool_decide_unpack _). vm_compute. exact I.
  - vm_compute. reflexivity.
  - vm_compute. reflexivity.
  - vm_compute. reflexivity.
  - vm_compute. reflexivity.
  - apply (bool_decide_unpack _). vm_compute. exact I.
  - vm_compute. discriminate.
  - reflexivity.
Defined.

(** ** Whole runs *)

Section NombreDeMateria.

Variable denegado : ruta → bool.
Variable self : OrganizadorArchivos.

(** A file of a subfolder that is free to move and is called as a
    subject leaves, after the first loop, a file of that name in
    [carpeta_origen], unless a folder has the name. *)
Lemma mover_items_nombre_de_materia items s (item : ruta) c :
  item ∈ items →
  fs s.1 !! item = Some (Archivo c) → fs s.1 !! [] = Some Carpeta →
  2 ≤ length item →
  en_carpeta_de_materia self (Path_parent (Path_div (carpeta_origen self) item)) = false →
  denegado item = false →
  fs s.1 !! [List.last item ""] ≠ Some Carpeta →
  is_file (fs (foldl (flip (mover_item denegado self)) s items).1) [List.last item ""] = true.
Proof.
  intros Hin Hf Hraiz Hlen Hfuera Hden Hno.
  apply list_elem_of_split_l in Hin as (l1 & l2 & -> & Hl1).
  rewrite foldl_app. cbn [foldl].
  set (s1 := foldl (flip (mover_item denegado self)) s l1).
  assert (fs s1.1 !! item = Some (Archivo c)) as Hf1.
  { unfold s1. by rewrite mover_items_marco. }
  assert (fs s1.1 !! [] = Some Carpeta) as Hraiz1.
  { unfold s1. by apply mover_items_carpetas. }
  assert (fs s1.1 !! [List.last item ""] ≠ Some Carpeta) as Hno1.
  { unfold s1. by rewrite mover_items_carpetas. }
  assert (is_file (fs (flip (mover_item denegado self) s1 item).1) [List.last item ""] = true)
    as Hya.
  { unfold flip. destruct s1 as [e1 k1]. cbn [fst] in *.
    destruct (mover_item_movido denegado self item e1 k1 c Hf1 Hraiz1) as (d & Hd & ->);
      [by apply parent_no_raiz|done..|].
    cbn [fst fs print con_fs]. unfold is_file.
    destruct (destino_libre_spec (fs e1) (List.last item ""))
      as (d' & Hd' & Hlibre & [->|([x Hx] & k & _ & -> & _)]); rewrite Hd in Hd'; simplify_eq.
    - by rewrite lookup_insert_eq.
    - rewrite lookup_insert_ne by (intros [= E]; rewrite <- E in Hlibre; congruence).
      rewrite lookup_delete_ne by (intros E; apply (f_equal length) in E; simpl in E; lia).
      rewrite Hx. by destruct x. }
  unfold is_file in Hya |- *.
  destruct (fs (flip (mover_item denegado self) s1 item).1 !! [List.last item ""])
    as [[c'|]|] eqn:Hc'; [|done..].
  pose proof (mover_items_conserva denegado self l2 (flip (mover_item denegado self) s1 item))
    as (_ & Hkeep & _).
  by rewrite (Hkeep _ _ Hc').
Qed.

End NombreDeMateria.

Section Procedencia.

Variable denegado : ruta → bool.
Variable rglob : sistema → list ruta.
Variable iterdir : sistema → list string.
Variable self : OrganizadorArchivos.

(** Below the folders the flattener only removes. *)
Lemma mover_archivos_de_subcarpetas_solo_quita e (q : ruta) x :
  2 ≤ length q →
  fs (mover_archivos_de_subcarpetas denegado rglob self e).2 !! q = Some x →
  fs e !! q = Some x.
Proof.
  intros Hlen. rewrite mover_archivos_de_subcarpetas_eq. cbn [snd fs print].
  unfold tras_eliminar. intros Hq%eliminar_carpetas_solo_quita. cbn [fst fs print] in Hq.
  unfold tras_mover in Hq. by apply mover_items_solo_quita in Hq.
Qed.

(** However a run ends, a file that is then below a folder of a folder
    was there before the run, or is in the folder of a subject and of a
    type of that subject, under the name of a file the run classified
    so. *)
Lemma organizar_archivos_bajo_carpetas mover crear e (q : ruta) c :
  3 ≤ length q →
  fs (estado_final (organizar_archivos denegado rglob iterdir self mover crear e)) !! q
  = Some (Archivo c) →
  fs e !! q = Some (Archivo c)
  ∨ ∃ n m t,
      identificar_materia self n = Some m
      ∧ obtener_tipo_archivo self (suffix n) = Some t
      ∧ t ∈ obtener_carpetas_para_materia self m
      ∧ (q = [m; t; n] ∨ q = [m; t; n; n]).
Proof.
  intros Hlen. unfold organizar_archivos, preparar.
  set (e_f := if mover then _ else e).
  assert (∀ x, fs e_f !! q = Some x → fs e !! q = Some x) as Hf.
  { unfold e_f. destruct mover; [|done]. intros x.
    apply mover_archivos_de_subcarpetas_solo_quita. lia. }
  set (r1 := if crear then _ else _).
  assert (fs (estado_final r1) !! q = Some (Archivo c) → fs e !! q = Some (Archivo c)) as H1.
  { unfold r1. destruct crear; [|by apply Hf]. unfold crear_estructura_carpetas.
    intros [?|[? _]]%crear_materias_nuevo; [by apply Hf|done]. }
  destruct r1 as [v e1|x e1]; cbn [luego estado_final] in *; [|auto].
  unfold organizar_nivel_superior. cbn [fs print].
  destruct (fs e1 !! []) as [[?|]|]; cbn [estado_final fs print]; [auto| |auto].
  rewrite imprimir_resumen_fs.
  intros [?|(n & m & t & _ & ? & ? & ? & ?)]%organizar_items_archivos; [auto|].
  right. by exists n, m, t.
Qed.

End Procedencia.

(** X20. The flattener can set the builder up to fail.  A file in a
    subfolder whose name is exactly the name of a subject, when
    [carpeta_origen] has no folder of that name and the move is not
    refused, leaves a file of that name in [carpeta_origen] after the
    flattening; the builder's [mkdir] for the subject then raises
    [FileExistsError], and the full run ends with it. *)
Theorem organizar_archivos_nombre_de_materia
    (denegado : ruta → bool) (rglob : sistema → list ruta) (iterdir : sistema → list string)
    (self : OrganizadorArchivos) (e : estado) (item : ruta) (c : string) :
  (∀ t, rglob t ≡ₚ rutas_bajo_raiz t) →
  fs e !! [] = Some Carpeta →
  fs e !! item = Some (Archivo c) →
  2 ≤ length item →
  List.last item "" ∈ keys (materias_palabras_clave self) →
  en_carpeta_de_materia self (Path_parent (Path_div (carpeta_origen self) item)) = false →
  denegado item = false →
  fs e !! [List.last item ""] ≠ Some Carpeta →
  ∃ e', organizar_archivos denegado rglob iterdir self true true e
        = Excepcion FileExistsError e'.
Proof.
  intros Hperm Hraiz Hf Hlen Hm Hfuera Hden Hno.
  unfold organizar_archivos, preparar.
  set (e1 := (mover_archivos_de_subcarpetas denegado rglob self e).2).
  assert (fs e1 !! [] = Some Carpeta) as Hraiz1.
  { pose proof (mover_archivos_de_subcarpetas_conserva denegado self rglob e) as (Hr & _).
    by apply Hr. }
  assert (is_file (fs e1) [List.last item ""] = true) as Hfile.
  { unfold e1. rewrite mover_archivos_de_subcarpetas_eq. cbn [snd fs print].
    pose proof (mover_items_nombre_de_materia denegado self (rglob (fs e))
                  (print L_moviendo_de_subcarpetas e, 0) item c) as H.
    unfold is_file in H |- *.
    destruct (fs (foldl _ _ (rglob (fs e))).1 !! [List.last item ""]) as [[c'|]|] eqn:Hc'.
    - unfold tras_eliminar.
      by rewrite (eliminar_carpetas_archivos denegado self _ _ _ c').
    - exfalso. apply not_true_iff_false in H; [done|try done..].
      rewrite Hperm. apply elem_of_rutas_bajo_raiz. split_and!; [done| |by rewrite Hf].
      intros ->. simpl in Hlen. lia.
    - exfalso. apply not_true_iff_false in H; [done|try done..].
      rewrite Hperm. apply elem_of_rutas_bajo_raiz. split_and!; [done| |by rewrite Hf].
      intros ->. simpl in Hlen. lia. }
  unfold crear_estructura_carpetas.
  pose proof (crear_materias_resultado self (keys (materias_palabras_clave self))
                (print L_creando_estructura e1) Hraiz1) as H.
  destruct (crear_materias self _ _) as [v e'|x e'].
  - destruct (H _ Hm) as [H1 _]. cbn [fs print] in H1. congruence.
  - destruct H as [-> _]. by exists e'.
Qed.

Lemma organizar_archivos_nombre_de_materia_witness :
  ∃ e', organizar_archivos (λ _, false) rutas_bajo_raiz nombres_raiz ejemplo_organizador
          true true (mkEstado ejemplo_archivo_materia [])
        = Excepcion FileExistsError e'.
Proof.
  apply (organizar_archivos_nombre_de_materia (λ _, false) rutas_bajo_raiz nombres_raiz
           ejemplo_organizador (mkEstado ejemplo_archivo_materia [])
           ["sub"; "Base de Datos"] "indice").
  - reflexivity.
  - vm_compute. reflexivity.
  - vm_compute. reflexivity.
  - simpl. lia.
  - apply (bool_decide_unpack _). vm_compute. exact I.
  - vm_compute. reflexivity.
  - reflexivity.
  - vm_compute. discriminate.
Defined.


(** ** A second run *)

Section Estable.

Variable denegado : ruta → bool.
Variable self : OrganizadorArchivos.

Implicit Types (l : locales) (n : string) (t : sistema).










End Estable.

Section SegundaVuelta.

Variable denegado : ruta → bool.
Variable rglob : sistema → list ruta.
Variable iterdir : sistema → list string.
Hypothesis rglob_permutacion : ∀ t, rglob t ≡ₚ rutas_bajo_raiz t.
Hypothesis iterdir_permutacion : ∀ t, iterdir t ≡ₚ nombres_raiz t.
Variable self : OrganizadorArchivos.

Implicit Types (l : locales) (n : string) (e : estado).











End SegundaVuelta.



(** ** Classification, further *)

(** X22. An empty keyword matches every name: when some subject has
    the empty string among its keywords, [identificar_materia] finds a
    subject for every file name. *)
Theorem identificar_materia_palabra_vacia (self : OrganizadorArchivos)
    (materia : string) (palabras : list string) (nombre : string) :
  (materia, palabras) ∈ materias_palabras_clave self →
  "" ∈ palabras →
  ∃ m, identificar_materia self nombre = Some m.
Proof.
  intros Hm Hp. unfold identificar_materia.
  pose proof (buscar_materia_spec (Str.lower nombre) (materias_palabras_clave self)) as H.
  destruct (buscar_materia _ _) as [m|]; [by exists m|].
  specialize (H _ _ Hm). apply not_true_iff_false in H. destruct H.
  apply alguna_palabra_spec. exists "". split; [done|].
  apply contains_spec. exists "", (Str.lower nombre). reflexivity.
Qed.

Lemma identificar_materia_palabra_vacia_witness :
  ∃ m, identificar_materia (init (mkPath false []) [("Varios", [""])] None) "foto.jpg"
       = Some m.
Proof.
  apply (identificar_materia_palabra_vacia
           (init (mkPath false []) [("Varios", [""])] None) "Varios" [""] "foto.jpg").
  - apply (bool_decide_unpack _). vm_compute. exact I.
  - apply (bool_decide_unpack _). vm_compute. exact I.
Defined.

(** X23. No extension of the catalog is listed under two types, so
    the order of the catalog decides nothing: [obtener_tipo_archivo]
    returns a type exactly when the lower-cased extension is listed
    under that type. *)
Theorem obtener_tipo_archivo_sin_ambiguedad
    (carpeta : Path) (materias : list (string * list string))
    (estructura : option (gmap string (list string))) (extension tipo : string) :
  let self := init carpeta materias estructura in
  obtener_tipo_archivo self extension = Some tipo
  ↔ ∃ extensiones, (tipo, extensiones) ∈ tipos_archivos self
                   ∧ Str.lower extension ∈ extensiones.
Proof.
  intros self. unfold obtener_tipo_archivo. split.
  - pose proof (buscar_tipo_spec (Str.lower extension) (tipos_archivos self)) as H.
    intros E. rewrite E in H. destruct H as (antes & xs & despues & Hcat & Hx & _).
    exists xs. split; [|done]. rewrite Hcat. apply elem_of_app. right. left.
  - intros (xs & Hcat & Hx). generalize dependent (Str.lower extension). intros x Hx.
    cbn [tipos_archivos self init] in *.
    repeat (apply elem_of_cons in Hcat as [Hcat|Hcat];
            [simplify_eq;
             repeat (apply elem_of_cons in Hx as [->|Hx]; [reflexivity|]);
             by apply elem_of_nil in Hx|]).
    by apply elem_of_nil in Hcat.
Qed.

(** ** [main] *)

Lemma lower_s (r : string) : Str.lower r = "s" ↔ r = "s" ∨ r = "S".
Proof.
  split.
  - destruct r as [|c [|c' r]]; [done| |done]. simpl. intros [= E].
    destruct c as [[] [] [] [] [] [] [] []]; vm_compute in E; try discriminate; auto.
  - by intros [-> | ->].
Qed.

(** X24. [main] goes on only when the answer is [s] or [S].  On any
    other line, [si], [yes] and the empty line among them, it prints
    the heading and that the operation is cancelled, and leaves the
    tree as it is. *)
Theorem main_solo_con_s
    (denegado : ruta → bool) (rglob : sistema → list ruta) (iterdir : sistema → list string)
    (abspath entrada_usuario : string) (t : sistema) :
  entrada_usuario ≠ "s" → entrada_usuario ≠ "S" →
  main denegado rglob iterdir abspath entrada_usuario t
  = mkFinal None t (cabecera abspath ++ [M_operacion_cancelada]).
Proof.
  intros Hs HS. unfold main. rewrite bool_decide_eq_true_2; [done|].
  intros [?|?]%lower_s; done.
Qed.

Lemma main_solo_con_s_witness :
  main (λ _, false) rutas_bajo_raiz nombres_raiz "/home/alumno" "si" ejemplo_codigos
  = mkFinal None ejemplo_codigos (cabecera "/home/alumno" ++ [M_operacion_cancelada]).
Proof.
  apply (main_solo_con_s (λ _, false) rutas_bajo_raiz nombres_raiz "/home/alumno" "si"
           ejemplo_codigos); discriminate.
Defined.

(** X25. The configuration of [main] asks, for [Estructura de Datos],
    for a folder [codigos]; the catalog has the type [codigo].  So
    whatever the tree and the answer, [main] puts no file in
    [Estructura de Datos/codigos]: a file found there afterwards was
    there before. *)
Theorem main_codigos_sin_archivos
    (denegado : ruta → bool) (rglob : sistema → list ruta) (iterdir : sistema → list string)
    (abspath entrada_usuario : string) (t : sistema) (n c : string) :
  fs_main (main denegado rglob iterdir abspath entrada_usuario t)
    !! ["Estructura de Datos"; "codigos"; n] = Some (Archivo c) →
  t !! ["Estructura de Datos"; "codigos"; n] = Some (Archivo c).
Proof.
  unfold main. case_bool_decide; [done|].
  set (organizador := init _ _ _).
  pose proof (organizar_archivos_bajo_carpetas denegado rglob iterdir organizador true true
                (mkEstado t []) ["Estructura de Datos"; "codigos"; n] c ltac:(simpl; lia))
    as Hrun.
  intros Hq.
  destruct Hrun as [?|(n' & m & t' & _ & Ht & _ & [E|E])]; [|done| |done].
  - by destruct (organizar_archivos _ _ _ _ _ _ _).
  - simplify_eq. apply obtener_tipo_archivo_del_catalogo in Ht.
    cbn in Ht. repeat (apply elem_of_cons in Ht as [Ht|Ht]; [discriminate|]).
    by apply elem_of_nil in Ht.
Qed.

Lemma main_codigos_sin_archivos_witness :
  ejemplo_codigos !! ["Estructura de Datos"; "codigos"; "pila.py"]
  = Some (Archivo "class Pila").
Proof.
  apply (main_codigos_sin_archivos (λ _, false) rutas_bajo_raiz nombres_raiz
           "/home/alumno" "s" ejemplo_codigos "pila.py" "class Pila").
  vm_compute. reflexivity.
Defined.
